(** * SC.View: element lifecycle, class-name bindings and the view registry

    A shallow embedding of [SC.View] (sproutcore-views, [views/view.js]).

    Views are JavaScript objects that refer to one another ([parentView],
    [childViews]) and share arrays, so the embedding keeps them in a store:
    a heap of view objects indexed by object identity, a store of arrays, the
    global hash [SC.View.views], and the list of observers registered through
    [SC.addObserver].  Calls to the collaborators that live outside the
    package (the render buffer, jQuery, the lifecycle hooks a subclass may
    override) are recorded in order, in the buffer and in the trace.

    Recursive methods walk the heap, so they take a [fuel] bound; they return
    an [outcome]: a result, a JavaScript exception, or exhausted fuel. *)

From Stdlib Require Import ZArith Lia Ascii String.
From stdpp Require Import gmap strings list fin_maps.

Set Warnings "-register-all".

(** ** Outcomes *)

Inductive outcome (A : Type) : Type :=
| Ret (a : A)
| Throw
| OutOfFuel.
Arguments Ret {A} a.
Arguments Throw {A}.
Arguments OutOfFuel {A}.

#[global] Instance outcome_ret : MRet outcome := λ A a, Ret a.
#[global] Instance outcome_bind : MBind outcome := λ A B f m,
  match m with
  | Ret a => f a
  | Throw => Throw
  | OutOfFuel => OutOfFuel
  end.

Definition of_option {A} (o : option A) : outcome A :=
  match o with
  | Some a => Ret a
  | None => Throw
  end.

(** ** JavaScript values *)

Definition vid := nat.   (* identity of a view object *)
Definition loc := nat.   (* identity of an array *)

Inductive value : Type :=
| VUndef
| VNull
| VBool (b : bool)
| VNum (n : Z)
| VStr (s : string)
| VView (v : vid)
| VObj (fields : list (string * value)).

(** [if (x)] *)
Definition truthy (x : value) : bool :=
  match x with
  | VUndef | VNull => false
  | VBool b => b
  | VNum n => negb (n =? 0)%Z
  | VStr s => negb (String.eqb s "")
  | VView _ | VObj _ => true
  end.

(** [x === true] *)
Definition is_true (x : value) : bool :=
  match x with
  | VBool true => true
  | _ => false
  end.

(** [x !== false && x !== undefined && x !== null] *)
Definition is_present (x : value) : bool :=
  match x with
  | VBool false | VUndef | VNull => false
  | _ => true
  end.

(** [x === view], for a view object [v] *)
Definition is_view (v : vid) (x : value) : bool :=
  match x with
  | VView w => Nat.eqb v w
  | _ => false
  end.

(** ** Strings *)

(** [s.split(c)] for a one-character separator: never empty. *)
Fixpoint split_on (c : ascii) (s : string) : list string :=
  match s with
  | EmptyString => [EmptyString]
  | String a s' =>
      if Ascii.eqb a c then EmptyString :: split_on c s'
      else match split_on c s' with
           | w :: ws => String a w :: ws
           | [] => [String a EmptyString]
           end
  end.

Definition colon : ascii := ":"%char.
Definition dot : ascii := "."%char.

(** [get(array, 'lastObject')] of an array of strings *)
Definition lastObject (l : list string) : string := List.last l "".

Fixpoint digits (fuel n : nat) (acc : string) : string :=
  match fuel with
  | 0 => acc
  | S f =>
      let d := String (ascii_of_nat (48 + n mod 10)%nat) acc in
      if (n / 10 =? 0)%nat then d else digits f (n / 10)%nat d
  end.

(** What [Array.prototype.join] writes for one entry. *)
Definition join_text (x : value) : string :=
  match x with
  | VUndef | VNull => ""
  | VBool true => "true"
  | VBool false => "false"
  | VNum n =>
      match n with
      | Z0 => "0"
      | Zpos p => digits (Pos.to_nat p) (Pos.to_nat p) ""
      | Zneg p => "-" +:+ digits (Pos.to_nat p) (Pos.to_nat p) ""
      end
  | VStr s => s
  | VView _ | VObj _ => "[object Object]"
  end.

(** [array.join(sep)] *)
Fixpoint join (sep : string) (l : list value) : string :=
  match l with
  | [] => ""
  | [x] => join_text x
  | x :: rest => join_text x +:+ sep +:+ join sep rest
  end.

(** ** The render buffer and the DOM

    [SC.RenderBuffer] is outside this package.  A buffer is represented by
    the calls made on it, in order: [begin] opens a nested scope and [end]
    closes the innermost one, the other calls write into the scope that is
    open.  The element a buffer materializes is represented by the calls that
    built it. *)

Inductive BufCall : Type :=
| BCreate (tagName : string)              (* SC.RenderBuffer(tagName) *)
| BBegin (tagName : string)               (* buffer.begin(tagName) *)
| BEnd                                    (* buffer.end() *)
| BAddClass (names : string)              (* buffer.addClass(names) *)
| BId (id : string)                       (* buffer.id(id) *)
| BAttr (name : string) (val : string)    (* buffer.attr(name, val) *)
| BStyle (name : string) (val : string)   (* buffer.style(name, val) *)
| BPush (html : string).                  (* buffer.push(html) *)

Definition RenderBuffer := list BufCall.

Inductive Elem : Type :=
| Element (built : RenderBuffer).

(** Effects on collaborators, in the order in which the view makes them. *)
Inductive Event : Type :=
| DidCreateElement (v : vid)                       (* view.didCreateElement() *)
| WillDestroyElement (v : vid)                     (* view.willDestroyElement() *)
| JqRemove (e : Elem)                              (* SC.$(elem).remove() *)
| JqAddClass (target : option Elem) (c : value)    (* this.$().addClass(c) *)
| JqRemoveClass (target : option Elem) (c : value) (* this.$().removeClass(c) *)
| LoggerError (key : string).                      (* SC.Logger.error(...) *)

(** ** View objects *)

(** The cache of the computed property [element]: the value stored by
    [set(this, 'element', value)], which may be [null], until a change of
    [parentView] or of the parent's element invalidates it.  Values the
    getter computes from the parent's element are looked up at each [get]. *)
Inductive ElementCache : Type :=
| NotCached
| Cached (e : option Elem).

Record View : Type := mkView {
  elementId : string;              (* fixed when the view is created *)
  tagName : string;
  ariaRole : value;
  isVisible : bool;
  template : option string;        (* the template found, as the HTML it returns *)
  parentView : option vid;
  childViews : loc;
  classNameBindings : loc;
  classNames : loc;
  element : ElementCache;
  didRenderChildViews : bool;      (* _didRenderChildViews *)
  elementNeedsUpdate : bool;
  isDestroyed : bool;
  props : gmap string value        (* the properties a subclass or instance adds *)
}.

Definition with_parentView (p : option vid) (w : View) : View :=
  mkView (elementId w) (tagName w) (ariaRole w) (isVisible w) (template w) p
    (childViews w) (classNameBindings w) (classNames w) (element w)
    (didRenderChildViews w) (elementNeedsUpdate w) (isDestroyed w) (props w).

Definition with_childViews (a : loc) (w : View) : View :=
  mkView (elementId w) (tagName w) (ariaRole w) (isVisible w) (template w)
    (parentView w) a (classNameBindings w) (classNames w) (element w)
    (didRenderChildViews w) (elementNeedsUpdate w) (isDestroyed w) (props w).

Definition with_classNameBindings (a : loc) (w : View) : View :=
  mkView (elementId w) (tagName w) (ariaRole w) (isVisible w) (template w)
    (parentView w) (childViews w) a (classNames w) (element w)
    (didRenderChildViews w) (elementNeedsUpdate w) (isDestroyed w) (props w).

Definition with_classNames (a : loc) (w : View) : View :=
  mkView (elementId w) (tagName w) (ariaRole w) (isVisible w) (template w)
    (parentView w) (childViews w) (classNameBindings w) a (element w)
    (didRenderChildViews w) (elementNeedsUpdate w) (isDestroyed w) (props w).

Definition with_element (c : ElementCache) (w : View) : View :=
  mkView (elementId w) (tagName w) (ariaRole w) (isVisible w) (template w)
    (parentView w) (childViews w) (classNameBindings w) (classNames w) c
    (didRenderChildViews w) (elementNeedsUpdate w) (isDestroyed w) (props w).

Definition with_didRenderChildViews (b : bool) (w : View) : View :=
  mkView (elementId w) (tagName w) (ariaRole w) (isVisible w) (template w)
    (parentView w) (childViews w) (classNameBindings w) (classNames w)
    (element w) b (elementNeedsUpdate w) (isDestroyed w) (props w).

Definition with_elementNeedsUpdate (b : bool) (w : View) : View :=
  mkView (elementId w) (tagName w) (ariaRole w) (isVisible w) (template w)
    (parentView w) (childViews w) (classNameBindings w) (classNames w)
    (element w) (didRenderChildViews w) b (isDestroyed w) (props w).

Definition with_isDestroyed (b : bool) (w : View) : View :=
  mkView (elementId w) (tagName w) (ariaRole w) (isVisible w) (template w)
    (parentView w) (childViews w) (classNameBindings w) (classNames w)
    (element w) (didRenderChildViews w) (elementNeedsUpdate w) b (props w).

Definition with_props (m : gmap string value) (w : View) : View :=
  mkView (elementId w) (tagName w) (ariaRole w) (isVisible w) (template w)
    (parentView w) (childViews w) (classNameBindings w) (classNames w)
    (element w) (didRenderChildViews w) (elementNeedsUpdate w) (isDestroyed w) m.

(** An observer installed by [_applyClassNameBindings]: the closure created
    for one entry of [classNameBindings], with the variables it closes over. *)
Record Observer : Type := mkObserver {
  obs_target : vid;        (* first argument of SC.addObserver *)
  obs_key : string;        (* second argument: the key that is observed *)
  obs_binding : string;    (* [property], as the closure reads it *)
  obs_oldClass : value     (* [oldClass], shared with the loop body *)
}.

Definition with_oldClass (c : value) (o : Observer) : Observer :=
  mkObserver (obs_target o) (obs_key o) (obs_binding o) c.

(** ** Program state *)

Record State : Type := mkState {
  heap : gmap vid View;
  childArrays : gmap loc (list value);   (* arrays held in [childViews] *)
  classArrays : gmap loc (list value);   (* [classNames], [classNameBindings] *)
  views : gmap string vid;               (* SC.View.views *)
  observers : list Observer;             (* registered by SC.addObserver, oldest first *)
  trace : list Event                     (* oldest first *)
}.

Definition set_heap (h : gmap vid View) (s : State) : State :=
  mkState h (childArrays s) (classArrays s) (views s) (observers s) (trace s).

Definition set_childArrays (a : gmap loc (list value)) (s : State) : State :=
  mkState (heap s) a (classArrays s) (views s) (observers s) (trace s).

Definition set_classArrays (a : gmap loc (list value)) (s : State) : State :=
  mkState (heap s) (childArrays s) a (views s) (observers s) (trace s).

Definition set_views (r : gmap string vid) (s : State) : State :=
  mkState (heap s) (childArrays s) (classArrays s) r (observers s) (trace s).

Definition set_observers (o : list Observer) (s : State) : State :=
  mkState (heap s) (childArrays s) (classArrays s) (views s) o (trace s).

Definition emit (e : Event) (s : State) : State :=
  mkState (heap s) (childArrays s) (classArrays s) (views s) (observers s)
    (trace s ++ [e]).

Definition update_view (v : vid) (f : View → View) (s : State) : State :=
  set_heap (alter f v (heap s)) s.

Definition lookup_view (s : State) (v : vid) : outcome View :=
  of_option (heap s !! v).

(** A method call on an array entry: the entry has to be a view. *)
Definition as_view (x : value) : outcome vid :=
  match x with
  | VView v => Ret v
  | _ => Throw
  end.

Definition as_string (x : value) : outcome string :=
  match x with
  | VStr s => Ret s
  | _ => Throw
  end.

(** ** Collaborators outside the package *)

Class Runtime : Type := {
  (** [SC.String.dasherize] *)
  dasherize : string → string;
  (** [jQuery('#' + id)[0] || jQuery('#' + id, parentElem)[0]] *)
  jQuery_id : string → Elem → option Elem;
  (** Whether every object has a member of that name from [SC.Object] or
      from the language, as it has [toString]. *)
  object_member : string → bool
}.

(** ** Property access *)

(** Modelled from the spec: [SC.get(view, key)] of the property system,
    which is outside the package ("an external collaborator exposing
    get/set/addObserver"), for the keys a class-name binding may name: the
    fields of the view and the plain properties it holds.  The methods and
    the arrays of the class are no values of the embedding. *)
Definition get (w : View) (key : string) : value :=
  if String.eqb key "elementId" then VStr (elementId w)
  else if String.eqb key "tagName" then VStr (tagName w)
  else if String.eqb key "ariaRole" then ariaRole w
  else if String.eqb key "isVisible" then VBool (isVisible w)
  else if String.eqb key "isDestroyed" then VBool (isDestroyed w)
  else if String.eqb key "isView" then VBool true
  else if String.eqb key "parentView" then
    match parentView w with
    | Some p => VView p
    | None => VNull
    end
  else default VUndef (props w !! key).

Definition field (fields : list (string * value)) (key : string) : value :=
  match List.find (λ kv, String.eqb (fst kv) key) fields with
  | Some kv => snd kv
  | None => VUndef
  end.

Definition get_value (s : State) (x : value) (key : string) : value :=
  match x with
  | VView v =>
      match heap s !! v with
      | Some w => get w key
      | None => VUndef
      end
  | VObj fields => field fields key
  | _ => VUndef
  end.

(** [SC.getPath(view, path)]: one [get] per segment of the path. *)
Definition getPath (s : State) (v : vid) (path : string) : value :=
  fold_left (get_value s) (split_on dot path) (VView v).

Fixpoint foldM {A B : Type} (f : A → B → outcome A) (l : list B) (a : A) : outcome A :=
  match l with
  | [] => Ret a
  | x :: rest => a' ← f a x; foldM f rest a'
  end.

Section SCView.
Context `{Runtime}.

(** ** Class-name bindings *)

(** [_classStringForProperty] (view.js, lines 252-278) *)
Definition _classStringForProperty (s : State) (v : vid) (property : string) : value :=
  let split := split_on colon property in
  let className := split !! 1 in
  let property := default "" (split !! 0) in
  let val := getPath s v property in
  if is_true val then
    match className with
    | Some c =>
        if truthy (VStr c) then VStr c
        else VStr (dasherize (lastObject (split_on dot property)))
    | None => VStr (dasherize (lastObject (split_on dot property)))
    end
  else if is_present val then val
  else VNull.

(** The body of the function passed to [classBindings.forEach] (lines
    196-240): it registers the observer for [property], which is the array
    entry as it stands, and pushes the current class onto [classNames]. *)
Definition bind_className (v : vid) (classNames : loc) (s : State) (entry : value)
  : outcome State :=
  property ← as_string entry;
  let idx := length (observers s) in
  let s1 := set_observers (observers s ++ [mkObserver v property property VUndef]) s in
  let dasherizedClass := _classStringForProperty s1 v property in
  if truthy dasherizedClass then
    arr ← of_option (classArrays s1 !! classNames);
    let s2 := set_classArrays (<[classNames := arr ++ [dasherizedClass]]> (classArrays s1)) s1 in
    Ret (set_observers (alter (with_oldClass dasherizedClass) idx (observers s2)) s2)
  else Ret s1.

(** [_applyClassNameBindings] (lines 186-241).  [forEach] visits the indices
    below the length the array has at the call; the loop body only appends
    to arrays, so these are the entries the array has at the call. *)
Definition _applyClassNameBindings (s : State) (v : vid) : outcome State :=
  w ← lookup_view s v;
  match classArrays s !! classNameBindings w with
  | None => Ret s
  | Some classBindings => foldM (bind_className v (classNames w)) classBindings s
  end.

(** ** The element property *)

(** [findElementInParentElement] (lines 415-418) *)
Definition findElementInParentElement (w : View) (parentElem : Elem) : option Elem :=
  jQuery_id (elementId w) parentElem.

(** [get(view, 'element')]: the getter of lines 290-298. *)
Fixpoint get_element (fuel : nat) (s : State) (v : vid) : outcome (option Elem) :=
  match fuel with
  | 0 => OutOfFuel
  | S fuel' =>
      w ← lookup_view s v;
      match element w with
      | Cached e => Ret e
      | NotCached =>
          match parentView w with
          | None => Ret None
          | Some p =>
              parent ← get_element fuel' s p;
              match parent with
              | Some parentElem => Ret (findElementInParentElement w parentElem)
              | None => Ret None
              end
          end
      end
  end.

(** [this.$()] (lines 311-321), without a selector: the element, or the
    empty jQuery object. *)
Definition dollar (fuel : nat) (s : State) (v : vid) : outcome (option Elem) :=
  get_element fuel s v.

(** ** Iteration over child views *)

Definition entry_at (s : State) (a : loc) (idx : nat) : value :=
  default VUndef (default [] (childArrays s !! a) !! idx).

(** The loop of [forEachChildView] (lines 338-349): [idx] runs upwards over
    the length read before the loop, and each entry is read when its turn
    comes.  [st] projects the state out of what the callback threads. *)
Fixpoint forEach_from {A : Type} (st : A → State) (callback : A → value → outcome A)
    (a : loc) (idx n : nat) (acc : A) : outcome A :=
  match n with
  | 0 => Ret acc
  | S n' =>
      acc' ← callback acc (entry_at (st acc) a idx);
      forEach_from st callback a (S idx) n' acc'
  end.

Definition forEachChildView {A : Type} (st : A → State)
    (callback : A → value → outcome A) (v : vid) (acc : A) : outcome A :=
  w ← lookup_view (st acc) v;
  arr ← of_option (childArrays (st acc) !! childViews w);
  forEach_from st callback (childViews w) 0 (length arr) acc.

(** The loop of [mutateChildViews] (lines 324-335): [idx] runs downwards
    from the length read before the loop. *)
Fixpoint mutate_from (callback : State → value → outcome State)
    (a : loc) (idx : nat) (s : State) : outcome State :=
  match idx with
  | 0 => Ret s
  | S idx' =>
      s' ← callback s (entry_at s a idx');
      mutate_from callback a idx' s'
  end.

Definition mutateChildViews (callback : State → value → outcome State)
    (v : vid) (s : State) : outcome State :=
  w ← lookup_view s v;
  arr ← of_option (childArrays s !! childViews w);
  mutate_from callback (childViews w) (length arr) s.

(** ** Changes of [element] and [parentView] *)

(** [_sccv_elementDidChange] (lines 543-547): [SC.propertyDidChange(view,
    'element')] on each child drops the child's cached element and runs the
    child's own observer of [element], which is this method again.
    [_sccv_elementWillChange] walks the same children before the change and
    changes nothing. *)
Fixpoint _sccv_elementDidChange (fuel : nat) (s : State) (v : vid) : outcome State :=
  match fuel with
  | 0 => OutOfFuel
  | S fuel' =>
      forEachChildView id
        (λ s x,
           view ← as_view x;
           _ ← lookup_view s view;
           _sccv_elementDidChange fuel' (update_view view (with_element NotCached) s) view)
        v s
  end.

(** [set(view, 'element', value)] *)
Definition set_element (fuel : nat) (s : State) (v : vid) (e : option Elem)
  : outcome State :=
  _ ← lookup_view s v;
  _sccv_elementDidChange fuel (update_view v (with_element (Cached e)) s) v.

(** [set(view, 'parentView', value)]: [element] is declared
    [.property('parentView')], so it changes with it. *)
Definition set_parentView (fuel : nat) (s : State) (v : vid) (p : option vid)
  : outcome State :=
  _ ← lookup_view s v;
  _sccv_elementDidChange fuel
    (update_view v (λ w, with_element NotCached (with_parentView p w)) s) v.

(** ** Lifecycle notifications *)

(** [didCreateElement] (line 459): the hook does nothing in [SC.View], and
    a subclass may override it.  The call is recorded. *)
Definition didCreateElement (s : State) (v : vid) : outcome State :=
  Ret (emit (DidCreateElement v) s).

(** [_notifyDidCreateElement] (lines 467-473), given what the hook
    [didCreateElement] of the views does. *)
Fixpoint _notifyDidCreateElement_with (hook : State → vid → outcome State)
    (fuel : nat) (s : State) (v : vid) : outcome State :=
  match fuel with
  | 0 => OutOfFuel
  | S fuel' =>
      _ ← lookup_view s v;
      s1 ← hook s v;
      forEachChildView id
        (λ s x, view ← as_view x; _notifyDidCreateElement_with hook fuel' s view)
        v s1
  end.

Definition _notifyDidCreateElement (fuel : nat) (s : State) (v : vid) : outcome State :=
  _notifyDidCreateElement_with didCreateElement fuel s v.

(** [_notifyWillDestroyElement] (lines 519-525) *)
Fixpoint _notifyWillDestroyElement (fuel : nat) (s : State) (v : vid) : outcome State :=
  match fuel with
  | 0 => OutOfFuel
  | S fuel' =>
      _ ← lookup_view s v;
      forEachChildView id
        (λ s x, view ← as_view x; _notifyWillDestroyElement fuel' s view)
        v (emit (WillDestroyElement v) s)
  end.

(** ** Rendering *)

(** [renderBuffer] (lines 427-429) *)
Definition renderBuffer (tagName : string) : RenderBuffer := [BCreate tagName].

(** [buffer.element()] *)
Definition buffer_element (buffer : RenderBuffer) : Elem := Element buffer.

(** [render] (lines 159-176) *)
Definition render (s : State) (v : vid) (buffer : RenderBuffer)
  : outcome (State * RenderBuffer) :=
  w ← lookup_view s v;
  match template w with
  | None => Ret (s, buffer)
  | Some output =>
      Ret (update_view v (with_didRenderChildViews true) s, buffer ++ [BPush output])
  end.

(** [applyAttributesToBuffer] (lines 591-607) *)
Definition applyAttributesToBuffer (s : State) (v : vid) (buffer : RenderBuffer)
  : outcome (State * RenderBuffer) :=
  s1 ← _applyClassNameBindings s v;
  w ← lookup_view s1 v;
  names ← of_option (classArrays s1 !! classNames w);
  let b1 := buffer ++ [BAddClass (join " " names); BId (elementId w)] in
  let b2 := if truthy (ariaRole w)
            then b1 ++ [BAttr "role" (join_text (ariaRole w))] else b1 in
  let b3 := if isVisible w then b2 else b2 ++ [BStyle "display" "none"] in
  Ret (s1, b3).

(** [renderChildViews] (lines 620-630), given the method that renders one
    child. *)
Definition renderChildViews_with
    (renderChild : State → vid → RenderBuffer → outcome (State * RenderBuffer))
    (s : State) (v : vid) (buffer : RenderBuffer) : outcome (State * RenderBuffer) :=
  '(s1, buffer1) ← forEachChildView fst
      (λ acc x,
         view ← as_view x;
         w ← lookup_view acc.1 view;
         '(s', buffer') ← renderChild acc.1 view (acc.2 ++ [BBegin (tagName w)]);
         Ret (s', buffer' ++ [BEnd]))
      v (s, buffer);
  Ret (update_view v (with_didRenderChildViews true) s1, buffer1).

(** [renderToBuffer] (lines 568-586) *)
Fixpoint renderToBuffer (fuel : nat) (s : State) (v : vid) (buffer : RenderBuffer)
  : outcome (State * RenderBuffer) :=
  match fuel with
  | 0 => OutOfFuel
  | S fuel' =>
      let s0 := update_view v (with_elementNeedsUpdate false) s in
      '(s1, buffer1) ← applyAttributesToBuffer s0 v buffer;
      '(s2, buffer2) ← render s1 v buffer1;
      w ← lookup_view s2 v;
      '(s3, buffer3) ←
        (if didRenderChildViews w then Ret (s2, buffer2)
         else renderChildViews_with (renderToBuffer fuel') s2 v buffer2);
      Ret (update_view v (with_didRenderChildViews false) s3, buffer3)
  end.


(** ** Creating and destroying the element *)

(** [createElement] (lines 440-453), given what the hook
    [didCreateElement] of the views does. *)
Definition createElement_with (hook : State → vid → outcome State)
    (fuel : nat) (s : State) (v : vid) : outcome State :=
  elem ← get_element fuel s v;
  match elem with
  | Some _ => Ret s
  | None =>
      w ← lookup_view s v;
      '(s1, buffer) ← renderToBuffer fuel s v (renderBuffer (tagName w));
      s2 ← set_element fuel s1 v (Some (buffer_element buffer));
      _notifyDidCreateElement_with hook fuel s2 v
  end.

Definition createElement (fuel : nat) (s : State) (v : vid) : outcome State :=
  createElement_with didCreateElement fuel s v.

(** [destroyElement] (lines 492-505) *)
Definition destroyElement (fuel : nat) (s : State) (v : vid) : outcome State :=
  elem ← get_element fuel s v;
  match elem with
  | Some e =>
      s1 ← _notifyWillDestroyElement fuel s v;
      set_element fuel (emit (JqRemove e) s1) v None
  | None => Ret s
  end.

(** [remove] (lines 384-391) *)
Definition remove (fuel : nat) (s : State) (v : vid) : outcome State :=
  destroyElement fuel s v.

(** ** Members of a view *)

(** The names under which view.js gives every view a method, an array or a
    hash (lines 46-901). *)
Definition view_members : list string :=
  ["concatenatedProperties"; "templates"; "childViews"; "classNames";
   "classNameBindings"; "render"; "_applyClassNameBindings";
   "_classStringForProperty"; "$"; "mutateChildViews"; "forEachChildView";
   "appendTo"; "append"; "remove"; "findElementInParentElement"; "renderBuffer";
   "createElement"; "didCreateElement"; "_notifyDidCreateElement";
   "destroyElement"; "willDestroyElement"; "_notifyWillDestroyElement";
   "_sccv_elementWillChange"; "_sccv_elementDidChange"; "parentViewDidChange";
   "renderToBuffer"; "applyAttributesToBuffer"; "renderChildViews"; "init";
   "removeChild"; "removeAllChildren"; "destroyAllChildren"; "removeFromParent";
   "destroy"; "createChildViews"; "createChildView"; "_isVisibleDidChange"].

(** What [this[key]] reads: a value of the embedding, or a function, an
    array, a hash or a DOM element, which is truthy and no view. *)
Inductive member : Type :=
| Value (x : value)
| Opaque.

(** [this[key]] (line 848).  The methods and arrays of the class and the
    members every object has are opaque.  The computed properties are read
    through their accessors: [templateContext] is the view itself (lines
    117-119), [template] the template found (lines 90-104), [element] the
    element (lines 290-298).  [_didRenderChildViews] and [elementNeedsUpdate]
    are the flags of lines 172 and 572.  Any other name is a plain property,
    for which [this[key]] and [get(this, key)] agree. *)
Definition this_key (fuel : nat) (s : State) (v : vid) (w : View) (key : string)
  : outcome member :=
  if bool_decide (key ∈ view_members) || object_member key then Ret Opaque
  else if String.eqb key "templateContext" then Ret (Value (VView v))
  else if String.eqb key "template" then
    Ret (match template w with Some _ => Opaque | None => Value VUndef end)
  else if String.eqb key "element" then
    elem ← get_element fuel s v;
    Ret (match elem with Some _ => Opaque | None => Value VNull end)
  else if String.eqb key "_didRenderChildViews" then
    Ret (Value (VBool (didRenderChildViews w)))
  else if String.eqb key "elementNeedsUpdate" then
    Ret (Value (VBool (elementNeedsUpdate w)))
  else Ret (Value (get w key)).

(** ** Initialization *)

(** [array.slice()]: a new array with the same entries. *)
Definition slice (arrays : gmap loc (list value)) (a : loc)
  : outcome (gmap loc (list value) * loc) :=
  arr ← of_option (arrays !! a);
  let a' := fresh (dom arrays) in
  Ret (<[a' := arr]> arrays, a').

(** [createChildView] (lines 885-893).  A view class is instantiated by the
    runtime's [create]; the entries of [childViews] the embedding has are
    instances, strings and the values that are neither, so the branch taken
    is the one that asserts an instance and sets its [parentView]. *)
Definition createChildView (fuel : nat) (s : State) (v : vid) (x : value)
  : outcome (State * value) :=
  view ← as_view x;
  s' ← set_parentView fuel s view (Some v);
  Ret (s', VView view).

Definition store_child (s : State) (a : loc) (idx : nat) (x : value) : State :=
  set_childArrays (alter (λ arr, <[idx := x]> arr) a (childArrays s)) s.

(** One round of the loop of [createChildViews] (lines 842-867).  What
    [createChildView] returns is the instance it was given, so that
    [this[key] = view] (line 864) stores what was read. *)
Definition createChildViews_step (fuel : nat) (v : vid) (a : loc) (s : State) (idx : nat)
  : outcome State :=
  let entry := entry_at s a idx in
  if truthy entry then
    match entry with
    | VStr key =>
        w ← lookup_view s v;
        found ← this_key fuel s v w key;
        match found with
        | Opaque => Throw   (* createChildView: the assertion of line 889 *)
        | Value view =>
            if truthy view then
              '(s', view') ← createChildView fuel s v view;
              Ret (store_child s' a idx view')
            else Ret (emit (LoggerError key) s)
        end
    | _ =>
        '(s', view') ← createChildView fuel s v entry;
        Ret (store_child s' a idx view')
    end
  else Ret (store_child s a idx entry).

(** [createChildViews] (lines 834-871) *)
Definition createChildViews (fuel : nat) (s : State) (v : vid) : outcome State :=
  w ← lookup_view s v;
  arr ← of_option (childArrays s !! childViews w);
  foldM (createChildViews_step fuel v (childViews w)) (seq 0 (length arr)) s.

(** [init] (lines 718-733) *)
Definition init (fuel : nat) (s : State) (v : vid) : outcome State :=
  w ← lookup_view s v;
  let s1 := set_views (<[elementId w := v]> (views s)) s in
  '(children, a1) ← slice (childArrays s1) (childViews w);
  let s2 := update_view v (with_childViews a1) (set_childArrays children s1) in
  '(classes, a2) ← slice (classArrays s2) (classNameBindings w);
  let s3 := update_view v (with_classNameBindings a2) (set_classArrays classes s2) in
  '(classes', a3) ← slice (classArrays s3) (classNames w);
  let s4 := update_view v (with_classNames a3) (set_classArrays classes' s3) in
  createChildViews fuel s4 v.

(** ** Removal and destruction *)

(** [array.removeObject(view)]: every occurrence goes. *)
Definition removeObject (v : vid) (arr : list value) : list value :=
  List.filter (λ x, negb (is_view v x)) arr.

(** [removeChild] (lines 741-750), called on [p] with the view [v] *)
Definition removeChild (fuel : nat) (s : State) (p v : vid) : outcome State :=
  s1 ← set_parentView fuel s v None;
  wp ← lookup_view s1 p;
  arr ← of_option (childArrays s1 !! childViews wp);
  Ret (set_childArrays (<[childViews wp := removeObject v arr]> (childArrays s1)) s1).

(** [removeFromParent] (lines 775-783) *)
Definition removeFromParent (fuel : nat) (s : State) (v : vid) : outcome State :=
  w ← lookup_view s v;
  s1 ← remove fuel s v;
  match parentView w with
  | Some parent => removeChild fuel s1 parent v
  | None => Ret s1
  end.

(** [destroy] (lines 791-812).  The inherited [destroy] it ends with sets
    [isDestroyed]. *)
Fixpoint destroy (fuel : nat) (s : State) (v : vid) : outcome State :=
  match fuel with
  | 0 => OutOfFuel
  | S fuel' =>
      w ← lookup_view s v;
      if isDestroyed w then Ret s
      else
        s1 ← destroyElement fuel' s v;
        s2 ← mutateChildViews (λ s x, view ← as_view x; destroy fuel' s view) v s1;
        let s3 := set_views (delete (elementId w) (views s2)) s2 in
        w3 ← lookup_view s3 v;
        s4 ← match parentView w3 with
             | Some _ => removeFromParent fuel' s3 v
             | None => Ret s3
             end;
        Ret (update_view v (with_isDestroyed true) s4)
  end.

(** [destroyAllChildren] (lines 763-767) *)
Definition destroyAllChildren (fuel : nat) (s : State) (v : vid) : outcome State :=
  mutateChildViews (λ s x, view ← as_view x; destroy fuel s view) v s.

(** [removeAllChildren] (lines 757-761): [removeChild] on each entry of
    [childViews], last to first.  [removeChild] sets a property of the entry,
    which has to be a view. *)
Definition removeAllChildren (fuel : nat) (s : State) (v : vid) : outcome State :=
  mutateChildViews (λ s x, view ← as_view x; removeChild fuel s v view) v s.

(** ** Insertion into the DOM *)

(** [appendTo] (lines 360-366).  The insertion itself is jQuery's; the
    result holds the state and [this.$()], the jQuery object on which
    [appendTo(target)] is called. *)
Definition appendTo (fuel : nat) (s : State) (v : vid) : outcome (State * option Elem) :=
  elem ← get_element fuel s v;
  s1 ← match elem with
       | Some _ => Ret s
       | None => createElement fuel s v
       end;
  jq ← dollar fuel s1 v;
  Ret (s1, jq).

(** [append] (lines 375-377): [appendTo] with the body of the document. *)
Definition append (fuel : nat) (s : State) (v : vid) : outcome (State * option Elem) :=
  appendTo fuel s v.

(** ** Property changes *)

(** The observer function of lines 205-223, for the observer at position
    [i] of the list. *)
Definition run_observer (fuel : nat) (i : nat) (s : State) : outcome State :=
  o ← of_option (observers s !! i);
  let newClass := _classStringForProperty s (obs_target o) (obs_binding o) in
  elem ← dollar fuel s (obs_target o);
  let s1 := if truthy (obs_oldClass o)
            then emit (JqRemoveClass elem (obs_oldClass o)) s else s in
  if truthy newClass then
    Ret (set_observers (alter (with_oldClass newClass) i (observers s1))
           (emit (JqAddClass elem newClass) s1))
  else Ret (set_observers (alter (with_oldClass VNull) i (observers s1)) s1).

(** Modelled from the spec: the property system, which is outside the
    package ("an external collaborator exposing get/set/addObserver").  A
    change of [key] on [v] calls the observers registered for that object and
    that key, oldest first. *)
Definition propertyDidChange (fuel : nat) (s : State) (v : vid) (key : string)
  : outcome State :=
  foldM (λ s i,
           o ← of_option (observers s !! i);
           if Nat.eqb (obs_target o) v && String.eqb (obs_key o) key
           then run_observer fuel i s else Ret s)
        (seq 0 (length (observers s))) s.

(** Modelled from the spec: [SC.set(view, key, value)] for a property the
    view holds as a plain value. *)
Definition set (fuel : nat) (s : State) (v : vid) (key : string) (x : value)
  : outcome State :=
  w ← lookup_view s v;
  propertyDidChange fuel (update_view v (with_props (<[key := x]> (props w))) s) v key.

End SCView.

(** * View trees

    The views reachable from a view through [childViews], as a tree of
    object identities.  [tree_at s t] says that the store [s] holds the
    hierarchy [t]: every entry of every [childViews] array on the way is a
    view, and following them ends. *)

Inductive vtree : Type :=
| VNode (v : vid) (kids : list vtree).

Definition root (t : vtree) : vid :=
  match t with
  | VNode v _ => v
  end.

Definition subtrees (t : vtree) : list vtree :=
  match t with
  | VNode _ kids => kids
  end.

(** The view, then the views below each child, in [childViews] order. *)
Fixpoint preorder (t : vtree) : list vid :=
  match t with
  | VNode v kids => v :: concat (map preorder kids)
  end.

Fixpoint depth (t : vtree) : nat :=
  match t with
  | VNode _ kids => S (foldr Nat.max 0 (map depth kids))
  end.

Definition entries (kids : list vtree) : list value :=
  map (λ k, VView (root k)) kids.

(** [get(view, 'childViews')], as the entries of the array *)
Definition kids_of (s : State) (v : vid) : option (list value) :=
  w ← heap s !! v; childArrays s !! childViews w.

Inductive tree_at (s : State) : vtree → Prop :=
| tree_at_node (v : vid) (kids : list vtree) :
    kids_of s v = Some (entries kids) →
    Forall (tree_at s) kids →
    tree_at s (VNode v kids).

Definition emit_all (es : list Event) (s : State) : State :=
  mkState (heap s) (childArrays s) (classArrays s) (views s) (observers s)
    (trace s ++ es).

(** * The vocabulary of the statements

    What the theorems below say about the program is written with the
    definitions of this part: the frames of the operations, what rendering
    writes for a hierarchy, and the conditions under which [init] and
    [destroy] are called. *)

(** ** Children and cached elements *)

(** The views have the same children in both states. *)
Definition same_kids (s s' : State) : Prop :=
  childArrays s' = childArrays s ∧
  ∀ v, childViews <$> (heap s' !! v) = childViews <$> (heap s !! v).

(** The view [v] with its cached element dropped, as
    [SC.propertyDidChange(view, 'element')] leaves it. *)
Definition drop_element (v : vid) (s : State) : State :=
  update_view v (with_element NotCached) s.

Definition drop_elements (vs : list vid) (s : State) : State :=
  foldl (λ x v, drop_element v x) s vs.

(** The views strictly below the root. *)
Definition below (t : vtree) : list vid := concat (map preorder (subtrees t)).

(** ** Class-name bindings *)

(** The observer [_applyClassNameBindings] leaves for the entry [b]: it is
    registered under the entry itself, and remembers the class it pushed. *)
Definition observer_for `{Runtime} (s : State) (v : vid) (b : string) : Observer :=
  let c := _classStringForProperty s v b in
  mkObserver v b b (if truthy c then c else VUndef).

(** The classes pushed onto [classNames]. *)
Definition classes_for `{Runtime} (s : State) (v : vid) (bs : list string) : list value :=
  List.filter truthy (map (_classStringForProperty s v) bs).

Definition bound `{Runtime} (s : State) (v : vid) (cn : loc) (arr : list value)
    (bs : list string) : State :=
  set_observers (observers s ++ map (observer_for s v) bs)
    (set_classArrays (<[cn := arr ++ classes_for s v bs]> (classArrays s)) s).

(** ** What rendering writes *)

(** The calls on a buffer with the class names left out: which classes a
    view has depends on its bindings, its place in the buffer does not. *)
Definition erase (c : BufCall) : BufCall :=
  match c with
  | BAddClass _ => BAddClass ""
  | _ => c
  end.

Definition outline (b : RenderBuffer) : RenderBuffer := map erase b.

Definition tag_of (s : State) (v : vid) : string :=
  match heap s !! v with
  | Some w => tagName w
  | None => ""
  end.

(** What [applyAttributesToBuffer] writes for a view. *)
Definition attribute_calls (w : View) : RenderBuffer :=
  [BAddClass ""; BId (elementId w)]
  ++ (if truthy (ariaRole w) then [BAttr "role" (join_text (ariaRole w))] else [])
  ++ (if isVisible w then [] else [BStyle "display" "none"]).

(** What [renderToBuffer] writes for a hierarchy: the attributes of the
    view, then the output of its template or, without one, its children,
    each between a [begin] and an [end]. *)
Fixpoint view_calls (s : State) (t : vtree) : RenderBuffer :=
  match t with
  | VNode v kids =>
      match heap s !! v with
      | None => []
      | Some w =>
          attribute_calls w ++
          match template w with
          | Some output => [BPush output]
          | None =>
              concat (map (λ k, BBegin (tag_of s (root k)) :: view_calls s k ++ [BEnd]) kids)
          end
      end
  end.

(** What [renderChildViews] writes. *)
Definition child_calls (s : State) (kids : list vtree) : RenderBuffer :=
  concat (map (λ k, BBegin (tag_of s (root k)) :: view_calls s k ++ [BEnd]) kids).



(** A view with the two flags of rendering reset. *)
Definition unflagged (w : View) : View :=
  with_didRenderChildViews false (with_elementNeedsUpdate false w).

(** What rendering views among [N] leaves alone: everything but the two
    flags, the observers, and the [classNames] arrays of the views of [N],
    which stay arrays. *)
Record render_frame (N : list vid) (s s' : State) : Prop := {
  rf_childArrays : childArrays s' = childArrays s;
  rf_views : views s' = views s;
  rf_trace : trace s' = trace s;
  rf_heap : ∀ v, unflagged <$> (heap s' !! v) = unflagged <$> (heap s !! v);
  rf_classes : ∀ l, is_Some (classArrays s !! l) → is_Some (classArrays s' !! l);
  rf_written : ∀ l, (∀ v w, v ∈ N → heap s !! v = Some w → classNames w ≠ l) →
                    classArrays s' !! l = classArrays s !! l
}.

(** What rendering the views of [N] needs: no view is marked as having
    rendered its children, [classNames] is an array, [classNameBindings]
    holds strings, and no array serves as both. *)
Definition render_ok (N : list vid) (s : State) : Prop :=
  ∀ v w, v ∈ N → heap s !! v = Some w →
    didRenderChildViews w = false
    ∧ is_Some (classArrays s !! classNames w)
    ∧ (∀ l, classArrays s !! classNameBindings w = Some l → ∃ bs, l = map VStr bs)
    ∧ (∀ u wu, u ∈ N → heap s !! u = Some wu → classNames wu ≠ classNameBindings w).

Definition flags_clear (N : list vid) (s : State) : Prop :=
  ∀ v w, v ∈ N → heap s !! v = Some w → didRenderChildViews w = false.

(** ** Initialization *)

(** The arrays a view refers to. *)
Definition arrays_of (w : View) : loc * loc * loc :=
  (childViews w, classNameBindings w, classNames w).

(** What [createChildViews] leaves alone when it works on the array [a]. *)
Record children_frame (a : loc) (s s' : State) : Prop := {
  cf_classArrays : classArrays s' = classArrays s;
  cf_views : views s' = views s;
  cf_observers : observers s' = observers s;
  cf_arrays_of : ∀ u, arrays_of <$> (heap s' !! u) = arrays_of <$> (heap s !! u);
  cf_childArrays : ∀ l, l ≠ a → childArrays s' !! l = childArrays s !! l;
  cf_length : length <$> (childArrays s' !! a) = length <$> (childArrays s !! a);
  cf_instances : ∀ i c arr, childArrays s !! a = Some arr → arr !! i = Some (VView c) →
                 ∃ arr', childArrays s' !! a = Some arr' ∧ arr' !! i = Some (VView c)
}.

(** The state [init] hands to [createChildViews]: the view registered, and
    its three arrays replaced by copies at new places. *)
Definition sliced (s : State) (v : vid) (w : View) (arr bs cn : list value) : State :=
  let a1 := fresh (dom (childArrays s)) in
  let a2 := fresh (dom (classArrays s)) in
  let a3 := fresh (dom (<[a2 := bs]> (classArrays s))) in
  mkState
    (alter (λ w, with_classNames a3 (with_classNameBindings a2 (with_childViews a1 w)))
       v (heap s))
    (<[a1 := arr]> (childArrays s))
    (<[a3 := cn]> (<[a2 := bs]> (classArrays s)))
    (<[elementId w := v]> (views s))
    (observers s) (trace s).

(** ** Destruction *)

(** A hierarchy of views that are not destroyed, each child pointing back
    to its parent. *)
Inductive live_tree (s : State) : vtree → Prop :=
| live_node (v : vid) (w : View) (kids : list vtree) :
    heap s !! v = Some w → isDestroyed w = false →
    childArrays s !! childViews w = Some (entries kids) →
    Forall (live_tree s) kids →
    Forall (λ k, ∃ wk, heap s !! root k = Some wk ∧ parentView wk = Some v) kids →
    live_tree s (VNode v kids).

(** The array a view holds in [childViews]. *)
Definition loc_of (s : State) (v : vid) : option loc := childViews <$> (heap s !! v).

(** The views of the hierarchy are distinct objects with distinct
    [childViews] arrays. *)
Definition separate (s : State) (t : vtree) : Prop :=
  NoDup (preorder t)
  ∧ ∀ u u', u ∈ preorder t → u' ∈ preorder t → loc_of s u = loc_of s u' → u = u'.

(** The two states hold the same views outside [D]. *)
Definition agree_outside (D : list vid) (s x : State) : Prop :=
  ∀ u, u ∉ D → heap x !! u = heap s !! u.

(** What [destroy] needs of the parent of the root, when there is one: it
    is a view outside the hierarchy, with a [childViews] array of its own,
    and looking up its element returns, whatever state the views of the
    hierarchy are in. *)
Definition parent_ready (m : nat) `{Runtime} (s : State) (t : vtree) : Prop :=
  ∀ w p, heap s !! root t = Some w → parentView w = Some p →
    (p ∉ preorder t)
    ∧ (∃ wp arr, heap s !! p = Some wp
                 ∧ childArrays s !! childViews wp = Some arr
                 ∧ ∀ u, u ∈ preorder t → loc_of s u ≠ Some (childViews wp))
    ∧ (∀ x, agree_outside (preorder t) s x → ∃ r, get_element m x p = Ret r).

(** A view with the cached element left out. *)
Definition skeleton (w : View) : View := with_element NotCached w.

(** What [destroyElement] changes: cached elements, within the hierarchy. *)
Record element_frame (t : vtree) (s s' : State) : Prop := {
  ef_childArrays : childArrays s' = childArrays s;
  ef_views : views s' = views s;
  ef_outside : agree_outside (preorder t) s s';
  ef_skeleton : ∀ u, skeleton <$> (heap s' !! u) = skeleton <$> (heap s !! u)
}.

(** What [destroy] on the root of [t] has done when it returns. *)
Record destroyed (t : vtree) (s s' : State) : Prop := {
  d_outside : agree_outside (preorder t) s s';
  d_arrays : ∀ l, (∀ u, u ∈ preorder t → loc_of s u ≠ Some l) →
             (∀ w p wp, heap s !! root t = Some w → parentView w = Some p →
                        heap s !! p = Some wp → childViews wp ≠ l) →
             childArrays s' !! l = childArrays s !! l;
  d_parent : ∀ w p wp arr, heap s !! root t = Some w → parentView w = Some p →
             heap s !! p = Some wp → childArrays s !! childViews wp = Some arr →
             childArrays s' !! childViews wp = Some (removeObject (root t) arr);
  d_kept : ∀ key, (∀ u w, u ∈ preorder t → heap s !! u = Some w → elementId w ≠ key) →
           views s' !! key = views s !! key;
  d_unregistered : ∀ u w, u ∈ preorder t → heap s !! u = Some w →
                   views s' !! elementId w = None;
  d_isDestroyed : ∀ u, u ∈ preorder t →
                  ∃ w', heap s' !! u = Some w' ∧ isDestroyed w' = true
}.

(** The loop of [destroy] over the children [kids] of a view [w], last to
    first, started in [s1], the state [destroyElement] left of [s]: the
    state [x] when the children at the positions [j] and above have been
    destroyed. *)
Record visited (kids : list vtree) (s s1 : State) (w : View)
    (j : nat) (x : State) : Prop := {
  vis_array : childArrays x !! childViews w = Some (entries (take j kids));
  vis_heap : ∀ y, (∀ i k, kids !! i = Some k → j ≤ i → y ∉ preorder k) →
             heap x !! y = heap s1 !! y;
  vis_arrays : ∀ l, l ≠ childViews w →
               (∀ i k y, kids !! i = Some k → j ≤ i → y ∈ preorder k →
                         loc_of s y ≠ Some l) →
               childArrays x !! l = childArrays s !! l;
  vis_kept : ∀ key,
             (∀ i k y wy, kids !! i = Some k → j ≤ i → y ∈ preorder k →
                          heap s !! y = Some wy → elementId wy ≠ key) →
             views x !! key = views s !! key;
  vis_unregistered : ∀ i k y wy, kids !! i = Some k → j ≤ i → y ∈ preorder k →
                     heap s !! y = Some wy → views x !! elementId wy = None;
  vis_destroyed : ∀ i k y, kids !! i = Some k → j ≤ i → y ∈ preorder k →
                  ∃ wy', heap x !! y = Some wy' ∧ isDestroyed wy' = true
}.

(** ** The states the operations leave *)

(** The state [createElement] leaves on the hierarchy [t], when rendering
    has left [s1] and filled [buffer]. *)
Definition created (t : vtree) (buffer : RenderBuffer) (s1 : State) : State :=
  emit_all (map DidCreateElement (preorder t))
    (drop_elements (below t)
       (update_view (root t) (with_element (Cached (Some (buffer_element buffer)))) s1)).

(** The state [destroyElement] leaves on the hierarchy [t] whose root has
    the element [e]. *)
Definition element_destroyed (t : vtree) (e : Elem) (s : State) : State :=
  drop_elements (below t)
    (update_view (root t) (with_element (Cached None))
       (emit (JqRemove e) (emit_all (map WillDestroyElement (preorder t)) s))).

(** A view with its parent and its cached element left out. *)
Definition orphan (w : View) : View := with_element NotCached (with_parentView None w).

(** The state [set(view, 'parentView', p)] leaves, [view] being the root of
    the hierarchy [t]: the cached elements of the hierarchy are dropped. *)
Definition reparented (t : vtree) (p : option vid) (s : State) : State :=
  drop_elements (below t)
    (update_view (root t) (λ w, with_element NotCached (with_parentView p w)) s).

Definition reparented_all (p : option vid) (ks : list vtree) (s : State) : State :=
  foldl (λ x k, reparented k p x) s ks.

(** A view with a cached element, and a state in which no view has one. *)
Definition has_element (w : View) : bool :=
  match element w with
  | Cached (Some _) => true
  | _ => false
  end.

Definition elementless (s : State) : Prop :=
  ∀ u w e, heap s !! u = Some w → element w ≠ Cached (Some e).

(** ** The entries of [childViews] *)

(** The entries of [childViews] that [createChildViews] handles: a falsy
    value, a name under which the view holds nothing, a view, and a name
    under which the view holds a view. *)
Inductive child_entry : Type :=
| Skipped (x : value)
| Missing (key : string)
| Instance (k : vtree)
| Named (key : string) (k : vtree).

(** The entry as [createChildViews] finds it, and as it leaves it. *)
Definition entry_value (e : child_entry) : value :=
  match e with
  | Skipped x => x
  | Missing key | Named key _ => VStr key
  | Instance k => VView (root k)
  end.

Definition entry_result (e : child_entry) : value :=
  match e with
  | Skipped x => x
  | Missing key => VStr key
  | Instance k | Named _ k => VView (root k)
  end.

Definition entry_kid (e : child_entry) : option vtree :=
  match e with
  | Instance k | Named _ k => Some k
  | _ => None
  end.

Definition entry_errors (e : child_entry) : list Event :=
  match e with
  | Missing key => [LoggerError key]
  | _ => []
  end.

(** A name under which a view has a plain property or nothing: no member of
    the class or of every object, no computed property and no flag. *)
Definition plain_key `{Runtime} (key : string) : bool :=
  negb (bool_decide (key ∈ view_members) || object_member key)
  && negb (bool_decide (key ∈ ["templateContext"; "template"; "element";
                               "_didRenderChildViews"; "elementNeedsUpdate"])).

Definition entry_ok `{Runtime} (w : View) (e : child_entry) : Prop :=
  match e with
  | Skipped x => truthy x = false
  | Missing key => key ≠ "" ∧ plain_key key = true ∧ truthy (get w key) = false
  | Instance _ => True
  | Named key k => key ≠ "" ∧ plain_key key = true ∧ get w key = VView (root k)
  end.

(** The state [createChildViews] leaves of [s] for the entries [plan] of the
    array [a] of the view [v]. *)
Definition children_created (v : vid) (a : loc) (plan : list child_entry) (s : State)
  : State :=
  emit_all (plan ≫= entry_errors)
    (set_childArrays (<[a := map entry_result plan]> (childArrays s))
       (reparented_all (Some v) (omap entry_kid plan) s)).

(** * Example data *)

(** [SC.String.dasherize] on the names of the examples: a dash before an
    upper-case letter that follows a lower-case letter or a digit, spaces
    and underscores to dashes, lower case throughout. *)
Definition is_upper (a : ascii) : bool :=
  let n := nat_of_ascii a in (65 <=? n)%nat && (n <=? 90)%nat.
Definition is_lower_or_digit (a : ascii) : bool :=
  let n := nat_of_ascii a in
  ((97 <=? n)%nat && (n <=? 122)%nat) || ((48 <=? n)%nat && (n <=? 57)%nat).
Definition to_lower (a : ascii) : ascii :=
  if is_upper a then ascii_of_nat (nat_of_ascii a + 32) else a.

Fixpoint dasherize_from (prev : option ascii) (s : string) : string :=
  match s with
  | EmptyString => EmptyString
  | String a rest =>
      let c := if Ascii.eqb a " " || Ascii.eqb a "_" then "-"%char else to_lower a in
      let tail := String c (dasherize_from (Some a) rest) in
      match prev with
      | Some p => if is_lower_or_digit p && is_upper a then String "-" tail else tail
      | None => tail
      end
  end.

(** [jQuery('#id', parentElem)]: the element of that id when the markup of
    the parent has one. *)
Definition example_jQuery_id (id : string) (parentElem : Elem) : option Elem :=
  match parentElem with
  | Element built =>
      if existsb (λ c, match c with BId i => String.eqb i id | _ => false end) built
      then Some (Element [BId id]) else None
  end.

Definition example_runtime : Runtime :=
  {| dasherize := dasherize_from None;
     jQuery_id := example_jQuery_id;
     object_member := λ key, bool_decide (key ∈ ["toString"; "constructor"]) |}.

(** A view with the arrays [n], [20 + n] and [10 + n] for [childViews],
    [classNameBindings] and [classNames]. *)
Definition example_view (id tag : string) (tpl : option string) (p : option vid)
    (n : nat) (extra : gmap string value) : View :=
  mkView id tag VNull true tpl p n (20 + n) (10 + n) NotCached false false false extra.

(** Four views: [sc0] with the children [sc1] and [sc2], [sc1] with a
    template and the child [sc3]; [sc0] binds two class names. *)
Definition example_state : State :=
  mkState
    (list_to_map
       [(0, example_view "sc0" "div" None None 0
              (<["isUrgent" := VBool true]> (<["priority" := VStr "high"]> ∅)));
        (1, example_view "sc1" "ul" (Some "hello") (Some 0) 1 ∅);
        (2, example_view "sc2" "span" None (Some 0) 2 ∅);
        (3, example_view "sc3" "li" None (Some 1) 3 ∅)])
    (list_to_map [(0, [VView 1; VView 2]); (1, [VView 3]); (2, []); (3, [])])
    (list_to_map
       [(10, [VStr "sc-view"]); (11, [VStr "sc-view"]); (12, [VStr "sc-view"]);
        (13, [VStr "sc-view"]);
        (20, [VStr "isUrgent:urgent"; VStr "priority"]); (21, []); (22, []); (23, [])])
    (list_to_map [("sc0", 0); ("sc1", 1); ("sc2", 2); ("sc3", 3)])
    [] [].

Definition example_tree : vtree := VNode 0 [VNode 1 [VNode 3 []]; VNode 2 []].

(** Two views given the same [elementId], not yet initialized. *)
Definition clash_state : State :=
  mkState
    (list_to_map
       [(0, example_view "dup" "div" None None 0 ∅);
        (1, example_view "dup" "div" None None 1 ∅)])
    (list_to_map [(0, []); (1, [])])
    (list_to_map [(10, []); (11, []); (20, []); (21, [])])
    ∅ [] [].

(** The state a call returns, and the state it was made in when it does not
    return. *)
Definition state_after (s : State) (o : outcome State) : State :=
  match o with
  | Ret s' => s'
  | _ => s
  end.

(** The example after [createElement] on [sc0], the element it made, and
    the example after [init] and after [destroy] on [sc0]. *)
Definition rendered_state : State :=
  state_after example_state (@createElement example_runtime 5 example_state 0).

Definition rendered_element : Elem :=
  match @get_element example_runtime 5 rendered_state 0 with
  | Ret (Some e) => e
  | _ => Element []
  end.

(** A [didCreateElement] that reads the element of [sc0] and fails when
    there is none. *)
Definition element_hook (s : State) (v : vid) : outcome State :=
  elem ← @get_element example_runtime 5 s 0;
  match elem with
  | Some _ => didCreateElement s v
  | None => Throw
  end.

Definition initialised_state : State :=
  state_after example_state (@init example_runtime 3 example_state 0).

Definition destroyed_state : State :=
  state_after example_state (@destroy example_runtime 9 example_state 0).

(** The example with its child views given in the ways [createChildViews]
    handles: by a name under which the view holds a view, by a falsy value,
    by a name under which it holds nothing, and as a view. *)
Definition named_state : State :=
  mkState
    (<[0 := example_view "sc0" "div" None None 0 (<["header" := VView 1]> ∅)]>
       (heap example_state))
    (<[0 := [VStr "header"; VNull; VStr "nothing"; VView 2]]> (childArrays example_state))
    (classArrays example_state) ∅ [] [].

Definition named_plan : list child_entry :=
  [Named "header" (VNode 1 [VNode 3 []]); Skipped VNull; Missing "nothing";
   Instance (VNode 2 [])].

(** * Proofs *)

Lemma vtree_induction (P : vtree → Prop) :
  (∀ v kids, Forall P kids → P (VNode v kids)) → ∀ t, P t.
Proof.
  intros step. fix rec 1. intros [v kids]. apply step.
  induction kids as [|k kids IH]; constructor; [apply rec | exact IH].
Qed.

Lemma depth_kid (k : vtree) (kids : list vtree) :
  k ∈ kids → depth k ≤ foldr Nat.max 0 (map depth kids).
Proof.
  induction 1 as [k kids | k k' kids _ IH]; simpl; lia.
Qed.

Lemma emit_all_nil (s : State) : emit_all [] s = s.
Proof. destruct s. unfold emit_all. simpl. by rewrite app_nil_r. Qed.

Lemma emit_emit_all (e : Event) (s : State) : emit e s = emit_all [e] s.
Proof. reflexivity. Qed.

Lemma emit_all_app (es1 es2 : list Event) (s : State) :
  emit_all es2 (emit_all es1 s) = emit_all (es1 ++ es2) s.
Proof. unfold emit_all. simpl. by rewrite app_assoc. Qed.

Lemma tree_at_kids (s : State) (v : vid) (kids : list vtree) :
  tree_at s (VNode v kids) →
  kids_of s v = Some (entries kids) ∧ Forall (tree_at s) kids.
Proof. by inversion 1. Qed.

Lemma preorder_kid (k : vtree) (kids : list vtree) (u : vid) :
  k ∈ kids → u ∈ preorder k → u ∈ concat (map preorder kids).
Proof.
  induction 1 as [k kids | k k' kids _ IH]; simpl; intros Hu;
    apply elem_of_app; [by left | right; by apply IH].
Qed.

(** A tree only depends on the [childViews] of the views it holds. *)
Lemma tree_at_frame (s s' : State) (t : vtree) :
  (∀ v, v ∈ preorder t → kids_of s' v = kids_of s v) →
  tree_at s t → tree_at s' t.
Proof.
  induction t as [v kids IH] using vtree_induction. intros same Ht.
  apply tree_at_kids in Ht as [Hk Hkids]. constructor.
  - rewrite same; [done | simpl; left].
  - rewrite Forall_forall in IH, Hkids. apply Forall_forall. intros k Hin.
    apply IH; [done | | by apply Hkids].
    intros u Hu. apply same. simpl. right. by eapply preorder_kid.
Qed.

Lemma kids_of_lookup (s : State) (v : vid) (arr : list value) :
  kids_of s v = Some arr →
  ∃ w, heap s !! v = Some w ∧ childArrays s !! childViews w = Some arr.
Proof.
  unfold kids_of. destruct (heap s !! v) as [w|]; simpl; [|done]. eauto.
Qed.

Lemma entry_at_entries (s : State) (a : loc) (kids : list vtree) (i : nat) (k : vtree) :
  childArrays s !! a = Some (entries kids) → kids !! i = Some k →
  entry_at s a i = VView (root k).
Proof.
  intros Ha Hk. unfold entry_at. rewrite Ha. simpl. unfold entries.
  by rewrite list_lookup_fmap, Hk.
Qed.

Section Loops.
Context `{Runtime}.

(** An invariant carried through the loop of [forEachChildView]. *)
Lemma forEach_from_run {A : Type} (st : A → State) (cb : A → value → outcome A)
    (a : loc) (I : nat → A → Prop) (n idx : nat) (acc : A) :
  I idx acc →
  (∀ i x, idx ≤ i < idx + n → I i x →
     ∃ x', cb x (entry_at (st x) a i) = Ret x' ∧ I (S i) x') →
  ∃ acc', forEach_from st cb a idx n acc = Ret acc' ∧ I (idx + n) acc'.
Proof.
  revert idx acc. induction n as [|n IH]; intros idx acc Hacc step; simpl.
  - exists acc. by rewrite Nat.add_0_r.
  - destruct (step idx acc) as (x' & -> & Hx'); [lia | done |]. simpl.
    destruct (IH (S idx) x') as (acc' & -> & Hacc'); [done | |].
    + intros i x Hi. apply step. lia.
    + exists acc'. split; [done|]. by replace (idx + S n) with (S idx + n) by lia.
Qed.

Lemma lookup_view_Some (s : State) (v : vid) (w : View) :
  heap s !! v = Some w → lookup_view s v = Ret w.
Proof. unfold lookup_view. by intros ->. Qed.

Lemma lookup_view_Ret (s : State) (v : vid) (w : View) :
  lookup_view s v = Ret w → heap s !! v = Some w.
Proof. unfold lookup_view. by destruct (heap s !! v); intros [= ->]. Qed.

Lemma forEachChildView_unfold {A : Type} (st : A → State)
    (cb : A → value → outcome A) (v : vid) (acc : A) (w : View) (arr : list value) :
  heap (st acc) !! v = Some w → childArrays (st acc) !! childViews w = Some arr →
  forEachChildView st cb v acc = forEach_from st cb (childViews w) 0 (length arr) acc.
Proof. intros Hw Ha. unfold forEachChildView, lookup_view. by rewrite Hw; simpl; rewrite Ha. Qed.

(** What a loop that returned has preserved. *)
Lemma forEach_from_keeps {A : Type} (st : A → State) (cb : A → value → outcome A)
    (a : loc) (P : A → Prop) (n idx : nat) (acc acc' : A) :
  (∀ x y x', P x → cb x y = Ret x' → P x') →
  P acc → forEach_from st cb a idx n acc = Ret acc' → P acc'.
Proof.
  intros step. revert idx acc. induction n as [|n IH]; intros idx acc Hacc; simpl.
  - by intros [= <-].
  - destruct (cb acc _) as [x'| |] eqn:E; simpl; [|done..].
    apply IH. by eapply step.
Qed.

Lemma forEachChildView_keeps {A : Type} (st : A → State) (cb : A → value → outcome A)
    (P : A → Prop) (v : vid) (acc acc' : A) :
  (∀ x y x', P x → cb x y = Ret x' → P x') →
  P acc → forEachChildView st cb v acc = Ret acc' → P acc'.
Proof.
  intros step Hacc. unfold forEachChildView, lookup_view.
  destruct (heap (st acc) !! v) as [w|]; simpl; [|done].
  destruct (childArrays (st acc) !! childViews w) as [arr|]; simpl; [|done].
  by apply forEach_from_keeps.
Qed.

(** The loop of [mutateChildViews], with an invariant indexed by the number
    of entries still to visit. *)
Lemma mutate_from_run (cb : State → value → outcome State) (a : loc)
    (I : nat → State → Prop) (idx : nat) (s : State) :
  I idx s →
  (∀ i x, i < idx → I (S i) x → ∃ x', cb x (entry_at x a i) = Ret x' ∧ I i x') →
  ∃ s', mutate_from cb a idx s = Ret s' ∧ I 0 s'.
Proof.
  revert s. induction idx as [|i IH]; intros s Hs step; simpl.
  - by exists s.
  - destruct (step i s) as (x' & -> & Hx'); [lia | done |]. simpl.
    apply IH; [done|]. intros j x Hj. apply step. lia.
Qed.

Lemma mutate_from_keeps (cb : State → value → outcome State) (a : loc)
    (P : State → Prop) (idx : nat) (s s' : State) :
  (∀ x y x', P x → cb x y = Ret x' → P x') →
  P s → mutate_from cb a idx s = Ret s' → P s'.
Proof.
  intros step. revert s. induction idx as [|i IH]; intros s Hs; simpl.
  - by intros [= <-].
  - destruct (cb s _) as [x'| |] eqn:E; simpl; [|done..].
    apply IH. by eapply step.
Qed.

End Loops.

Section Notifications.
Context `{Runtime}.

Lemma kids_of_emit_all (es : list Event) (s : State) (v : vid) :
  kids_of (emit_all es s) v = kids_of s v.
Proof. reflexivity. Qed.

Lemma tree_at_emit_all (es : list Event) (s : State) (t : vtree) :
  tree_at s t → tree_at (emit_all es s) t.
Proof. apply tree_at_frame. intros v _. apply kids_of_emit_all. Qed.

(** A loop over the children whose body only appends to the trace: the
    events of the children follow one another in [childViews] order. *)
Lemma notify_children (ev : vid → Event) (rec : State → vid → outcome State)
    (kids : list vtree) (a : loc) (s : State) :
  childArrays s !! a = Some (entries kids) →
  (∀ k es, k ∈ kids →
     rec (emit_all es s) (root k)
     = Ret (emit_all (map ev (preorder k)) (emit_all es s))) →
  forEach_from id (λ s x, view ← as_view x; rec s view) a 0 (length kids) s
  = Ret (emit_all (map ev (concat (map preorder kids))) s).
Proof.
  intros Ha Hrec.
  destruct (forEach_from_run id (λ s x, view ← as_view x; rec s view) a
              (λ i x, x = emit_all (map ev (concat (map preorder (take i kids)))) s)
              (length kids) 0 s) as (s' & -> & Hs').
  - simpl. by rewrite emit_all_nil.
  - intros i x [_ Hi] ->. simpl in Hi.
    destruct (lookup_lt_is_Some_2 kids i Hi) as [k Hk].
    rewrite (entry_at_entries _ a kids i k); [|done..]. simpl.
    rewrite Hrec by (by eapply list_elem_of_lookup_2).
    eexists. split; [done|].
    rewrite emit_all_app, (take_S_r kids i k), map_app, concat_app by done.
    simpl. by rewrite app_nil_r, map_app.
  - simpl in Hs'. by rewrite firstn_all in Hs'; subst.
Qed.

(** [_notifyDidCreateElement] calls the hook of the view, then those of the
    views below it, child by child. *)
Lemma notifyDidCreateElement_tree (t : vtree) :
  ∀ fuel s, tree_at s t → depth t ≤ fuel →
    _notifyDidCreateElement fuel s (root t)
    = Ret (emit_all (map DidCreateElement (preorder t)) s).
Proof.
  induction t as [v kids IH] using vtree_induction.
  intros [|fuel] s Ht Hfuel; simpl in Hfuel; [lia|].
  apply tree_at_kids in Ht as [Hk Hkids].
  destruct (kids_of_lookup _ _ _ Hk) as (w & Hw & Ha).
  unfold _notifyDidCreateElement. cbn [_notifyDidCreateElement_with root].
  rewrite (lookup_view_Some _ _ _ Hw).
  change (didCreateElement s v) with (Ret (emit (DidCreateElement v) s)).
  cbn [mbind outcome_bind].
  rewrite (forEachChildView_unfold _ _ _ _ w (entries kids)) by done.
  unfold entries at 1. rewrite length_map.
  rewrite (notify_children DidCreateElement (_notifyDidCreateElement fuel) kids); [|done|].
  - by rewrite emit_emit_all, emit_all_app.
  - intros k es Hin. rewrite Forall_forall in IH, Hkids.
    rewrite emit_emit_all, emit_all_app.
    apply IH; [done | apply tree_at_emit_all; by apply Hkids |].
    pose proof (depth_kid k kids Hin). lia.
Qed.

(** [_notifyWillDestroyElement] follows the same order. *)
Lemma notifyWillDestroyElement_tree (t : vtree) :
  ∀ fuel s, tree_at s t → depth t ≤ fuel →
    _notifyWillDestroyElement fuel s (root t)
    = Ret (emit_all (map WillDestroyElement (preorder t)) s).
Proof.
  induction t as [v kids IH] using vtree_induction.
  intros [|fuel] s Ht Hfuel; simpl in Hfuel; [lia|].
  apply tree_at_kids in Ht as [Hk Hkids].
  destruct (kids_of_lookup _ _ _ Hk) as (w & Hw & Ha).
  cbn [_notifyWillDestroyElement root].
  rewrite (lookup_view_Some _ _ _ Hw). cbn [mbind outcome_bind].
  rewrite (forEachChildView_unfold _ _ _ _ w (entries kids)) by done.
  unfold entries at 1. rewrite length_map.
  rewrite (notify_children WillDestroyElement _ kids); [|done|].
  - by rewrite emit_emit_all, emit_all_app.
  - intros k es Hin. rewrite Forall_forall in IH, Hkids.
    rewrite emit_emit_all, emit_all_app.
    apply IH; [done | apply tree_at_emit_all; by apply Hkids |].
    pose proof (depth_kid k kids Hin). lia.
Qed.

End Notifications.

(** ** Loops over the children of a tree node *)

Section Children.
Context `{Runtime}.

(** A loop over the children that runs [rec] on each: when [rec] does on the
    child [k] what [F k] describes, the loop folds [F] over the children.
    [P] is what the loop keeps true. *)
Lemma children_run {A : Type} (st : A → State) (P : A → Prop)
    (F : vtree → A → A) (rec : A → vid → outcome A)
    (kids : list vtree) (a : loc) (acc : A) :
  P acc →
  (∀ x, P x → childArrays (st x) !! a = Some (entries kids)) →
  (∀ k x, k ∈ kids → P x → rec x (root k) = Ret (F k x) ∧ P (F k x)) →
  forEach_from st (λ acc x, view ← as_view x; rec acc view) a 0 (length kids) acc
  = Ret (foldl (λ x k, F k x) acc kids)
  ∧ P (foldl (λ x k, F k x) acc kids).
Proof.
  intros Hacc Harr Hrec.
  destruct (forEach_from_run st (λ acc x, view ← as_view x; rec acc view) a
              (λ i x, x = foldl (λ x k, F k x) acc (take i kids) ∧ P x)
              (length kids) 0 acc) as (acc' & -> & Hacc').
  - by rewrite take_0.
  - intros i x [_ Hi] [-> Hx]. simpl in Hi.
    destruct (lookup_lt_is_Some_2 kids i Hi) as [k Hk].
    rewrite (entry_at_entries _ a kids i k); [|by apply Harr|done].
    cbn [as_view mbind outcome_bind].
    destruct (Hrec k _ (list_elem_of_lookup_2 _ _ _ Hk) Hx) as [-> HP].
    eexists. split; [done|]. by rewrite (take_S_r kids i k), foldl_app.
  - simpl in Hacc'. rewrite firstn_all in Hacc'. by destruct Hacc' as [-> ?].
Qed.

End Children.

(** ** Frames: what an operation leaves alone *)

Lemma same_kids_refl (s : State) : same_kids s s.
Proof. by split. Qed.

Lemma same_kids_trans (s1 s2 s3 : State) :
  same_kids s1 s2 → same_kids s2 s3 → same_kids s1 s3.
Proof.
  intros [A1 H1] [A2 H2]. split; [congruence|].
  intros v. by rewrite H2, H1.
Qed.

Lemma same_kids_kids_of (s s' : State) (v : vid) :
  same_kids s s' → kids_of s' v = kids_of s v.
Proof.
  intros [Ha Hh]. unfold kids_of. specialize (Hh v).
  destruct (heap s' !! v) as [w'|], (heap s !! v) as [w|]; simplify_eq/=; try done.
  by rewrite Ha, Hh.
Qed.

Lemma tree_at_same_kids (s s' : State) (t : vtree) :
  same_kids s s' → tree_at s t → tree_at s' t.
Proof. intros Hs. apply tree_at_frame. intros v _. by apply same_kids_kids_of. Qed.

Lemma same_kids_update_view (s : State) (v : vid) (f : View → View) :
  (∀ w, childViews (f w) = childViews w) → same_kids s (update_view v f s).
Proof.
  intros Hf. split; [done|]. intros u. simpl.
  destruct (decide (v = u)) as [->|Hne].
  - rewrite lookup_alter_eq. destruct (heap s !! u); simpl; [|done]. by rewrite Hf.
  - by rewrite lookup_alter_ne.
Qed.

Lemma same_kids_emit (s : State) (e : Event) : same_kids s (emit e s).
Proof. by split. Qed.

Lemma same_kids_emit_all (s : State) (es : list Event) : same_kids s (emit_all es s).
Proof. by split. Qed.

(** ** The cascade of element changes *)

Lemma preorder_below (t : vtree) : preorder t = root t :: below t.
Proof. by destruct t. Qed.

Lemma drop_elements_app (vs1 vs2 : list vid) (s : State) :
  drop_elements (vs1 ++ vs2) s = drop_elements vs2 (drop_elements vs1 s).
Proof. apply foldl_app. Qed.

Lemma drop_elements_concat (kids : list vtree) (s : State) :
  foldl (λ x k, drop_elements (preorder k) x) s kids
  = drop_elements (concat (map preorder kids)) s.
Proof.
  revert s. induction kids as [|k kids IH]; intros s; simpl; [done|].
  by rewrite IH, drop_elements_app.
Qed.

Lemma same_kids_drop_elements (vs : list vid) (s : State) :
  same_kids s (drop_elements vs s).
Proof.
  revert s. induction vs as [|v vs IH]; intros s; simpl; [apply same_kids_refl|].
  eapply same_kids_trans; [|apply IH]. by apply same_kids_update_view.
Qed.

Lemma drop_elements_other (vs : list vid) (s : State) :
  childArrays (drop_elements vs s) = childArrays s
  ∧ classArrays (drop_elements vs s) = classArrays s
  ∧ views (drop_elements vs s) = views s
  ∧ observers (drop_elements vs s) = observers s
  ∧ trace (drop_elements vs s) = trace s.
Proof.
  revert s. induction vs as [|v vs IH]; intros s; simpl; [done|].
  destruct (IH (drop_element v s)) as (-> & -> & -> & -> & ->). done.
Qed.

Lemma drop_elements_heap_other (vs : list vid) (s : State) (u : vid) :
  u ∉ vs → heap (drop_elements vs s) !! u = heap s !! u.
Proof.
  revert s. induction vs as [|v vs IH]; intros s Hu; simpl; [done|].
  apply not_elem_of_cons in Hu as [Hne Hu].
  rewrite IH by done. simpl. by rewrite lookup_alter_ne.
Qed.

Lemma drop_elements_heap_in (vs : list vid) (s : State) (u : vid) :
  u ∈ vs →
  element <$> (heap (drop_elements vs s) !! u) = (λ _, NotCached) <$> (heap s !! u).
Proof.
  revert s. induction vs as [|v vs IH]; intros s Hu; [by apply elem_of_nil in Hu|].
  cbn [drop_elements foldl]. fold (drop_elements vs (drop_element v s)).
  destruct (decide (u ∈ vs)) as [Hin|Hout].
  - rewrite IH by done. unfold drop_element. simpl.
    destruct (decide (v = u)) as [->|Hne].
    + rewrite lookup_alter_eq. by destruct (heap s !! u).
    + by rewrite lookup_alter_ne.
  - apply elem_of_cons in Hu as [->|Hu]; [|done].
    rewrite drop_elements_heap_other by done. unfold drop_element. simpl.
    rewrite lookup_alter_eq. by destruct (heap s !! v).
Qed.

Lemma tree_at_root_lookup (s : State) (t : vtree) :
  tree_at s t → ∃ w, heap s !! root t = Some w.
Proof.
  destruct t as [v kids]. intros Ht. apply tree_at_kids in Ht as [Hk _].
  destruct (kids_of_lookup _ _ _ Hk) as (w & Hw & _). eauto.
Qed.

Section Cascade.
Context `{Runtime}.

(** A change of a view's element drops the cached element of every view
    below it. *)
Lemma elementDidChange_tree (t : vtree) :
  ∀ fuel s, tree_at s t → depth t ≤ fuel →
    _sccv_elementDidChange fuel s (root t) = Ret (drop_elements (below t) s).
Proof.
  induction t as [v kids IH] using vtree_induction.
  intros [|fuel] s Ht Hfuel; simpl in Hfuel; [lia|].
  apply tree_at_kids in Ht as [Hk Hkids].
  destruct (kids_of_lookup _ _ _ Hk) as (w & Hw & Ha).
  cbn [_sccv_elementDidChange root].
  rewrite (forEachChildView_unfold _ _ _ _ w (entries kids)) by done.
  unfold entries at 1. rewrite length_map.
  rewrite Forall_forall in IH, Hkids.
  destruct (children_run id (same_kids s)
              (λ k x, drop_elements (preorder k) x)
              (λ s view, _ ← lookup_view s view;
                 _sccv_elementDidChange fuel (update_view view (with_element NotCached) s) view)
              kids (childViews w) s) as [-> _].
  - apply same_kids_refl.
  - intros x [Hx _]. simpl. by rewrite Hx.
  - intros k x Hin Hx.
    assert (tree_at x k) as Hxk by (eapply tree_at_same_kids; eauto).
    destruct (tree_at_root_lookup _ _ Hxk) as [wk Hwk].
    rewrite (lookup_view_Some _ _ _ Hwk). cbn [mbind outcome_bind].
    rewrite IH; [| done | | pose proof (depth_kid k kids Hin); lia].
    + split; [by rewrite preorder_below|].
      eapply same_kids_trans; [done | apply same_kids_drop_elements].
    + eapply tree_at_same_kids; [|done]. by apply same_kids_update_view.
  - by rewrite drop_elements_concat.
Qed.

Lemma set_element_tree (t : vtree) (fuel : nat) (s : State) (e : option Elem) :
  tree_at s t → depth t ≤ fuel →
  set_element fuel s (root t) e
  = Ret (drop_elements (below t) (update_view (root t) (with_element (Cached e)) s)).
Proof.
  intros Ht Hfuel. unfold set_element.
  destruct (tree_at_root_lookup _ _ Ht) as [w Hw].
  rewrite (lookup_view_Some _ _ _ Hw). cbn [mbind outcome_bind].
  apply elementDidChange_tree; [|done].
  eapply tree_at_same_kids; [|done]. by apply same_kids_update_view.
Qed.

(** [destroyElement] on a hierarchy whose root has an element. *)
Lemma destroyElement_tree (t : vtree) (fuel : nat) (s : State) (e : Elem) :
  tree_at s t → depth t ≤ fuel →
  get_element fuel s (root t) = Ret (Some e) →
  destroyElement fuel s (root t)
  = Ret (drop_elements (below t)
           (update_view (root t) (with_element (Cached None))
              (emit (JqRemove e)
                 (emit_all (map WillDestroyElement (preorder t)) s)))).
Proof.
  intros Ht Hfuel He. unfold destroyElement. rewrite He. cbn [mbind outcome_bind].
  rewrite notifyWillDestroyElement_tree by done. cbn [mbind outcome_bind].
  apply set_element_tree; [|done].
  apply (tree_at_same_kids s); [|done].
  eapply same_kids_trans; [apply same_kids_emit_all | apply same_kids_emit].
Qed.

End Cascade.

(** ** Class-name bindings *)

Section Bindings.
Context `{Runtime}.

Lemma get_value_heap (s s' : State) (x : value) (key : string) :
  heap s' = heap s → get_value s' x key = get_value s x key.
Proof. intros Hh. destruct x; simpl; try done. by rewrite Hh. Qed.

Lemma getPath_heap (s s' : State) (v : vid) (path : string) :
  heap s' = heap s → getPath s' v path = getPath s v path.
Proof.
  intros Hh. unfold getPath. generalize (VView v).
  induction (split_on dot path) as [|seg segs IH]; intros x; simpl; [done|].
  by rewrite IH, (get_value_heap s s').
Qed.

Lemma classStringForProperty_heap (s s' : State) (v : vid) (property : string) :
  heap s' = heap s →
  _classStringForProperty s' v property = _classStringForProperty s v property.
Proof. intros Hh. unfold _classStringForProperty. by rewrite (getPath_heap s s'). Qed.

Lemma observer_for_heap (s s' : State) (v : vid) (b : string) :
  heap s' = heap s → observer_for s' v b = observer_for s v b.
Proof. intros Hh. unfold observer_for. by rewrite (classStringForProperty_heap s s'). Qed.

Lemma classes_for_heap (s s' : State) (v : vid) (bs : list string) :
  heap s' = heap s → classes_for s' v bs = classes_for s v bs.
Proof.
  intros Hh. unfold classes_for. f_equal. apply map_ext. intros b.
  by apply classStringForProperty_heap.
Qed.

Lemma alter_last (o : Observer) (c : value) (obs : list Observer) :
  alter (with_oldClass c) (length obs) (obs ++ [o]) = obs ++ [with_oldClass c o].
Proof.
  induction obs as [|o' obs IH]; simpl; [done|]. f_equal. exact IH.
Qed.

Lemma bind_className_run (v : vid) (cn : loc) (s : State) (b : string)
    (arr : list value) :
  classArrays s !! cn = Some arr →
  bind_className v cn s (VStr b) = Ret (bound s v cn arr [b]).
Proof.
  intros Harr. unfold bind_className. cbn [as_string mbind outcome_bind].
  set (s1 := set_observers _ s).
  rewrite (classStringForProperty_heap s s1) by done.
  unfold bound, classes_for, observer_for. cbn [map List.filter].
  destruct (truthy (_classStringForProperty s v b)) eqn:Hc.
  - change (classArrays s1) with (classArrays s). rewrite Harr.
    cbn [of_option mbind outcome_bind]. subst s1.
    cbn [observers classArrays set_observers set_classArrays
         heap childArrays views trace].
    by rewrite alter_last.
  - subst s1. rewrite app_nil_r, insert_id by done. by destruct s.
Qed.

Lemma bound_bound (s : State) (v : vid) (cn : loc) (arr : list value)
    (b : string) (bs : list string) :
  bound (bound s v cn arr [b]) v cn (arr ++ classes_for s v [b]) bs
  = bound s v cn arr (b :: bs).
Proof.
  unfold bound.
  rewrite (classes_for_heap s (set_observers _ (set_classArrays _ s))) by done.
  unfold set_observers, set_classArrays.
  cbn [observers classArrays heap childArrays views trace]. f_equal.
  - rewrite insert_insert_eq, <- app_assoc. f_equal. f_equal.
    unfold classes_for. cbn [map List.filter].
    destruct (truthy (_classStringForProperty s v b)); reflexivity.
  - by rewrite <- app_assoc.
Qed.

Lemma bind_classNames_run (v : vid) (cn : loc) (bs : list string) :
  ∀ s arr, classArrays s !! cn = Some arr →
    foldM (bind_className v cn) (map VStr bs) s = Ret (bound s v cn arr bs).
Proof.
  induction bs as [|b bs IH]; intros s arr Harr.
  - simpl. unfold bound, classes_for. simpl. rewrite !app_nil_r.
    rewrite insert_id by done. by destruct s.
  - cbn [map foldM]. rewrite (bind_className_run v cn s b arr) by done.
    cbn [mbind outcome_bind].
    rewrite (IH _ (arr ++ classes_for s v [b])).
    + by rewrite bound_bound.
    + unfold bound. simpl. by rewrite lookup_insert_eq.
Qed.

(** [_applyClassNameBindings] registers, for each entry of
    [classNameBindings] in turn, one observer under the entry as written,
    and pushes the classes in force onto [classNames]. *)
Lemma applyClassNameBindings_run (s : State) (v : vid) (w : View)
    (bs : list string) (arr : list value) :
  heap s !! v = Some w →
  classArrays s !! classNameBindings w = Some (map VStr bs) →
  classArrays s !! classNames w = Some arr →
  _applyClassNameBindings s v = Ret (bound s v (classNames w) arr bs).
Proof.
  intros Hw Hbs Harr. unfold _applyClassNameBindings.
  rewrite (lookup_view_Some _ _ _ Hw). cbn [mbind outcome_bind]. rewrite Hbs.
  by apply bind_classNames_run.
Qed.

(** The observer of lines 205-223, when it is called: it takes the class it
    added last off the element, if there is one, and adds the class of the
    property's value now, if there is one, which it remembers. *)
Lemma run_observer_run (fuel i : nat) (x : State) (o : Observer) (elem : option Elem) :
  observers x !! i = Some o →
  dollar fuel x (obs_target o) = Ret elem →
  let newClass := _classStringForProperty x (obs_target o) (obs_binding o) in
  ∃ x',
    run_observer fuel i x = Ret x'
    ∧ trace x' = trace x
                 ++ (if truthy (obs_oldClass o)
                     then [JqRemoveClass elem (obs_oldClass o)] else [])
                 ++ (if truthy newClass then [JqAddClass elem newClass] else [])
    ∧ observers x' !! i
      = Some (with_oldClass (if truthy newClass then newClass else VNull) o).
Proof.
  intros Ho Helem newClass. unfold run_observer. rewrite Ho.
  cbn [of_option mbind outcome_bind]. rewrite Helem. cbn [mbind outcome_bind].
  fold newClass.
  destruct (truthy (obs_oldClass o)), (truthy newClass);
    (eexists; split; [done|]);
    cbn [trace observers emit set_observers]; rewrite ?app_nil_r, <- ?app_assoc;
    (split; [done|]); by rewrite list_lookup_alter_eq, Ho.
Qed.

End Bindings.

(** ** Rendering a hierarchy *)

Lemma fmap_option_eq {A B : Type} (f : A → B) (o o' : option A) :
  f <$> o' = f <$> o →
  match o', o with
  | Some a', Some a => f a' = f a
  | None, None => True
  | _, _ => False
  end.
Proof. destruct o', o; cbn; intros Heq; try done; by injection Heq. Qed.

Lemma unflagged_fields (w w' : View) :
  unflagged w' = unflagged w →
  elementId w' = elementId w ∧ tagName w' = tagName w ∧ ariaRole w' = ariaRole w
  ∧ isVisible w' = isVisible w ∧ template w' = template w
  ∧ childViews w' = childViews w ∧ classNameBindings w' = classNameBindings w
  ∧ classNames w' = classNames w.
Proof. destruct w, w'. unfold unflagged. simpl. intros [= -> -> -> -> -> -> -> ->]. done. Qed.

Lemma render_frame_lookup (N : list vid) (s s' : State) (v : vid) (w' : View) :
  render_frame N s s' → heap s' !! v = Some w' →
  ∃ w, heap s !! v = Some w ∧ unflagged w' = unflagged w.
Proof.
  intros Hf Hw'. pose proof (fmap_option_eq _ _ _ (rf_heap _ _ _ Hf v)) as Hv.
  rewrite Hw' in Hv. destruct (heap s !! v) as [w|]; [eauto | done].
Qed.

Lemma render_frame_lookup_back (N : list vid) (s s' : State) (v : vid) (w : View) :
  render_frame N s s' → heap s !! v = Some w →
  ∃ w', heap s' !! v = Some w' ∧ unflagged w' = unflagged w.
Proof.
  intros Hf Hw. pose proof (fmap_option_eq _ _ _ (rf_heap _ _ _ Hf v)) as Hv.
  rewrite Hw in Hv. destruct (heap s' !! v) as [w'|]; [eauto | done].
Qed.

Lemma render_frame_refl (N : list vid) (s : State) : render_frame N s s.
Proof. by constructor. Qed.

Lemma render_frame_trans (N : list vid) (s1 s2 s3 : State) :
  render_frame N s1 s2 → render_frame N s2 s3 → render_frame N s1 s3.
Proof.
  intros H12 H23. constructor.
  - by rewrite (rf_childArrays _ _ _ H23), (rf_childArrays _ _ _ H12).
  - by rewrite (rf_views _ _ _ H23), (rf_views _ _ _ H12).
  - by rewrite (rf_trace _ _ _ H23), (rf_trace _ _ _ H12).
  - intros v. by rewrite (rf_heap _ _ _ H23), (rf_heap _ _ _ H12).
  - intros l Hl. by apply (rf_classes _ _ _ H23), (rf_classes _ _ _ H12).
  - intros l Hl. rewrite (rf_written _ _ _ H23), (rf_written _ _ _ H12); [done..|].
    intros v w2 Hv Hw2.
    destruct (render_frame_lookup _ _ _ _ _ H12 Hw2) as (w1 & Hw1 & Hu).
    apply unflagged_fields in Hu as (_ & _ & _ & _ & _ & _ & _ & ->). by eapply Hl.
Qed.

Lemma render_frame_same_kids (N : list vid) (s s' : State) :
  render_frame N s s' → same_kids s s'.
Proof.
  intros Hf. split; [apply (rf_childArrays _ _ _ Hf)|]. intros v.
  pose proof (fmap_option_eq _ _ _ (rf_heap _ _ _ Hf v)) as Hv.
  destruct (heap s' !! v) as [w'|], (heap s !! v) as [w|]; simpl; try done.
  f_equal. by apply unflagged_fields in Hv as (_ & _ & _ & _ & _ & -> & _).
Qed.

Lemma render_frame_update_view (N : list vid) (s : State) (v : vid) (f : View → View) :
  (∀ w, unflagged (f w) = unflagged w) → render_frame N s (update_view v f s).
Proof.
  intros Hf. constructor; try done. intros u. simpl.
  destruct (decide (v = u)) as [->|Hne].
  - rewrite lookup_alter_eq. destruct (heap s !! u); simpl; [|done]. by rewrite Hf.
  - by rewrite lookup_alter_ne.
Qed.

Lemma tag_of_frame (N : list vid) (s s' : State) (v : vid) :
  render_frame N s s' → tag_of s' v = tag_of s v.
Proof.
  intros Hf. unfold tag_of.
  pose proof (fmap_option_eq _ _ _ (rf_heap _ _ _ Hf v)) as Hv.
  destruct (heap s' !! v) as [w'|], (heap s !! v) as [w|]; simpl; try done.
  by apply unflagged_fields in Hv as (_ & -> & _).
Qed.

Lemma view_calls_frame (N : list vid) (s s' : State) (t : vtree) :
  render_frame N s s' → view_calls s' t = view_calls s t.
Proof.
  intros Hf. induction t as [v kids IH] using vtree_induction.
  cbn [view_calls].
  pose proof (fmap_option_eq _ _ _ (rf_heap _ _ _ Hf v)) as Hv.
  destruct (heap s' !! v) as [w'|], (heap s !! v) as [w|]; try done.
  apply unflagged_fields in Hv as (Hid & _ & Hrole & Hvis & Htpl & _).
  unfold attribute_calls. rewrite Hid, Hrole, Hvis, Htpl. f_equal.
  destruct (template w); [done|]. f_equal.
  induction IH as [|k kids Hk _ IHkids]; [done|].
  cbn [map]. by rewrite Hk, IHkids, (tag_of_frame N s s').
Qed.

Lemma render_ok_frame (N : list vid) (s s' : State) :
  render_ok N s → render_frame N s s' → flags_clear N s' → render_ok N s'.
Proof.
  intros Hok Hf Hflags v w' Hv Hw'.
  destruct (render_frame_lookup _ _ _ _ _ Hf Hw') as (w & Hw & Hu).
  apply unflagged_fields in Hu as (_ & _ & _ & _ & _ & _ & Hcb & Hcn).
  destruct (Hok v w Hv Hw) as (_ & Harr & Hstr & Hapart).
  rewrite Hcb, Hcn. repeat split.
  - by eapply Hflags.
  - by apply (rf_classes _ _ _ Hf).
  - intros l. rewrite (rf_written _ _ _ Hf); [apply Hstr|].
    intros u wu Hu Hwu. by eapply Hapart.
  - intros u wu' Hu Hwu'.
    destruct (render_frame_lookup _ _ _ _ _ Hf Hwu') as (wu & Hwu & Huu).
    apply unflagged_fields in Huu as (_ & _ & _ & _ & _ & _ & _ & ->).
    by eapply Hapart.
Qed.







Section Rendering.
Context `{Runtime}.

Lemma applyClassNameBindings_ok (N : list vid) (s : State) (v : vid) (w : View) :
  v ∈ N → heap s !! v = Some w →
  is_Some (classArrays s !! classNames w) →
  (∀ l, classArrays s !! classNameBindings w = Some l → ∃ bs, l = map VStr bs) →
  ∃ s1, _applyClassNameBindings s v = Ret s1
        ∧ heap s1 = heap s ∧ render_frame N s s1.
Proof.
  intros Hv Hw [arr Harr] Hstr.
  destruct (classArrays s !! classNameBindings w) as [l|] eqn:Hl.
  - destruct (Hstr l eq_refl) as [bs ->].
    rewrite (applyClassNameBindings_run s v w bs arr) by done.
    eexists. split; [done|]. split; [done|].
    constructor; try done.
    + intros l. unfold bound. simpl.
      destruct (decide (classNames w = l)) as [<-|Hne].
      * by rewrite lookup_insert_eq.
      * by rewrite lookup_insert_ne.
    + intros l Hfresh. unfold bound. simpl. rewrite lookup_insert_ne; [done|].
      by eapply Hfresh.
  - exists s. unfold _applyClassNameBindings.
    rewrite (lookup_view_Some _ _ _ Hw). cbn [mbind outcome_bind]. rewrite Hl.
    split; [done|]. split; [done | apply render_frame_refl].
Qed.

Lemma outline_app (b1 b2 : RenderBuffer) : outline (b1 ++ b2) = outline b1 ++ outline b2.
Proof. apply map_app. Qed.

Lemma applyAttributesToBuffer_ok (N : list vid) (s : State) (v : vid) (w : View)
    (b : RenderBuffer) :
  v ∈ N → heap s !! v = Some w →
  is_Some (classArrays s !! classNames w) →
  (∀ l, classArrays s !! classNameBindings w = Some l → ∃ bs, l = map VStr bs) →
  ∃ s1 attrs, applyAttributesToBuffer s v b = Ret (s1, b ++ attrs)
              ∧ outline attrs = attribute_calls w
              ∧ heap s1 = heap s ∧ render_frame N s s1.
Proof.
  intros Hv Hw Harr Hstr.
  destruct (applyClassNameBindings_ok N s v w) as (s1 & Hrun & Hh & Hf); [done..|].
  unfold applyAttributesToBuffer. rewrite Hrun. cbn [mbind outcome_bind].
  rewrite (lookup_view_Some s1 v w) by (by rewrite Hh). cbn [mbind outcome_bind].
  destruct (rf_classes _ _ _ Hf _ Harr) as [names ->]. cbn [of_option mbind outcome_bind].
  exists s1. unfold attribute_calls.
  destruct (truthy (ariaRole w)), (isVisible w); eexists;
    (split; [rewrite <- ?app_assoc; reflexivity|]); done.
Qed.

Lemma flags_clear_update (N : list vid) (s : State) (v : vid) :
  flags_clear N s → flags_clear N (update_view v (with_didRenderChildViews false) s).
Proof.
  intros Hs u wu Hu. simpl. destruct (decide (v = u)) as [->|Hne].
  - rewrite lookup_alter_eq. destruct (heap s !! u); simpl; [|done]. by intros [= <-].
  - rewrite lookup_alter_ne by done. by apply Hs.
Qed.

Lemma flags_clear_reset (N : list vid) (s s' : State) (v : vid) :
  (∀ u, u ≠ v → heap s' !! u = heap s !! u) →
  flags_clear N s →
  flags_clear N (update_view v (with_didRenderChildViews false) s').
Proof.
  intros Hother Hs u wu Hu. simpl. destruct (decide (v = u)) as [->|Hne].
  - rewrite lookup_alter_eq. destruct (heap s' !! u); simpl; [|done]. by intros [= <-].
  - rewrite lookup_alter_ne, Hother by done. by apply Hs.
Qed.

(** The loop of [renderChildViews], for a method [rec] that renders each
    child as [view_calls] says. *)
Lemma render_children_run (N : list vid)
    (rec : State → vid → list BufCall → outcome (State * list BufCall))
    (kids : list vtree) (a : loc) (s s1 : State) (b : list BufCall) :
  childArrays s !! a = Some (entries kids) →
  Forall (tree_at s) kids →
  render_ok N s → render_frame N s s1 → flags_clear N s1 →
  (∀ k x bx, k ∈ kids → tree_at x k → render_ok N x →
     ∃ s' added, rec x (root k) bx = Ret (s', bx ++ added)
                 ∧ outline added = view_calls x k
                 ∧ render_frame N x s' ∧ flags_clear N s') →
  ∃ s3 added,
    forEach_from fst
      (λ (acc : State * list BufCall) (x : value),
         view ← as_view x;
         w ← lookup_view acc.1 view;
         '(s', buffer') ← rec acc.1 view (acc.2 ++ [BBegin (tagName w)]);
         Ret (s', buffer' ++ [BEnd]))
      a 0 (length kids) (s1, b) = Ret (s3, b ++ added)
    ∧ outline added = child_calls s kids
    ∧ render_frame N s s3 ∧ flags_clear N s3.
Proof.
  intros Ha Hkids Hok Hfs1 Hc1 Hrec. rewrite Forall_forall in Hkids.
  edestruct (forEach_from_run fst
    (λ (acc : State * list BufCall) (x : value),
       view ← as_view x;
       w ← lookup_view acc.1 view;
       '(s', buffer') ← rec acc.1 view (acc.2 ++ [BBegin (tagName w)]);
       Ret (s', buffer' ++ [BEnd]))
    a
    (λ i acc, ∃ added,
       acc.2 = b ++ added
       ∧ outline added = child_calls s (take i kids)
       ∧ render_frame N s acc.1 ∧ flags_clear N acc.1)
    (length kids) 0 (s1, b)) as ([s3 b3] & Hrun & added & Hb3 & Hout & Hf3 & Hc3).
  - exists []. by rewrite app_nil_r.
  - intros i [x bx] [_ Hi] (added & Hbx & Hout & Hfx & Hcx).
    cbn [fst snd] in *. simpl in Hi.
    destruct (lookup_lt_is_Some_2 kids i Hi) as [k Hki].
    assert (k ∈ kids) as Hin by (by eapply list_elem_of_lookup_2).
    rewrite (entry_at_entries _ _ kids i k);
      [| by rewrite (rf_childArrays _ _ _ Hfx) | done].
    cbn [as_view mbind outcome_bind].
    assert (tree_at x k) as Hxk.
    { eapply tree_at_same_kids; [by eapply render_frame_same_kids | by apply Hkids]. }
    destruct (tree_at_root_lookup _ _ Hxk) as [wk Hwk].
    rewrite (lookup_view_Some _ _ _ Hwk). cbn [mbind outcome_bind].
    destruct (Hrec k x (bx ++ [BBegin (tagName wk)]) Hin Hxk)
      as (s' & added_k & -> & Houtk & Hfk & Hck); [by eapply render_ok_frame|].
    cbn [mbind outcome_bind]. eexists. split; [done|].
    exists (added ++ [BBegin (tagName wk)] ++ added_k ++ [BEnd]).
    cbn [fst snd]. split; [|split; [|split]].
    + rewrite Hbx. by rewrite <- !app_assoc.
    + rewrite (take_S_r kids i k) by done.
      unfold child_calls in *. rewrite map_app, concat_app.
      rewrite !outline_app, Hout, Houtk. cbn [map concat outline erase].
      rewrite app_nil_r, (view_calls_frame N s x) by done.
      replace (tagName wk) with (tag_of s (root k)); [done|].
      rewrite <- (tag_of_frame N s x) by done. unfold tag_of. by rewrite Hwk.
    + by eapply render_frame_trans.
    + done.
  - simpl in Hb3, Hout. rewrite firstn_all in Hout. subst b3.
    exists s3, added. done.
Qed.

(** [renderToBuffer] on a hierarchy: it returns, it only appends to the
    buffer, and what it appends is [view_calls], class names apart. *)
Lemma renderToBuffer_tree (N : list vid) (t : vtree) :
  ∀ fuel s b,
    tree_at s t → (∀ v, v ∈ preorder t → v ∈ N) → render_ok N s → depth t ≤ fuel →
    ∃ s' added,
      renderToBuffer fuel s (root t) b = Ret (s', b ++ added)
      ∧ outline added = view_calls s t
      ∧ render_frame N s s' ∧ flags_clear N s'.
Proof.
  induction t as [v kids IH] using vtree_induction.
  intros [|fuel] s b Ht HN Hok Hfuel; simpl in Hfuel; [lia|].
  apply tree_at_kids in Ht as [Hk Hkids].
  destruct (kids_of_lookup _ _ _ Hk) as (w & Hw & Ha).
  assert (v ∈ N) as HvN by (apply HN; simpl; left).
  destruct (Hok v w HvN Hw) as (Hflag & Harr & Hstr & Hapart).
  cbn [renderToBuffer root view_calls]. rewrite Hw.
  set (s0 := update_view v (with_elementNeedsUpdate false) s).
  assert (heap s0 !! v = Some (with_elementNeedsUpdate false w)) as Hw0.
  { subst s0. simpl. by rewrite lookup_alter_eq, Hw. }
  assert (render_frame N s s0) as Hf0.
  { apply render_frame_update_view. by intros []. }
  assert (flags_clear N s0) as Hc0.
  { intros u wu Hu. subst s0. simpl. destruct (decide (v = u)) as [->|Hne].
    - rewrite lookup_alter_eq, Hw. simpl. by intros [= <-].
    - rewrite lookup_alter_ne by done. intros Hwu. by apply (Hok u wu). }
  destruct (applyAttributesToBuffer_ok N s0 v _ b HvN Hw0)
    as (s1 & attrs & -> & Hattrs & Hh1 & Hf1); [done..|].
  cbn [mbind outcome_bind].
  assert (heap s1 !! v = Some (with_elementNeedsUpdate false w)) as Hw1
    by (by rewrite Hh1).
  assert (render_frame N s s1) as Hfs1 by (by eapply render_frame_trans).
  assert (flags_clear N s1) as Hc1.
  { intros u wu Hu. rewrite Hh1. by apply Hc0. }
  unfold render. rewrite (lookup_view_Some _ _ _ Hw1).
  cbn [mbind outcome_bind template with_elementNeedsUpdate].
  destruct (template w) as [output|] eqn:Htpl.
  - (* a template: it is in charge of the children *)
    cbn [mbind outcome_bind].
    rewrite (lookup_view_Some _ _ (with_didRenderChildViews true (with_elementNeedsUpdate false w))).
    2:{ simpl. by rewrite lookup_alter_eq, Hw1. }
    cbn [mbind outcome_bind didRenderChildViews with_didRenderChildViews].
    eexists. exists (attrs ++ [BPush output]). split; [by rewrite app_assoc|].
    split; [by rewrite outline_app, Hattrs|]. split.
    + eapply render_frame_trans; [exact Hfs1|].
      eapply render_frame_trans; apply render_frame_update_view; by intros [].
    + apply (flags_clear_reset N s1); [|done].
      intros u Hne. simpl. by rewrite lookup_alter_ne.
  - (* no template: the children are rendered in turn *)
    cbn [mbind outcome_bind]. rewrite (lookup_view_Some _ _ _ Hw1).
    cbn [mbind outcome_bind didRenderChildViews with_elementNeedsUpdate].
    rewrite Hflag. unfold renderChildViews_with.
    assert (childArrays s1 !! childViews w = Some (entries kids)) as Ha1.
    { by rewrite (rf_childArrays _ _ _ Hfs1). }
    rewrite (forEachChildView_unfold fst _ v (s1, b ++ attrs)
               (with_elementNeedsUpdate false w) (entries kids)) by done.
    unfold entries at 1. rewrite length_map.
    cbn [childViews with_elementNeedsUpdate].
    rewrite Forall_forall in IH.
    destruct (render_children_run N (renderToBuffer fuel) kids (childViews w)
                s s1 (b ++ attrs)) as (s3 & added & -> & Hout & Hf3 & Hc3); try done.
    { intros k x bx Hin Hxk Hokx. apply IH; try done.
      - intros u Hu. apply HN. simpl. right. by eapply preorder_kid.
      - pose proof (depth_kid k kids Hin). lia. }
    cbn [mbind outcome_bind].
    eexists. exists (attrs ++ added). split; [by rewrite app_assoc|].
    split; [by rewrite outline_app, Hattrs, Hout|]. split.
    + eapply render_frame_trans; [exact Hf3|].
      eapply render_frame_trans; apply render_frame_update_view; by intros [].
    + apply (flags_clear_reset N s3); [|done].
      intros u Hne. simpl. by rewrite lookup_alter_ne.
Qed.



End Rendering.

(** ** What the operations on the element and on the hierarchy preserve

    A relation between the state before and the state after is kept by an
    operation as soon as every store update the operation is made of keeps
    it. *)

Section Frames.
Context `{Runtime}.
Variable R : State → State → Prop.
Hypothesis R_refl : ∀ s, R s s.
Hypothesis R_trans : ∀ s1 s2 s3, R s1 s2 → R s2 s3 → R s1 s3.
Hypothesis R_emit : ∀ s e, R s (emit e s).
Hypothesis R_element : ∀ s v c, R s (update_view v (with_element c) s).
Hypothesis R_parent : ∀ s v p,
  R s (update_view v (λ w, with_element NotCached (with_parentView p w)) s).
Hypothesis R_removeObject : ∀ s a arr,
  R s (set_childArrays (<[a := arr]> (childArrays s)) s).
Hypothesis R_unregister : ∀ s k, R s (set_views (delete k (views s)) s).
Hypothesis R_destroyed : ∀ s v, R s (update_view v (with_isDestroyed true) s).

Lemma forEachChildView_keeps_R (cb : State → value → outcome State) (v : vid)
    (s s' : State) :
  (∀ x y x', cb x y = Ret x' → R x x') →
  forEachChildView id cb v s = Ret s' → R s s'.
Proof.
  intros Hcb. apply (forEachChildView_keeps id cb (R s)); [|apply R_refl].
  intros x y x' Hx Hrun. eapply R_trans; [exact Hx | by eapply Hcb].
Qed.

Lemma elementDidChange_keeps (fuel : nat) :
  ∀ s v s', _sccv_elementDidChange fuel s v = Ret s' → R s s'.
Proof using R_refl R_trans R_element.
  induction fuel as [|fuel IH]; intros s v s'; [done|].
  cbn [_sccv_elementDidChange]. apply forEachChildView_keeps_R.
  intros x y x'. destruct y; try done. cbn [as_view mbind outcome_bind].
  destruct (lookup_view x v0); try done. cbn [mbind outcome_bind].
  intros Hrun. eapply R_trans; [apply R_element | by eapply IH].
Qed.

Lemma set_element_keeps (fuel : nat) (s : State) (v : vid) (e : option Elem) (s' : State) :
  set_element fuel s v e = Ret s' → R s s'.
Proof using R_refl R_trans R_element.
  unfold set_element. destruct (lookup_view s v); try done. cbn [mbind outcome_bind].
  intros Hrun. eapply R_trans; [apply R_element | by eapply elementDidChange_keeps].
Qed.

Lemma set_parentView_keeps (fuel : nat) (s : State) (v : vid) (p : option vid) (s' : State) :
  set_parentView fuel s v p = Ret s' → R s s'.
Proof using R_refl R_trans R_element R_parent.
  unfold set_parentView. destruct (lookup_view s v); try done. cbn [mbind outcome_bind].
  intros Hrun. eapply R_trans; [apply R_parent | by eapply elementDidChange_keeps].
Qed.

Lemma notifyDidCreateElement_keeps (fuel : nat) :
  ∀ s v s', _notifyDidCreateElement fuel s v = Ret s' → R s s'.
Proof using R_refl R_trans R_emit.
  induction fuel as [|fuel IH]; intros s v s'; [done|].
  unfold _notifyDidCreateElement. cbn [_notifyDidCreateElement_with].
  destruct (lookup_view s v); try done.
  change (didCreateElement s v) with (Ret (emit (DidCreateElement v) s)).
  cbn [mbind outcome_bind]. intros Hrun.
  apply (R_trans _ (emit (DidCreateElement v) s)); [apply R_emit|].
  revert Hrun. apply forEachChildView_keeps_R.
  intros x y x'. destruct y; try done. apply IH.
Qed.

Lemma notifyWillDestroyElement_keeps (fuel : nat) :
  ∀ s v s', _notifyWillDestroyElement fuel s v = Ret s' → R s s'.
Proof using R_refl R_trans R_emit.
  induction fuel as [|fuel IH]; intros s v s'; [done|].
  cbn [_notifyWillDestroyElement]. destruct (lookup_view s v); try done.
  cbn [mbind outcome_bind]. intros Hrun.
  apply (R_trans _ (emit (WillDestroyElement v) s)); [apply R_emit|].
  revert Hrun. apply forEachChildView_keeps_R.
  intros x y x'. destruct y; try done. apply IH.
Qed.

Lemma destroyElement_keeps (fuel : nat) (s : State) (v : vid) (s' : State) :
  destroyElement fuel s v = Ret s' → R s s'.
Proof using R_refl R_trans R_emit R_element.
  unfold destroyElement. destruct (get_element fuel s v) as [[e|]| |]; try done.
  - cbn [mbind outcome_bind].
    destruct (_notifyWillDestroyElement fuel s v) as [s1| |] eqn:Hn; try done.
    cbn [mbind outcome_bind]. intros Hrun.
    eapply R_trans; [by eapply notifyWillDestroyElement_keeps|].
    eapply R_trans; [apply R_emit | by eapply set_element_keeps].
  - cbn [mbind outcome_bind]. intros [= <-]. apply R_refl.
Qed.

Lemma removeChild_keeps (fuel : nat) (s : State) (p v : vid) (s' : State) :
  removeChild fuel s p v = Ret s' → R s s'.
Proof using R_refl R_trans R_element R_parent R_removeObject.
  unfold removeChild.
  destruct (set_parentView fuel s v None) as [s1| |] eqn:Hp; try done.
  cbn [mbind outcome_bind]. destruct (lookup_view s1 p) as [wp| |]; try done.
  cbn [mbind outcome_bind].
  destruct (childArrays s1 !! childViews wp) as [arr|]; try done.
  cbn [of_option mbind outcome_bind]. intros [= <-].
  eapply R_trans; [by eapply set_parentView_keeps | apply R_removeObject].
Qed.

Lemma removeFromParent_keeps (fuel : nat) (s : State) (v : vid) (s' : State) :
  removeFromParent fuel s v = Ret s' → R s s'.
Proof using R_refl R_trans R_emit R_element R_parent R_removeObject.
  unfold removeFromParent, remove. destruct (lookup_view s v) as [w| |]; try done.
  cbn [mbind outcome_bind].
  destruct (destroyElement fuel s v) as [s1| |] eqn:Hd; try done.
  cbn [mbind outcome_bind]. apply destroyElement_keeps in Hd.
  destruct (parentView w).
  - intros Hrun. eapply R_trans; [done | by eapply removeChild_keeps].
  - by intros [= <-].
Qed.

Lemma mutateChildViews_keeps_R (cb : State → value → outcome State) (v : vid)
    (s s' : State) :
  (∀ x y x', cb x y = Ret x' → R x x') →
  mutateChildViews cb v s = Ret s' → R s s'.
Proof using R_refl R_trans.
  intros Hcb. unfold mutateChildViews. destruct (lookup_view s v) as [w| |]; try done.
  cbn [mbind outcome_bind]. destruct (childArrays s !! childViews w); try done.
  cbn [of_option mbind outcome_bind].
  apply (mutate_from_keeps cb _ (R s)); [|apply R_refl].
  intros x y x' Hx Hrun. eapply R_trans; [exact Hx | by eapply Hcb].
Qed.

Lemma destroy_keeps (fuel : nat) :
  ∀ s v s', destroy fuel s v = Ret s' → R s s'.
Proof using All.
  induction fuel as [|fuel IH]; intros s v s'; [done|].
  cbn [destroy]. destruct (lookup_view s v) as [w| |]; try done.
  cbn [mbind outcome_bind]. destruct (isDestroyed w).
  { intros [= <-]. apply R_refl. }
  destruct (destroyElement fuel s v) as [s1| |] eqn:Hd; try done.
  cbn [mbind outcome_bind]. apply destroyElement_keeps in Hd.
  destruct (mutateChildViews _ v s1) as [s2| |] eqn:Hm; try done.
  cbn [mbind outcome_bind].
  apply mutateChildViews_keeps_R in Hm.
  2:{ intros x y x'. destruct y; try done. apply IH. }
  destruct (lookup_view _ v) as [w3| |]; try done. cbn [mbind outcome_bind].
  assert (R s (set_views (delete (elementId w) (views s2)) s2)) as H3.
  { eapply R_trans; [exact Hd|]. eapply R_trans; [exact Hm | apply R_unregister]. }
  destruct (parentView w3).
  - destruct (removeFromParent fuel _ v) as [s4| |] eqn:Hr; try done.
    cbn [mbind outcome_bind]. intros [= <-].
    apply removeFromParent_keeps in Hr.
    eapply R_trans; [exact H3|]. eapply R_trans; [exact Hr | apply R_destroyed].
  - cbn [mbind outcome_bind]. intros [= <-].
    eapply R_trans; [exact H3 | apply R_destroyed].
Qed.

End Frames.

(** ** A hierarchy has no cycle *)

Lemma tree_at_unique (s : State) (t : vtree) :
  ∀ t', tree_at s t → tree_at s t' → root t = root t' → t = t'.
Proof.
  induction t as [v kids IH] using vtree_induction.
  intros [v' kids'] Ht Ht' Hr. simpl in Hr. subst v'.
  apply tree_at_kids in Ht as [Hk Hkids]. apply tree_at_kids in Ht' as [Hk' Hkids'].
  rewrite Hk in Hk'. injection Hk' as Hk'. f_equal.
  clear Hk. revert kids' Hk' Hkids'.
  induction IH as [|k kids Hk _ IHkids]; intros [|k' kids'] Heq Hkids'; try done.
  cbn [entries map] in Heq. injection Heq as Hroot Heq.
  apply Forall_cons in Hkids as [Hk1 Hk2]. apply Forall_cons in Hkids' as [Hk1' Hk2'].
  f_equal; [by apply Hk | by apply IHkids].
Qed.

Lemma elem_of_concat_preorder (kids : list vtree) (u : vid) :
  u ∈ concat (map preorder kids) → ∃ k, k ∈ kids ∧ u ∈ preorder k.
Proof.
  induction kids as [|k kids IH]; cbn [map concat]; [by intros ?%elem_of_nil|].
  intros [Hu|Hu]%elem_of_app.
  - exists k. split; [left | done].
  - destruct (IH Hu) as (k' & Hin & Hk'). exists k'. split; [by right | done].
Qed.

Lemma below_subtree (s : State) (t : vtree) (u : vid) :
  tree_at s t → u ∈ below t →
  ∃ t', tree_at s t' ∧ root t' = u ∧ depth t' < depth t.
Proof.
  induction t as [v kids IH] using vtree_induction. intros Ht Hu.
  apply tree_at_kids in Ht as [_ Hkids]. unfold below in Hu. cbn [subtrees] in Hu.
  apply elem_of_concat_preorder in Hu as (k & Hin & Hu).
  rewrite Forall_forall in IH, Hkids.
  pose proof (depth_kid k kids Hin) as Hd.
  rewrite preorder_below in Hu. apply elem_of_cons in Hu as [->|Hu].
  - exists k. split; [by apply Hkids|]. split; [done | simpl; lia].
  - destruct (IH k Hin (Hkids k Hin) Hu) as (t' & Ht' & Hr & Hd').
    exists t'. split; [done|]. split; [done | simpl; lia].
Qed.

Lemma tree_at_acyclic (s : State) (t : vtree) : tree_at s t → root t ∉ below t.
Proof.
  intros Ht Hin. destruct (below_subtree s t (root t) Ht Hin) as (t' & Ht' & Hr & Hd).
  rewrite (tree_at_unique s t' t) in Hd by done. lia.
Qed.

(** ** Initialization *)

Lemma foldM_keeps {A B : Type} (f : A → B → outcome A) (P : A → Prop)
    (l : list B) (a a' : A) :
  (∀ x y x', P x → f x y = Ret x' → P x') →
  P a → foldM f l a = Ret a' → P a'.
Proof.
  intros step. revert a. induction l as [|y l IH]; intros a Ha; simpl.
  - by intros [= <-].
  - destruct (f a y) as [x'| |] eqn:E; simpl; [|done..]. apply IH. by eapply step.
Qed.

Lemma foldM_run {A B : Type} (f : A → B → outcome A) (I : nat → A → Prop)
    (l : list B) (a : A) :
  I 0 a →
  (∀ i y x, l !! i = Some y → I i x → ∃ x', f x y = Ret x' ∧ I (S i) x') →
  ∃ a', foldM f l a = Ret a' ∧ I (length l) a'.
Proof.
  revert I a. induction l as [|y l IH]; intros I a Ha step; simpl.
  - by exists a.
  - destruct (step 0 y a) as (x' & -> & Hx'); [done..|]. simpl.
    apply (IH (λ i, I (S i))); [done|]. intros i z x Hz. by apply step.
Qed.

Lemma children_frame_refl (a : loc) (s : State) : children_frame a s s.
Proof. constructor; try done. intros i c arr Ha Hi. eauto. Qed.

Lemma children_frame_trans (a : loc) (s1 s2 s3 : State) :
  children_frame a s1 s2 → children_frame a s2 s3 → children_frame a s1 s3.
Proof.
  intros H12 H23. constructor.
  - by rewrite (cf_classArrays _ _ _ H23), (cf_classArrays _ _ _ H12).
  - by rewrite (cf_views _ _ _ H23), (cf_views _ _ _ H12).
  - by rewrite (cf_observers _ _ _ H23), (cf_observers _ _ _ H12).
  - intros u. by rewrite (cf_arrays_of _ _ _ H23), (cf_arrays_of _ _ _ H12).
  - intros l Hl. by rewrite (cf_childArrays _ _ _ H23), (cf_childArrays _ _ _ H12).
  - by rewrite (cf_length _ _ _ H23), (cf_length _ _ _ H12).
  - intros i c arr Ha Hi.
    destruct (cf_instances _ _ _ H12 i c arr Ha Hi) as (arr2 & Ha2 & Hi2).
    by apply (cf_instances _ _ _ H23 i c arr2).
Qed.

Lemma children_frame_update_view (a : loc) (s : State) (v : vid) (f : View → View) :
  (∀ w, arrays_of (f w) = arrays_of w) → children_frame a s (update_view v f s).
Proof.
  intros Hf. constructor; try done.
  - intros u. simpl. destruct (decide (v = u)) as [->|Hne].
    + rewrite lookup_alter_eq. destruct (heap s !! u); simpl; [|done]. by rewrite Hf.
    + by rewrite lookup_alter_ne.
  - intros i c arr Ha Hi. eauto.
Qed.

Lemma children_frame_store (a : loc) (s : State) (idx : nat) (x : value) :
  (∀ c, entry_at s a idx = VView c → x = VView c) →
  children_frame a s (store_child s a idx x).
Proof.
  intros Hx. constructor; try done.
  - intros l Hl. simpl. by rewrite lookup_alter_ne.
  - simpl. rewrite lookup_alter_eq. destruct (childArrays s !! a); simpl; [|done].
    by rewrite length_insert.
  - intros i c arr Ha Hi. simpl. rewrite lookup_alter_eq, Ha. simpl.
    eexists. split; [done|]. destruct (decide (idx = i)) as [->|Hne].
    + rewrite list_lookup_insert_eq by (by eapply lookup_lt_Some).
      f_equal. apply Hx. unfold entry_at. by rewrite Ha; simpl; rewrite Hi.
    + by rewrite list_lookup_insert_ne.
Qed.

Section Init.
Context `{Runtime}.

Lemma set_parentView_children_frame (a : loc) (fuel : nat) (s : State) (v : vid)
    (p : option vid) (s' : State) :
  set_parentView fuel s v p = Ret s' → children_frame a s s'.
Proof.
  apply (set_parentView_keeps (children_frame a)).
  - apply children_frame_refl.
  - apply children_frame_trans.
  - intros x u c. by apply children_frame_update_view.
  - intros x u q. by apply children_frame_update_view.
Qed.

Lemma set_parentView_childArrays (fuel : nat) (s : State) (v : vid)
    (p : option vid) (s' : State) :
  set_parentView fuel s v p = Ret s' → childArrays s' = childArrays s.
Proof.
  apply (set_parentView_keeps (λ x x', childArrays x' = childArrays x)); try done.
  intros x1 x2 x3 H1 H2. by rewrite H2, H1.
Qed.

Lemma createChildViews_step_frame (fuel : nat) (v : vid) (a : loc) (s : State)
    (idx : nat) (s' : State) :
  createChildViews_step fuel v a s idx = Ret s' → children_frame a s s'.
Proof.
  unfold createChildViews_step, createChildView.
  destruct (truthy (entry_at s a idx)) eqn:Ht.
  - destruct (entry_at s a idx) as [| | | |key|c|] eqn:He; try done.
    + destruct (lookup_view s v) as [w| |]; try done. cbn [mbind outcome_bind].
      destruct (this_key fuel s v w key) as [[view|]| |]; try done.
      cbn [mbind outcome_bind]. destruct (truthy view).
      * destruct view as [| | | | |c|]; try done. cbn [as_view mbind outcome_bind].
        destruct (set_parentView fuel s c (Some v)) as [s1| |] eqn:Hp; try done.
        cbn [mbind outcome_bind]. intros [= <-].
        eapply children_frame_trans; [by eapply set_parentView_children_frame|].
        apply children_frame_store. intros c'. unfold entry_at.
        rewrite (set_parentView_childArrays _ _ _ _ _ Hp). fold (entry_at s a idx).
        by rewrite He.
      * intros [= <-]. by constructor; eauto.
    + cbn [as_view mbind outcome_bind].
      destruct (set_parentView fuel s c (Some v)) as [s1| |] eqn:Hp; try done.
      cbn [mbind outcome_bind]. intros [= <-].
      eapply children_frame_trans; [by eapply set_parentView_children_frame|].
      apply children_frame_store. intros c'. unfold entry_at.
      rewrite (set_parentView_childArrays _ _ _ _ _ Hp). fold (entry_at s a idx).
      rewrite He. by intros [= ->].
  - intros [= <-]. apply children_frame_store. intros c Hc. by rewrite Hc in Ht.
Qed.

Lemma createChildViews_frame (fuel : nat) (s : State) (v : vid) (w : View) (s' : State) :
  heap s !! v = Some w →
  createChildViews fuel s v = Ret s' → children_frame (childViews w) s s'.
Proof.
  intros Hw. unfold createChildViews. rewrite (lookup_view_Some _ _ _ Hw).
  cbn [mbind outcome_bind]. destruct (childArrays s !! childViews w); try done.
  cbn [of_option mbind outcome_bind].
  apply (foldM_keeps _ (children_frame (childViews w) s)); [|apply children_frame_refl].
  intros x idx x' Hx Hrun. eapply children_frame_trans; [exact Hx|].
  by eapply createChildViews_step_frame.
Qed.

Lemma store_child_same (s : State) (a : loc) (idx : nat) (x : value) (arr : list value) :
  childArrays s !! a = Some arr → arr !! idx = Some x → store_child s a idx x = s.
Proof.
  intros Ha Hx. unfold store_child, set_childArrays. destruct s as [h ca cl r o t].
  simpl in *. f_equal. apply alter_id. intros arr' Harr'.
  rewrite Ha in Harr'. injection Harr' as <-. by apply list_insert_id.
Qed.

Lemma lookup_fresh {A : Type} (m : gmap loc A) : m !! fresh (dom m) = None.
Proof. apply not_elem_of_dom, is_fresh. Qed.

Lemma alter_alter {A : Type} (f g : A → A) (v : vid) (m : gmap vid A) :
  alter f v (alter g v m) = alter (λ x, f (g x)) v m.
Proof.
  apply map_eq. intros j. destruct (decide (v = j)) as [->|Hne].
  - rewrite !lookup_alter_eq. by destruct (m !! j).
  - by rewrite !lookup_alter_ne.
Qed.

Lemma init_unfold (fuel : nat) (s : State) (v : vid) (w : View) (arr bs cn : list value) :
  heap s !! v = Some w →
  childArrays s !! childViews w = Some arr →
  classArrays s !! classNameBindings w = Some bs →
  classArrays s !! classNames w = Some cn →
  init fuel s v = createChildViews fuel (sliced s v w arr bs cn) v.
Proof.
  intros Hw Harr Hbs Hcn. unfold init, slice. rewrite (lookup_view_Some _ _ _ Hw).
  cbn [mbind outcome_bind]. simpl. rewrite Harr. simpl. rewrite Hbs. simpl.
  rewrite lookup_insert_ne, Hcn.
  2:{ intros Heq. pose proof (lookup_fresh (classArrays s)) as Hf.
      rewrite Heq, Hcn in Hf. done. }
  simpl. f_equal. unfold sliced, update_view, set_heap, set_classArrays,
    set_childArrays, set_views. simpl. f_equal.
  by rewrite !alter_alter.
Qed.

(** [createChildViews] returns when the entries of [childViews] are
    instances. *)
Lemma createChildViews_returns (v : vid) (kids : list vtree) (fuel : nat)
    (x : State) (w : View) :
  heap x !! v = Some w → childArrays x !! childViews w = Some (entries kids) →
  Forall (tree_at x) kids → (∀ k, k ∈ kids → depth k ≤ fuel) →
  ∃ x', createChildViews fuel x v = Ret x'.
Proof.
  intros Hw Ha Hkids Hfuel. unfold createChildViews.
  rewrite (lookup_view_Some _ _ _ Hw). cbn [mbind outcome_bind]. rewrite Ha.
  cbn [of_option mbind outcome_bind]. rewrite Forall_forall in Hkids.
  destruct (foldM_run (createChildViews_step fuel v (childViews w))
              (λ _ y, same_kids x y) (seq 0 (length (entries kids))) x)
    as (x' & Hrun & _); [apply same_kids_refl| |by eauto].
  intros i idx y [-> Hi]%lookup_seq Hy. simpl in Hi |- *.
  unfold entries in Hi. rewrite length_map in Hi.
  destruct (lookup_lt_is_Some_2 kids i Hi) as [k Hk].
  assert (k ∈ kids) as Hin by (by eapply list_elem_of_lookup_2).
  assert (childArrays y !! childViews w = Some (entries kids)) as Hay.
  { destruct Hy as [-> _]. done. }
  unfold createChildViews_step.
  rewrite (entry_at_entries y _ kids i k) by done.
  cbn [truthy]. unfold createChildView. cbn [as_view mbind outcome_bind].
  assert (tree_at y k) as Hyk by (eapply tree_at_same_kids; eauto).
  destruct (tree_at_root_lookup _ _ Hyk) as [wk Hwk].
  unfold set_parentView. rewrite (lookup_view_Some _ _ _ Hwk).
  cbn [mbind outcome_bind].
  set (y1 := update_view (root k) _ y).
  assert (same_kids y y1) as Hy1 by (by apply same_kids_update_view).
  rewrite (elementDidChange_tree k); [| by eapply tree_at_same_kids | by apply Hfuel].
  cbn [mbind outcome_bind].
  assert (same_kids y (drop_elements (below k) y1)) as Hy2.
  { eapply same_kids_trans; [exact Hy1 | apply same_kids_drop_elements]. }
  rewrite (store_child_same _ _ _ _ (entries kids)).
  - eexists. split; [done|]. by eapply same_kids_trans.
  - destruct Hy2 as [-> _]. done.
  - unfold entries. by rewrite list_lookup_fmap, Hk.
Qed.

Lemma entries_eq (kids : list vtree) (arr : list value) :
  length arr = length kids →
  (∀ i k, kids !! i = Some k → arr !! i = Some (VView (root k))) →
  arr = entries kids.
Proof.
  intros Hlen Hi. apply list_eq. intros i. unfold entries.
  rewrite list_lookup_fmap. destruct (kids !! i) as [k|] eqn:Hk; simpl.
  - by apply Hi.
  - apply lookup_ge_None. apply lookup_ge_None in Hk. lia.
Qed.

Lemma tree_at_sliced (s : State) (v : vid) (w : View) (arr bs cn : list value)
    (t : vtree) :
  tree_at s t → v ∉ preorder t → tree_at (sliced s v w arr bs cn) t.
Proof.
  induction t as [u ks IH] using vtree_induction. intros Ht Hv.
  apply tree_at_kids in Ht as [Hk Hks]. constructor.
  - destruct (kids_of_lookup _ _ _ Hk) as (wu & Hwu & Hau).
    unfold kids_of, sliced. cbn [heap childArrays].
    rewrite lookup_alter_ne by (intros ->; apply Hv; simpl; left).
    rewrite Hwu. simpl. rewrite lookup_insert_ne; [done|].
    intros Heq. pose proof (lookup_fresh (childArrays s)) as Hf.
    rewrite Heq, Hau in Hf. done.
  - rewrite Forall_forall in IH, Hks |- *. intros k Hin.
    apply IH; [done | by apply Hks |]. intros Hin'. apply Hv. simpl. right.
    by eapply preorder_kid.
Qed.

(** [init] on a view whose [childViews] are instances: it returns, the view
    is registered under its [elementId], its three arrays are copies at
    places that were not in use, and no array that was in use changed. *)
Lemma init_tree (v : vid) (kids : list vtree) (fuel : nat) (s : State) (w : View)
    (bs cn : list value) :
  tree_at s (VNode v kids) → heap s !! v = Some w →
  classArrays s !! classNameBindings w = Some bs →
  classArrays s !! classNames w = Some cn →
  depth (VNode v kids) ≤ S fuel →
  ∃ s' w',
    init fuel s v = Ret s'
    ∧ heap s' !! v = Some w'
    ∧ views s' = <[elementId w := v]> (views s)
    ∧ childViews w' = fresh (dom (childArrays s))
    ∧ classNameBindings w' = fresh (dom (classArrays s))
    ∧ classNames w' = fresh (dom (<[fresh (dom (classArrays s)) := bs]> (classArrays s)))
    ∧ childArrays s' !! childViews w' = Some (entries kids)
    ∧ classArrays s' = <[classNames w' := cn]> (<[classNameBindings w' := bs]> (classArrays s))
    ∧ (∀ l, l ≠ childViews w' → childArrays s' !! l = childArrays s !! l)
    ∧ (∀ u, u ≠ v → arrays_of <$> (heap s' !! u) = arrays_of <$> (heap s !! u)).
Proof.
  intros Ht Hw Hbs Hcn Hfuel.
  pose proof (tree_at_acyclic _ _ Ht) as Hacyclic.
  apply tree_at_kids in Ht as [Hk Hkids].
  destruct (kids_of_lookup _ _ _ Hk) as (w0 & Hw0 & Ha).
  rewrite Hw in Hw0. injection Hw0 as <-.
  rewrite (init_unfold fuel s v w (entries kids) bs cn) by done.
  set (x := sliced s v w (entries kids) bs cn).
  set (a1 := fresh (dom (childArrays s))).
  set (a2 := fresh (dom (classArrays s))).
  set (a3 := fresh (dom (<[a2 := bs]> (classArrays s)))).
  set (w4 := with_classNames a3 (with_classNameBindings a2 (with_childViews a1 w))).
  assert (heap x !! v = Some w4) as Hw4.
  { subst x. unfold sliced. cbn [heap]. by rewrite lookup_alter_eq, Hw. }
  assert (childArrays x !! a1 = Some (entries kids)) as Ha4.
  { subst x. unfold sliced. cbn [childArrays]. by rewrite lookup_insert_eq. }
  assert (Forall (tree_at x) kids) as Hkids4.
  { rewrite Forall_forall in Hkids |- *. intros k Hin.
    apply tree_at_sliced; [by apply Hkids|]. intros Hin'. apply Hacyclic.
    unfold below. cbn [subtrees]. by eapply preorder_kid. }
  destruct (createChildViews_returns v kids fuel x w4) as [s' Hrun]; try done.
  { intros k Hin. pose proof (depth_kid k kids Hin). simpl in Hfuel. lia. }
  pose proof (createChildViews_frame fuel x v w4 s' Hw4 Hrun) as Hf.
  change (childViews w4) with a1 in Hf.
  pose proof (fmap_option_eq _ _ _ (cf_arrays_of _ _ _ Hf v)) as Hv'.
  rewrite Hw4 in Hv'. destruct (heap s' !! v) as [w'|] eqn:Hw'; [|done].
  injection Hv' as H1 H2 H3. cbn in H1, H2, H3.
  exists s', w'. rewrite H1, H2, H3. repeat split; try done.
  - rewrite (cf_views _ _ _ Hf). done.
  - pose proof (cf_length _ _ _ Hf) as Hlen. rewrite Ha4 in Hlen.
    destruct (childArrays s' !! a1) as [arr'|] eqn:Harr'; [|done].
    f_equal. apply entries_eq.
    + injection Hlen as Hlen. unfold entries in Hlen. by rewrite length_map in Hlen.
    + intros i k Hik.
      destruct (cf_instances _ _ _ Hf i (root k) (entries kids) Ha4) as (arr2 & Ha2 & Hi2).
      { unfold entries. by rewrite list_lookup_fmap, Hik. }
      rewrite Harr' in Ha2. by injection Ha2 as <-.
  - rewrite (cf_classArrays _ _ _ Hf). done.
  - intros l Hl. rewrite (cf_childArrays _ _ _ Hf) by done.
    subst x. unfold sliced. cbn [childArrays]. by rewrite lookup_insert_ne.
  - intros u Hu. rewrite (cf_arrays_of _ _ _ Hf). subst x. unfold sliced.
    cbn [heap]. by rewrite lookup_alter_ne.
Qed.

End Init.

(** ** Destroying a hierarchy *)

Lemma live_tree_tree_at (s : State) (t : vtree) : live_tree s t → tree_at s t.
Proof.
  induction t as [v kids IH] using vtree_induction. inversion 1; subst.
  constructor.
  - unfold kids_of. by rewrite H2; simpl.
  - rewrite Forall_forall in IH, H5 |- *. intros k Hin. by apply IH, H5.
Qed.

Lemma live_tree_inv (s : State) (v : vid) (kids : list vtree) :
  live_tree s (VNode v kids) →
  ∃ w, heap s !! v = Some w ∧ isDestroyed w = false
       ∧ childArrays s !! childViews w = Some (entries kids)
       ∧ Forall (live_tree s) kids
       ∧ Forall (λ k, ∃ wk, heap s !! root k = Some wk ∧ parentView wk = Some v) kids.
Proof. inversion 1; subst. eauto 10. Qed.

(** A live hierarchy stays one when its views and their arrays stay. *)
Lemma live_tree_frame (s s' : State) (t : vtree) :
  (∀ u, u ∈ preorder t → heap s' !! u = heap s !! u) →
  (∀ u w, u ∈ preorder t → heap s !! u = Some w →
          childArrays s' !! childViews w = childArrays s !! childViews w) →
  live_tree s t → live_tree s' t.
Proof.
  induction t as [v kids IH] using vtree_induction. intros Hh Ha Ht.
  apply live_tree_inv in Ht as (w & Hw & Hd & Harr & Hkids & Hpar).
  assert (v ∈ preorder (VNode v kids)) as Hv by (simpl; left).
  apply (live_node s' v w kids).
  - by rewrite Hh.
  - done.
  - by rewrite (Ha v w).
  - rewrite Forall_forall in IH, Hkids |- *. intros k Hin.
    apply IH; [done | | | by apply Hkids].
    + intros u Hu. apply Hh. simpl. right. by eapply preorder_kid.
    + intros u wu Hu. apply Ha. simpl. right. by eapply preorder_kid.
  - rewrite Forall_forall in Hpar |- *. intros k Hin.
    destruct (Hpar k Hin) as (wk & Hwk & Hp). exists wk. split; [|done].
    rewrite Hh; [done|]. simpl. right. eapply preorder_kid; [done|].
    rewrite preorder_below. left.
Qed.

Lemma skeleton_fields (w w' : View) :
  skeleton w' = skeleton w →
  elementId w' = elementId w ∧ parentView w' = parentView w
  ∧ childViews w' = childViews w ∧ isDestroyed w' = isDestroyed w.
Proof. destruct w, w'. unfold skeleton. simpl. by intros [= -> -> -> -> -> -> -> -> -> -> -> -> ->]. Qed.

Lemma element_frame_lookup (t : vtree) (s s' : State) (u : vid) (w : View) :
  element_frame t s s' → heap s !! u = Some w →
  ∃ w', heap s' !! u = Some w' ∧ skeleton w' = skeleton w.
Proof.
  intros Hf Hw. pose proof (fmap_option_eq _ _ _ (ef_skeleton _ _ _ Hf u)) as Hu.
  rewrite Hw in Hu. destruct (heap s' !! u) as [w'|]; [eauto | done].
Qed.

Lemma element_frame_refl (t : vtree) (s : State) : element_frame t s s.
Proof. by constructor. Qed.

Lemma element_frame_trans (t : vtree) (s1 s2 s3 : State) :
  element_frame t s1 s2 → element_frame t s2 s3 → element_frame t s1 s3.
Proof.
  intros H12 H23. constructor.
  - by rewrite (ef_childArrays _ _ _ H23), (ef_childArrays _ _ _ H12).
  - by rewrite (ef_views _ _ _ H23), (ef_views _ _ _ H12).
  - intros u Hu. by rewrite (ef_outside _ _ _ H23), (ef_outside _ _ _ H12).
  - intros u. by rewrite (ef_skeleton _ _ _ H23), (ef_skeleton _ _ _ H12).
Qed.

Lemma element_frame_live_tree (t t' : vtree) (s s' : State) :
  element_frame t s s' → live_tree s t' → live_tree s' t'.
Proof.
  intros Hf. induction t' as [v kids IH] using vtree_induction. intros Ht.
  apply live_tree_inv in Ht as (w & Hw & Hd & Harr & Hkids & Hpar).
  destruct (element_frame_lookup _ _ _ _ _ Hf Hw) as (w' & Hw' & Hsk).
  apply skeleton_fields in Hsk as (_ & _ & Hcv & Hdes).
  apply (live_node s' v w' kids); try done.
  - by rewrite Hdes.
  - by rewrite Hcv, (ef_childArrays _ _ _ Hf).
  - rewrite Forall_forall in IH, Hkids |- *. intros k Hin. by apply IH, Hkids.
  - rewrite Forall_forall in Hpar |- *. intros k Hin.
    destruct (Hpar k Hin) as (wk & Hwk & Hp).
    destruct (element_frame_lookup _ _ _ _ _ Hf Hwk) as (wk' & Hwk' & Hsk).
    apply skeleton_fields in Hsk as (_ & Hpv & _). exists wk'. by rewrite Hpv.
Qed.

Lemma skeleton_update (s : State) (v u : vid) (c : ElementCache) :
  skeleton <$> (heap (update_view v (with_element c) s) !! u)
  = skeleton <$> (heap s !! u).
Proof.
  simpl. destruct (decide (v = u)) as [->|Hne].
  - rewrite lookup_alter_eq. by destruct (heap s !! u) as [[]|].
  - by rewrite lookup_alter_ne.
Qed.

Lemma skeleton_drop_elements (vs : list vid) (s : State) (u : vid) :
  skeleton <$> (heap (drop_elements vs s) !! u) = skeleton <$> (heap s !! u).
Proof.
  revert s. induction vs as [|v vs IH]; intros s; simpl; [done|].
  rewrite IH. apply skeleton_update.
Qed.

Section Destroy.
Context `{Runtime}.

Lemma get_element_mono (m : nat) :
  ∀ m' s v r, get_element m s v = Ret r → m ≤ m' → get_element m' s v = Ret r.
Proof.
  induction m as [|m IH]; intros [|m'] s v r Hrun Hle; try done; [lia|].
  cbn [get_element] in Hrun |- *. destruct (lookup_view s v) as [w| |]; try done.
  cbn [mbind outcome_bind] in Hrun |- *. destruct (element w); [|done].
  destruct (parentView w) as [p|]; [|done].
  destruct (get_element m s p) as [parent| |] eqn:Hp; try done.
  rewrite (IH m' s p parent) by (done || lia). done.
Qed.

(** [destroyElement] returns on a hierarchy once the lookup of the root's
    element does, and changes cached elements only. *)
Lemma destroyElement_returns (t : vtree) (fuel : nat) (s : State) (r : option Elem) :
  tree_at s t → depth t ≤ fuel →
  get_element fuel s (root t) = Ret r →
  ∃ s', destroyElement fuel s (root t) = Ret s' ∧ element_frame t s s'.
Proof.
  intros Ht Hfuel Hr. destruct r as [e|].
  - rewrite (destroyElement_tree t fuel s e) by done. eexists. split; [done|].
    set (x := update_view _ _ _).
    destruct (drop_elements_other (below t) x) as (Hc & _ & Hv & _ & _).
    constructor.
    + by rewrite Hc.
    + by rewrite Hv.
    + intros u Hu. rewrite preorder_below in Hu. apply not_elem_of_cons in Hu as [Hne Hu].
      rewrite drop_elements_heap_other by done. subst x. simpl.
      by rewrite lookup_alter_ne.
    + intros u. rewrite skeleton_drop_elements. subst x. by rewrite skeleton_update.
  - exists s. unfold destroyElement. rewrite Hr. split; [done | apply element_frame_refl].
Qed.

(** Looking up the element of a view returns when the view has no parent,
    or when looking up the parent's element returns. *)
Lemma get_element_ready (m fuel : nat) (x : State) (u : vid) (w : View) :
  heap x !! u = Some w →
  (∀ p, parentView w = Some p → ∃ r, get_element m x p = Ret r) →
  S m ≤ fuel →
  ∃ r, get_element fuel x u = Ret r.
Proof.
  intros Hw Hp Hfuel.
  assert (∃ r, get_element (S m) x u = Ret r) as [r Hr].
  { cbn [get_element]. rewrite (lookup_view_Some _ _ _ Hw). cbn [mbind outcome_bind].
    destruct (element w); [|by eauto]. destruct (parentView w) as [p|]; [|by eauto].
    destruct (Hp p eq_refl) as [r ->]. cbn [mbind outcome_bind].
    destruct r; eauto. }
  exists r. by apply (get_element_mono (S m)).
Qed.

Lemma destroy_views_shrink (fuel : nat) (s s' : State) (v : vid) (key : string) :
  destroy fuel s v = Ret s' → views s !! key = None → views s' !! key = None.
Proof.
  intros Hrun. revert key.
  apply (destroy_keeps (λ x x', ∀ key, views x !! key = None → views x' !! key = None))
    with (fuel := fuel) (v := v); try done.
  - intros x1 x2 x3 H1 H2 key Hk. by apply H2, H1.
  - intros x k key Hk. simpl. destruct (decide (k = key)) as [->|Hne].
    + apply lookup_delete_eq.
    + by rewrite lookup_delete_ne.
Qed.

End Destroy.

Lemma preorder_root (t : vtree) : root t ∈ preorder t.
Proof. rewrite preorder_below. left. Qed.

Lemma NoDup_concat_kids (kids : list vtree) (i i' : nat) (k k' : vtree) (y : vid) :
  NoDup (concat (map preorder kids)) →
  kids !! i = Some k → kids !! i' = Some k' → i ≠ i' →
  y ∈ preorder k → y ∉ preorder k'.
Proof.
  revert i i'. induction kids as [|k0 kids IH]; intros i i' Hnd Hk Hk' Hne Hy; [done|].
  cbn [map concat] in Hnd. apply NoDup_app in Hnd as (Hnd0 & Hdisj & Hnd').
  destruct i as [|i], i' as [|i']; simpl in Hk, Hk'; simplify_eq.
  - intros Hy'. apply (Hdisj y Hy). apply (preorder_kid k'); [|done].
    by eapply list_elem_of_lookup_2.
  - intros Hy'. apply (Hdisj y Hy'). apply (preorder_kid k); [|done].
    by eapply list_elem_of_lookup_2.
  - eapply (IH i i'); eauto.
Qed.

Lemma NoDup_concat_kid (kids : list vtree) (k : vtree) :
  NoDup (concat (map preorder kids)) → k ∈ kids → NoDup (preorder k).
Proof.
  induction kids as [|k0 kids IH]; intros Hnd Hin; [by apply elem_of_nil in Hin|].
  cbn [map concat] in Hnd. apply NoDup_app in Hnd as (Hnd0 & _ & Hnd').
  apply elem_of_cons in Hin as [->|Hin]; [done | by apply IH].
Qed.

(** Removing the child visited last from the entries not yet visited. *)
Lemma removeObject_last (kids : list vtree) (i : nat) (k : vtree) :
  kids !! i = Some k →
  (∀ i' k', kids !! i' = Some k' → i' < i → root k' ≠ root k) →
  removeObject (root k) (entries (take (S i) kids)) = entries (take i kids).
Proof.
  intros Hk Hne. rewrite (take_S_r kids i k) by done.
  unfold entries, removeObject. rewrite map_app, List.filter_app. cbn [map List.filter].
  cbn [is_view]. rewrite Nat.eqb_refl. cbn [negb]. rewrite app_nil_r.
  assert (∀ j k', take i kids !! j = Some k' → root k' ≠ root k) as Hne'.
  { intros j k' Hj. apply lookup_take_Some in Hj as [Hj Hlt]. by eapply Hne. }
  clear Hne Hk. induction (take i kids) as [|k0 l IH]; [done|].
  cbn [map List.filter is_view].
  destruct (Nat.eqb_spec (root k) (root k0)) as [Heq|Hneq].
  - exfalso. by apply (Hne' 0 k0).
  - cbn [negb]. f_equal. apply IH. intros j k' Hj. by apply (Hne' (S j)).
Qed.

(** *** One node of the hierarchy

    The facts shared by the steps of [destroy] on the view [u] with the
    children [kids], from the state [s]; [s1] is the state after
    [destroyElement]. *)

Section DestroyNode.
Context `{Runtime}.
Variables (u : vid) (kids : list vtree) (s s1 : State) (w : View) (m : nat).
Hypothesis Hw : heap s !! u = Some w.
Hypothesis Harr : childArrays s !! childViews w = Some (entries kids).
Hypothesis Hkids : Forall (live_tree s) kids.
Hypothesis Hpar :
  Forall (λ k, ∃ wk, heap s !! root k = Some wk ∧ parentView wk = Some u) kids.
Hypothesis Hsep : separate s (VNode u kids).
Hypothesis Hready : parent_ready m s (VNode u kids).
Hypothesis Hs1 : element_frame (VNode u kids) s s1.

Lemma kid_in_tree (k : vtree) (y : vid) :
  k ∈ kids → y ∈ preorder k → y ∈ preorder (VNode u kids).
Proof. intros Hin Hy. simpl. right. by eapply preorder_kid. Qed.

Lemma kid_not_root (k : vtree) (y : vid) : k ∈ kids → y ∈ preorder k → y ≠ u.
Proof.
  intros Hin Hy ->. destruct Hsep as [Hnd _]. simpl in Hnd.
  apply NoDup_cons in Hnd as [Hu _]. apply Hu. by eapply preorder_kid.
Qed.

Lemma kids_disjoint (i i' : nat) (k k' : vtree) (y : vid) :
  kids !! i = Some k → kids !! i' = Some k' → i ≠ i' →
  y ∈ preorder k → y ∉ preorder k'.
Proof.
  destruct Hsep as [Hnd _]. simpl in Hnd. apply NoDup_cons in Hnd as [_ Hnd].
  by apply NoDup_concat_kids.
Qed.

Lemma loc_of_s1 (y : vid) : loc_of s1 y = loc_of s y.
Proof.
  unfold loc_of. pose proof (fmap_option_eq _ _ _ (ef_skeleton _ _ _ Hs1 y)) as Hy.
  destruct (heap s1 !! y) as [w1|], (heap s !! y) as [w0|]; try done. simpl.
  by apply skeleton_fields in Hy as (_ & _ & -> & _).
Qed.

Lemma loc_of_root : loc_of s u = Some (childViews w).
Proof. unfold loc_of. by rewrite Hw. Qed.

Lemma visited_start : visited kids s s1 w (length kids) s1.
Proof.
  constructor.
  - by rewrite firstn_all, (ef_childArrays _ _ _ Hs1).
  - done.
  - intros l _ _. by rewrite (ef_childArrays _ _ _ Hs1).
  - intros key _. by rewrite (ef_views _ _ _ Hs1).
  - intros i k y wy Hk Hi. apply lookup_lt_Some in Hk. lia.
  - intros i k y Hk Hi. apply lookup_lt_Some in Hk. lia.
Qed.

Lemma visited_root (j : nat) (x : State) : visited kids s s1 w j x → heap x !! u = heap s1 !! u.
Proof.
  intros Hx. apply (vis_heap kids s s1 w _ _ Hx). intros i k Hk _ Hu.
  by apply (kid_not_root k u (list_elem_of_lookup_2 _ _ _ Hk)).
Qed.

Lemma visited_outside (j : nat) (x : State) (y : vid) :
  visited kids s s1 w j x → y ∉ preorder (VNode u kids) → heap x !! y = heap s !! y.
Proof.
  intros Hx Hy. rewrite (vis_heap kids s s1 w _ _ Hx), (ef_outside _ _ _ Hs1); [done..|].
  intros i k Hk _ Hin. apply Hy. apply (kid_in_tree k); [|done].
  by eapply list_elem_of_lookup_2.
Qed.

Lemma visited_kid (j i : nat) (x : State) (k : vtree) (y : vid) :
  visited kids s s1 w j x → kids !! i = Some k → i < j → y ∈ preorder k →
  heap x !! y = heap s1 !! y.
Proof.
  intros Hx Hk Hi Hy. apply (vis_heap kids s s1 w _ _ Hx). intros i' k' Hk' Hi'.
  apply (kids_disjoint i i' k k'); [done..|lia|done].
Qed.

Lemma visited_loc_of (j i : nat) (x : State) (k : vtree) (y : vid) :
  visited kids s s1 w j x → kids !! i = Some k → i < j → y ∈ preorder k →
  loc_of x y = loc_of s y.
Proof.
  intros Hx Hk Hi Hy. rewrite <- loc_of_s1. unfold loc_of.
  by rewrite (visited_kid j i x k y).
Qed.

(** The child about to be visited kids s s1 w is still a live hierarchy. *)
Lemma kid_live (i : nat) (x : State) (k : vtree) :
  visited kids s s1 w (S i) x → kids !! i = Some k → live_tree x k.
Proof.
  intros Hx Hk. assert (k ∈ kids) as Hin by (by eapply list_elem_of_lookup_2).
  rewrite Forall_forall in Hkids.
  apply (live_tree_frame s1).
  - intros y Hy. apply (visited_kid (S i) i x k); [done..|lia|done].
  - intros y wy1 Hy Hwy1.
    assert (loc_of s y = Some (childViews wy1)) as Hloc.
    { rewrite <- loc_of_s1. unfold loc_of. by rewrite Hwy1. }
    rewrite (vis_arrays kids s s1 w _ _ Hx), (ef_childArrays _ _ _ Hs1); [done| |].
    + intros Heq. apply (kid_not_root k y Hin Hy).
      destruct Hsep as [_ Hinj]. apply Hinj; [by eapply kid_in_tree | apply (preorder_root (VNode u kids))|].
      by rewrite Hloc, Heq, loc_of_root.
    + intros i' k' y' Hk' Hi' Hy' Hloc'.
      apply (kids_disjoint i i' k k' y); [done..|lia|done|].
      destruct Hsep as [_ Hinj]. rewrite (Hinj y y'); [done| | |by rewrite Hloc].
      * by eapply kid_in_tree.
      * eapply kid_in_tree; [|done]. by eapply list_elem_of_lookup_2.
  - eapply element_frame_live_tree; [exact Hs1 | by apply Hkids].
Qed.

Lemma kid_separate (i : nat) (x : State) (k : vtree) :
  visited kids s s1 w (S i) x → kids !! i = Some k → separate x k.
Proof.
  intros Hx Hk. assert (k ∈ kids) as Hin by (by eapply list_elem_of_lookup_2).
  destruct Hsep as [Hnd Hinj]. split.
  - simpl in Hnd. apply NoDup_cons in Hnd as [_ Hnd]. by eapply NoDup_concat_kid.
  - intros y y' Hy Hy'.
    rewrite !(visited_loc_of (S i) i x k) by (done || lia).
    apply Hinj; by eapply kid_in_tree.
Qed.

(** Looking up the element of [u] returns while its children are being
    destroyed. *)
Lemma root_element_ready (fuel : nat) (x : State) :
  (∀ y, y ∉ preorder (VNode u kids) → heap x !! y = heap s !! y) →
  (∃ w', heap x !! u = Some w' ∧ (parentView w' = parentView w ∨ parentView w' = None)) →
  S m ≤ fuel →
  ∃ r, get_element fuel x u = Ret r.
Proof.
  intros Hout (w' & Hw' & Hp) Hfuel. apply (get_element_ready m fuel x u w'); try done.
  intros p Hp'. destruct Hp as [Hp|Hp]; [|congruence]. rewrite Hp in Hp'.
  destruct (Hready w p Hw Hp') as (_ & _ & Hget). by apply Hget.
Qed.

Lemma kid_parent_ready (i : nat) (x : State) (k : vtree) :
  visited kids s s1 w (S i) x → kids !! i = Some k → parent_ready (S m) x k.
Proof.
  intros Hx Hk. assert (k ∈ kids) as Hin by (by eapply list_elem_of_lookup_2).
  destruct (element_frame_lookup _ _ _ _ _ Hs1 Hw) as (w1 & Hw1 & Hsk1).
  apply skeleton_fields in Hsk1 as (_ & Hpv1 & Hcv1 & _).
  intros wk p Hwk Hp.
  assert (p = u) as ->.
  { rewrite Forall_forall in Hpar. destruct (Hpar k Hin) as (wk0 & Hwk0 & Hp0).
    rewrite (visited_kid (S i) i x k) in Hwk by (done || lia || apply preorder_root).
    destruct (element_frame_lookup _ _ _ _ _ Hs1 Hwk0) as (wk1 & Hwk1 & Hsk).
    apply skeleton_fields in Hsk as (_ & Hpv & _). congruence. }
  split; [|split].
  - intros Hu. by apply (kid_not_root k u).
  - exists w1, (entries (take (S i) kids)). split; [|split].
    + by rewrite (visited_root _ _ Hx).
    + rewrite Hcv1. apply (vis_array kids s s1 w _ _ Hx).
    + intros y Hy. rewrite (visited_loc_of (S i) i x k), Hcv1, <- loc_of_root
        by (done || lia).
      intros Heq. apply (kid_not_root k y Hin Hy).
      destruct Hsep as [_ Hinj]. apply Hinj; [by eapply kid_in_tree | apply (preorder_root (VNode u kids)) | done].
  - intros x' Hx'. apply root_element_ready; [| |lia].
    + intros y Hy. rewrite Hx', (visited_outside (S i) x); [done..|].
      intros Hy'. apply Hy. by eapply kid_in_tree.
    + exists w1. split; [|by left].
      rewrite Hx', (visited_root _ _ Hx); [done|]. intros Hu. by apply (kid_not_root k u).
Qed.

Lemma kid_record (j i : nat) (x : State) (k : vtree) (y : vid) (wy : View) :
  visited kids s s1 w j x → kids !! i = Some k → i < j → y ∈ preorder k →
  heap s !! y = Some wy →
  ∃ wx, heap x !! y = Some wx ∧ skeleton wx = skeleton wy.
Proof.
  intros Hx Hk Hi Hy Hwy. rewrite (visited_kid j i x k y) by done.
  by apply (element_frame_lookup (VNode u kids) s).
Qed.

Lemma kid_record_back (j i : nat) (x : State) (k : vtree) (y : vid) (wx : View) :
  visited kids s s1 w j x → kids !! i = Some k → i < j → y ∈ preorder k →
  heap x !! y = Some wx →
  ∃ wy, heap s !! y = Some wy ∧ skeleton wx = skeleton wy.
Proof.
  intros Hx Hk Hi Hy Hwx. rewrite (visited_kid j i x k y) in Hwx by done.
  pose proof (fmap_option_eq _ _ _ (ef_skeleton _ _ _ Hs1 y)) as Hsk.
  rewrite Hwx in Hsk. destruct (heap s !! y) as [wy|]; [eauto | done].
Qed.

Lemma kid_parent (j i : nat) (x : State) (k : vtree) (wk : View) (p : vid) :
  visited kids s s1 w j x → kids !! i = Some k → i < j →
  heap x !! root k = Some wk → parentView wk = Some p → p = u.
Proof.
  intros Hx Hk Hi Hwk Hp.
  assert (k ∈ kids) as Hin by (by eapply list_elem_of_lookup_2).
  rewrite Forall_forall in Hpar. destruct (Hpar k Hin) as (wk0 & Hwk0 & Hp0).
  destruct (kid_record_back j i x k (root k) wk) as (wy & Hwy & Hsk);
    [done..|apply preorder_root|done|].
  apply skeleton_fields in Hsk as (_ & Hpv & _). congruence.
Qed.

(** The invariant of the loop, across the destruction of the child at
    position [i]. *)
Lemma visited_step (i : nat) (x x' : State) (k : vtree) :
  visited kids s s1 w (S i) x → kids !! i = Some k →
  destroyed k x x' →
  (∀ key, views x !! key = None → views x' !! key = None) →
  visited kids s s1 w i x'.
Proof.
  intros Hx Hk Hd Hshrink.
  assert (k ∈ kids) as Hin by (by eapply list_elem_of_lookup_2).
  destruct (element_frame_lookup _ _ _ _ _ Hs1 Hw) as (w1 & Hw1 & Hsk1).
  apply skeleton_fields in Hsk1 as (_ & Hpv1 & Hcv1 & _).
  assert (heap x !! u = Some w1) as Hxu by (by rewrite (visited_root _ _ Hx)).
  destruct (proj1 (Forall_forall _ _) Hpar k Hin) as (wk0 & Hwk0 & Hp0).
  destruct (kid_record (S i) i x k (root k) wk0) as (wk & Hwk & Hskk);
    [done..|lia|apply preorder_root|done|].
  apply skeleton_fields in Hskk as (_ & Hpvk & _).
  constructor.
  - rewrite <- Hcv1.
    rewrite (d_parent _ _ _ Hd wk u w1 (entries (take (S i) kids)));
      [| done | congruence | done | rewrite Hcv1; apply (vis_array kids s s1 w _ _ Hx)].
    rewrite removeObject_last; [done..|].
    intros i' k' Hk' Hi' Heq.
    apply (kids_disjoint i' i k' k (root k')); [done..|lia|apply preorder_root|].
    rewrite Heq. apply preorder_root.
  - intros y Hy. rewrite (d_outside _ _ _ Hd) by (by apply (Hy i k)).
    apply (vis_heap kids s s1 w _ _ Hx). intros i' k' Hk' Hi'. apply (Hy i' k'); [done|lia].
  - intros l Hl Hfresh. rewrite (d_arrays _ _ _ Hd).
    + apply (vis_arrays kids s s1 w _ _ Hx); [done|]. intros i' k' y Hk' Hi'.
      apply (Hfresh i' k'); [done|lia].
    + intros y Hy. rewrite (visited_loc_of (S i) i x k) by (done || lia).
      by apply (Hfresh i k).
    + intros wk' p wp Hwk' Hp Hwp.
      assert (p = u) as -> by (apply (kid_parent (S i) i x k wk'); done || lia).
      rewrite Hxu in Hwp. injection Hwp as <-. congruence.
  - intros key Hkey. rewrite (d_kept _ _ _ Hd).
    + apply (vis_kept kids s s1 w _ _ Hx). intros i' k' y wy Hk' Hi'.
      apply (Hkey i' k'); [done|lia].
    + intros y wx Hy Hwx.
      destruct (kid_record_back (S i) i x k y wx) as (wy & Hwy & Hsk); [done..|lia|done|done|].
      apply skeleton_fields in Hsk as (-> & _). by apply (Hkey i k y wy).
  - intros i' k' y wy Hk' Hi' Hy Hwy.
    destruct (decide (i' = i)) as [->|Hne].
    + rewrite Hk in Hk'. injection Hk' as <-.
      destruct (kid_record (S i) i x k y wy) as (wx & Hwx & Hsk); [done..|lia|done|done|].
      apply skeleton_fields in Hsk as (<- & _). by apply (d_unregistered _ _ _ Hd y wx).
    + apply Hshrink. apply (vis_unregistered kids s s1 w _ _ Hx i' k' y wy); [done|lia|done..].
  - intros i' k' y Hk' Hi' Hy.
    destruct (decide (i' = i)) as [->|Hne].
    + rewrite Hk in Hk'. injection Hk' as <-. by apply (d_isDestroyed _ _ _ Hd).
    + rewrite (d_outside _ _ _ Hd).
      * apply (vis_destroyed kids s s1 w _ _ Hx i' k' y); [done|lia|done].
      * apply (kids_disjoint i' i k' k); done.
Qed.

(** When all children have been visited kids s s1 w and the view has been taken out of
    the registry and of its parent: what [destroy] promises. *)
Lemma visited_finish (s2 sF : State) :
  visited kids s s1 w 0 s2 →
  (∀ y, y ≠ u → heap sF !! y = heap s2 !! y) →
  (∃ wF, heap sF !! u = Some wF ∧ isDestroyed wF = true) →
  views sF = delete (elementId w) (views s2) →
  ((parentView w = None ∧ childArrays sF = childArrays s2)
   ∨ (∃ p wp arr, parentView w = Some p ∧ heap s !! p = Some wp
        ∧ childArrays s !! childViews wp = Some arr
        ∧ childArrays sF = <[childViews wp := removeObject u arr]> (childArrays s2))) →
  destroyed (VNode u kids) s sF.
Proof.
  intros H2 Hother HwF Hviews Harrays.
  assert (∀ y, y ∈ preorder (VNode u kids) → y = u
               ∨ ∃ i k, kids !! i = Some k ∧ y ∈ preorder k) as Hcases.
  { intros y Hy. simpl in Hy. apply elem_of_cons in Hy as [->|Hy]; [by left|right].
    apply elem_of_concat_preorder in Hy as (k & Hin & Hy).
    apply list_elem_of_lookup_1 in Hin as [i Hi]. eauto. }
  constructor.
  - intros y Hy. rewrite Hother.
    + by apply (visited_outside 0).
    + intros ->. apply Hy, (preorder_root (VNode u kids)).
  - intros l Hl Hparent.
    assert (childArrays s2 !! l = childArrays s !! l) as H2l.
    { apply (vis_arrays kids s s1 w _ _ H2).
      - intros ->. apply (Hl u); [apply (preorder_root (VNode u kids)) | apply loc_of_root].
      - intros i k y Hk _ Hy. apply Hl. apply (kid_in_tree k); [|done].
        by eapply list_elem_of_lookup_2. }
    destruct Harrays as [[_ ->]|(p & wp & arr & Hp & Hwp & _ & ->)]; [done|].
    rewrite lookup_insert_ne; [done|]. by apply (Hparent w p wp).
  - intros w' p wp arr Hw' Hp Hwp Harr'. cbn [root] in Hw'.
    rewrite Hw in Hw'. injection Hw' as <-.
    destruct Harrays as [[Hnone _]|(p' & wp' & arr' & Hp' & Hwp' & Harr'' & ->)];
      [congruence|].
    rewrite Hp in Hp'. injection Hp' as <-. rewrite Hwp in Hwp'. injection Hwp' as <-.
    rewrite Harr' in Harr''. injection Harr'' as <-. by rewrite lookup_insert_eq.
  - intros key Hkey. rewrite Hviews, lookup_delete_ne.
    + apply (vis_kept kids s s1 w _ _ H2). intros i k y wy Hk _ Hy. apply Hkey.
      apply (kid_in_tree k); [|done]. by eapply list_elem_of_lookup_2.
    + apply (Hkey u w); [apply (preorder_root (VNode u kids)) | done].
  - intros y wy Hy Hwy. rewrite Hviews.
    destruct (decide (elementId w = elementId wy)) as [->|Hne];
      [apply lookup_delete_eq|]. rewrite lookup_delete_ne by done.
    destruct (Hcases y Hy) as [->|(i & k & Hk & Hyk)]; [congruence|].
    apply (vis_unregistered kids s s1 w _ _ H2 i k y wy); [done|lia|done..].
  - intros y Hy. destruct (Hcases y Hy) as [->|(i & k & Hk & Hyk)]; [done|].
    rewrite Hother.
    + apply (vis_destroyed kids s s1 w _ _ H2 i k y); [done|lia|done].
    + apply (kid_not_root k); [|done]. by eapply list_elem_of_lookup_2.
Qed.

End DestroyNode.

Section DestroyTree.
Context `{Runtime}.

(** [destroy] on a live hierarchy returns; every view of the hierarchy is
    then destroyed and out of the registry, the root is out of its parent's
    [childViews], and nothing else has changed in the heap, the arrays or
    the registry. *)
Lemma destroy_tree (t : vtree) :
  ∀ fuel m s,
    live_tree s t → separate s t → parent_ready m s t →
    m + 2 * depth t ≤ fuel →
    ∃ s', destroy fuel s (root t) = Ret s' ∧ destroyed t s s'.
Proof.
  induction t as [u kids IH] using vtree_induction.
  intros fuel m s Ht Hsep Hready Hfuel.
  pose proof (live_tree_tree_at _ _ Ht) as Htree.
  apply live_tree_inv in Ht as (w & Hw & Hlive & Harr & Hkids & Hpar).
  assert (1 ≤ depth (VNode u kids)) as Hdepth by (simpl; lia).
  destruct fuel as [|f]; [lia|].
  cbn [destroy root]. rewrite (lookup_view_Some _ _ _ Hw).
  cbn [mbind outcome_bind]. rewrite Hlive.
  (* the element *)
  destruct (root_element_ready u kids s w m Hw Hready f s) as [r Hr];
    [done | by eauto | lia |].
  destruct (destroyElement_returns (VNode u kids) f s r Htree) as (s1 & Hrun1 & Hs1);
    [lia | done |].
  cbn [root] in Hrun1. rewrite Hrun1. cbn [mbind outcome_bind].
  destruct (element_frame_lookup _ _ _ _ _ Hs1 Hw) as (w1 & Hw1 & Hsk1).
  pose proof (skeleton_fields _ _ Hsk1) as (Hid1 & Hpv1 & Hcv1 & Hd1).
  (* the children, last to first *)
  unfold mutateChildViews. rewrite (lookup_view_Some _ _ _ Hw1).
  cbn [mbind outcome_bind]. rewrite Hcv1, (ef_childArrays _ _ _ Hs1), Harr.
  cbn [of_option mbind outcome_bind].
  destruct (mutate_from_run (λ s x, view ← as_view x; destroy f s view)
              (childViews w) (visited kids s s1 w) (length (entries kids)) s1)
    as (s2 & -> & H2).
  { unfold entries. rewrite length_map. by apply (visited_start u). }
  { intros i x Hi Hx. unfold entries in Hi. rewrite length_map in Hi.
    destruct (lookup_lt_is_Some_2 kids i Hi) as [k Hk].
    assert (k ∈ kids) as Hin by (by eapply list_elem_of_lookup_2).
    assert (entry_at x (childViews w) i = VView (root k)) as ->.
    { unfold entry_at. rewrite (vis_array kids s s1 w _ _ Hx). simpl. unfold entries.
      rewrite list_lookup_fmap, lookup_take_lt, Hk by lia. done. }
    cbn [as_view mbind outcome_bind]. rewrite Forall_forall in IH.
    destruct (IH k Hin f (S m) x) as (x' & Hrun & Hd).
    - exact (kid_live u kids s s1 w Hw Hkids Hsep Hs1 i x k Hx Hk).
    - exact (kid_separate u kids s s1 w Hsep Hs1 i x k Hx Hk).
    - exact (kid_parent_ready u kids s s1 w m Hw Hpar Hsep Hready Hs1 i x k Hx Hk).
    - pose proof (depth_kid k kids Hin). simpl in Hfuel. lia.
    - exists x'. split; [done|].
      apply (visited_step u kids s s1 w Hw Hpar Hsep Hs1 i x x' k Hx Hk Hd).
      intros key. by eapply destroy_views_shrink. }
  cbn [mbind outcome_bind].
  (* the registry, then the parent *)
  set (s3 := set_views (delete (elementId w) (views s2)) s2).
  assert (heap s3 !! u = Some w1) as Hw3.
  { subst s3. cbn [heap set_views].
    by rewrite (visited_root u kids s s1 w Hsep 0 s2 H2). }
  rewrite (lookup_view_Some _ _ _ Hw3). cbn [mbind outcome_bind]. rewrite Hpv1.
  destruct (parentView w) as [p|] eqn:Hp.
  - destruct (Hready w p Hw Hp) as (Hp_out & (wp & arr & Hwp & Harrp & Hlocp) & _).
    assert (p ≠ u) as Hpu.
    { intros ->. apply Hp_out, (preorder_root (VNode u kids)). }
    assert (∀ y, y ∉ preorder (VNode u kids) → heap s3 !! y = heap s !! y) as Hout3.
    { intros y Hy. subst s3. cbn [heap set_views].
      by apply (visited_outside u kids s s1 w Hs1 0). }
    assert (childArrays s3 !! childViews w1 = Some (entries [])) as Harr3.
    { subst s3. cbn [childArrays set_views]. rewrite Hcv1.
      apply (vis_array kids s s1 w _ _ H2). }
    assert (tree_at s3 (VNode u [])) as Htree3.
    { constructor; [|done]. unfold kids_of. by rewrite Hw3. }
    unfold removeFromParent, remove. rewrite (lookup_view_Some _ _ _ Hw3).
    cbn [mbind outcome_bind].
    destruct (root_element_ready u kids s w m Hw Hready f s3) as [r3 Hr3];
      [done | exists w1; by rewrite Hpv1, Hp; eauto | lia |].
    destruct (destroyElement_returns (VNode u []) f s3 r3 Htree3)
      as (s3' & Hrun3 & Hs3'); [simpl; lia | done |].
    cbn [root] in Hrun3. rewrite Hrun3. cbn [mbind outcome_bind]. rewrite Hpv1.
    destruct (element_frame_lookup _ _ _ _ _ Hs3' Hw3) as (w3' & Hw3' & Hsk3).
    pose proof (skeleton_fields _ _ Hsk3) as (_ & _ & Hcv3 & _).
    unfold removeChild, set_parentView. rewrite (lookup_view_Some _ _ _ Hw3').
    cbn [mbind outcome_bind].
    set (s4 := update_view u _ s3').
    assert (tree_at s4 (VNode u [])) as Htree4.
    { constructor; [|done]. unfold kids_of. subst s4.
      cbn [heap childArrays update_view set_heap].
      rewrite lookup_alter_eq, Hw3'. cbn. rewrite Hcv3, (ef_childArrays _ _ _ Hs3').
      exact Harr3. }
    pose proof (elementDidChange_tree (VNode u []) f s4 Htree4) as Hcascade.
    cbn [root below subtrees map concat drop_elements foldl] in Hcascade.
    rewrite Hcascade by (simpl; lia). cbn [mbind outcome_bind].
    assert (heap s4 !! p = Some wp) as Hwp4.
    { subst s4. cbn [heap update_view set_heap]. rewrite lookup_alter_ne by done.
      rewrite (ef_outside _ _ _ Hs3'), Hout3; [done..|].
      simpl. by intros ?%list_elem_of_singleton. }
    rewrite (lookup_view_Some _ _ _ Hwp4). cbn [mbind outcome_bind].
    assert (childArrays s2 !! childViews wp = Some arr) as Harr2.
    { rewrite (vis_arrays kids s s1 w _ _ H2); [done| |].
      - intros Heq. apply (Hlocp u (preorder_root (VNode u kids))).
        unfold loc_of. by rewrite Hw, Heq.
      - intros i k y Hk _ Hy. apply Hlocp. simpl. right. eapply preorder_kid; [|done].
        by eapply list_elem_of_lookup_2. }
    assert (childArrays s4 = childArrays s2) as Hc4.
    { subst s4. cbn [childArrays update_view set_heap].
      by rewrite (ef_childArrays _ _ _ Hs3'). }
    rewrite Hc4, Harr2. cbn [of_option mbind outcome_bind].
    eexists. split; [done|].
    apply (visited_finish u kids s s1 w Hw Hsep Hs1 s2); try done.
    + intros y Hy. subst s4. cbn [heap update_view set_heap set_childArrays].
      rewrite !lookup_alter_ne by done.
      rewrite (ef_outside _ _ _ Hs3'); [done|]. simpl. by intros ?%list_elem_of_singleton.
    + eexists. split.
      * subst s4. cbn [heap update_view set_heap set_childArrays].
        rewrite !lookup_alter_eq, Hw3'. done.
      * done.
    + subst s4. cbn [views update_view set_heap set_childArrays].
      by rewrite (ef_views _ _ _ Hs3').
    + right. exists p, wp, arr. rewrite Hp. repeat split; done.
  - cbn [mbind outcome_bind]. eexists. split; [done|].
    apply (visited_finish u kids s s1 w Hw Hsep Hs1 s2); try done.
    + intros y Hy. cbn [heap update_view set_heap set_views].
      by rewrite lookup_alter_ne.
    + eexists. split.
      * cbn [heap update_view set_heap set_views]. by rewrite lookup_alter_eq, Hw3.
      * done.
    + left. by rewrite Hp.
Qed.

End DestroyTree.

(** ** The element, from creation to destruction and back *)

Lemma skeleton_all_fields (w w' : View) :
  skeleton w' = skeleton w →
  unflagged (skeleton w') = unflagged (skeleton w)
  ∧ didRenderChildViews w' = didRenderChildViews w
  ∧ classNames w' = classNames w ∧ classNameBindings w' = classNameBindings w
  ∧ elementId w' = elementId w ∧ parentView w' = parentView w
  ∧ tagName w' = tagName w ∧ ariaRole w' = ariaRole w ∧ isVisible w' = isVisible w
  ∧ template w' = template w.
Proof.
  intros Heq. split; [by rewrite Heq|].
  split; [exact (f_equal didRenderChildViews Heq)|].
  split; [exact (f_equal classNames Heq)|].
  split; [exact (f_equal classNameBindings Heq)|].
  split; [exact (f_equal elementId Heq)|].
  split; [exact (f_equal parentView Heq)|].
  split; [exact (f_equal tagName Heq)|].
  split; [exact (f_equal ariaRole Heq)|].
  split; [exact (f_equal isVisible Heq)|].
  exact (f_equal template Heq).
Qed.

Lemma skeleton_lookup (s s' : State) (u : vid) (w' : View) :
  (∀ u, skeleton <$> (heap s' !! u) = skeleton <$> (heap s !! u)) →
  heap s' !! u = Some w' → ∃ w, heap s !! u = Some w ∧ skeleton w' = skeleton w.
Proof.
  intros Hsk Hw'. pose proof (fmap_option_eq _ _ _ (Hsk u)) as Hu.
  rewrite Hw' in Hu. destruct (heap s !! u) as [w|]; [eauto | done].
Qed.

Lemma skeleton_lookup_back (s s' : State) (u : vid) (w : View) :
  (∀ u, skeleton <$> (heap s' !! u) = skeleton <$> (heap s !! u)) →
  heap s !! u = Some w → ∃ w', heap s' !! u = Some w' ∧ skeleton w' = skeleton w.
Proof.
  intros Hsk Hw. pose proof (fmap_option_eq _ _ _ (Hsk u)) as Hu.
  rewrite Hw in Hu. destruct (heap s' !! u) as [w'|]; [eauto | done].
Qed.

(** Rendering does not read the cached elements. *)
Lemma render_ok_skeleton (N : list vid) (s s' : State) :
  (∀ u, skeleton <$> (heap s' !! u) = skeleton <$> (heap s !! u)) →
  classArrays s' = classArrays s →
  render_ok N s → render_ok N s'.
Proof.
  intros Hsk Hc Hok v w' Hv Hw'.
  destruct (skeleton_lookup s s' v w' Hsk Hw') as (w & Hw & Heq).
  apply skeleton_all_fields in Heq as (_ & Hd & Hcn & Hcb & _).
  destruct (Hok v w Hv Hw) as (H1 & H2 & H3 & H4).
  rewrite Hd, Hcn, Hcb, Hc. repeat split; try done.
  intros u wu' Hu Hwu'.
  destruct (skeleton_lookup s s' u wu' Hsk Hwu') as (wu & Hwu & Hequ).
  apply skeleton_all_fields in Hequ as (_ & _ & -> & _).
  by apply (H4 u wu).
Qed.

Lemma tag_of_skeleton (s s' : State) (v : vid) :
  (∀ u, skeleton <$> (heap s' !! u) = skeleton <$> (heap s !! u)) →
  tag_of s' v = tag_of s v.
Proof.
  intros Hsk. unfold tag_of. pose proof (fmap_option_eq _ _ _ (Hsk v)) as Hv.
  destruct (heap s' !! v) as [w'|], (heap s !! v) as [w|]; try done.
  by apply skeleton_all_fields in Hv as (_ & _ & _ & _ & _ & _ & -> & _).
Qed.

Lemma view_calls_skeleton (s s' : State) (t : vtree) :
  (∀ u, skeleton <$> (heap s' !! u) = skeleton <$> (heap s !! u)) →
  view_calls s' t = view_calls s t.
Proof.
  intros Hsk. induction t as [v kids IH] using vtree_induction. cbn [view_calls].
  pose proof (fmap_option_eq _ _ _ (Hsk v)) as Hv.
  destruct (heap s' !! v) as [w'|], (heap s !! v) as [w|]; try done.
  apply skeleton_all_fields in Hv as (_ & _ & _ & _ & Hid & _ & _ & Hrole & Hvis & Htpl).
  unfold attribute_calls. rewrite Hid, Hrole, Hvis, Htpl. f_equal.
  destruct (template w); [done|]. f_equal.
  rewrite Forall_forall in IH. apply map_ext_in. intros k Hin.
  rewrite IH by (by apply list_elem_of_In). by rewrite (tag_of_skeleton s s').
Qed.

Lemma created_skeleton (t : vtree) (b : RenderBuffer) (s : State) (u : vid) :
  skeleton <$> (heap (created t b s) !! u) = skeleton <$> (heap s !! u).
Proof.
  unfold created. cbn [heap emit_all]. by rewrite skeleton_drop_elements, skeleton_update.
Qed.

Lemma element_destroyed_skeleton (t : vtree) (e : Elem) (s : State) (u : vid) :
  skeleton <$> (heap (element_destroyed t e s) !! u) = skeleton <$> (heap s !! u).
Proof.
  unfold element_destroyed. by rewrite skeleton_drop_elements, skeleton_update.
Qed.

Lemma created_other (t : vtree) (b : RenderBuffer) (s : State) :
  childArrays (created t b s) = childArrays s
  ∧ classArrays (created t b s) = classArrays s
  ∧ views (created t b s) = views s
  ∧ observers (created t b s) = observers s
  ∧ trace (created t b s) = trace s ++ map DidCreateElement (preorder t).
Proof.
  unfold created. cbn [childArrays classArrays views observers trace emit_all].
  by destruct (drop_elements_other (below t)
       (update_view (root t) (with_element (Cached (Some (buffer_element b)))) s))
    as (-> & -> & -> & -> & ->).
Qed.

Lemma element_destroyed_other (t : vtree) (e : Elem) (s : State) :
  childArrays (element_destroyed t e s) = childArrays s
  ∧ classArrays (element_destroyed t e s) = classArrays s
  ∧ views (element_destroyed t e s) = views s
  ∧ observers (element_destroyed t e s) = observers s
  ∧ trace (element_destroyed t e s)
    = trace s ++ map WillDestroyElement (preorder t) ++ [JqRemove e].
Proof.
  unfold element_destroyed.
  destruct (drop_elements_other (below t)
       (update_view (root t) (with_element (Cached None))
          (emit (JqRemove e) (emit_all (map WillDestroyElement (preorder t)) s))))
    as (-> & -> & -> & -> & ->).
  simpl. by rewrite <- app_assoc.
Qed.

Lemma same_kids_skeleton (s s' : State) :
  childArrays s' = childArrays s →
  (∀ u, skeleton <$> (heap s' !! u) = skeleton <$> (heap s !! u)) →
  same_kids s s'.
Proof.
  intros Hc Hsk. split; [done|]. intros v.
  pose proof (fmap_option_eq _ _ _ (Hsk v)) as Hv.
  destruct (heap s' !! v) as [w'|], (heap s !! v) as [w|]; try done. simpl.
  by apply skeleton_fields in Hv as (_ & _ & -> & _).
Qed.

Section Lifecycle.
Context `{Runtime}.

(** A view whose element is cached has that element. *)
Lemma get_element_cached (fuel : nat) (s : State) (v : vid) (w : View) (e : option Elem) :
  heap s !! v = Some w → element w = Cached e → get_element (S fuel) s v = Ret e.
Proof.
  intros Hw He. cbn [get_element]. rewrite (lookup_view_Some _ _ _ Hw).
  cbn [mbind outcome_bind]. by rewrite He.
Qed.

Lemma created_root (t : vtree) (b : RenderBuffer) (s : State) (w : View) :
  tree_at s t → heap s !! root t = Some w →
  heap (created t b s) !! root t
  = Some (with_element (Cached (Some (buffer_element b))) w).
Proof.
  intros Ht Hw. unfold created. cbn [heap emit_all].
  rewrite drop_elements_heap_other by (by eapply tree_at_acyclic).
  cbn [heap update_view set_heap]. by rewrite lookup_alter_eq, Hw.
Qed.

Lemma element_destroyed_root (t : vtree) (e : Elem) (s : State) (w : View) :
  tree_at s t → heap s !! root t = Some w →
  heap (element_destroyed t e s) !! root t = Some (with_element (Cached None) w).
Proof.
  intros Ht Hw. unfold element_destroyed.
  rewrite drop_elements_heap_other by (by eapply tree_at_acyclic).
  cbn [heap update_view set_heap emit emit_all]. by rewrite lookup_alter_eq, Hw.
Qed.

(** [createElement] on a hierarchy whose root has no element. *)
Lemma createElement_run (t : vtree) (fuel : nat) (s : State) :
  tree_at s t → render_ok (preorder t) s → depth t ≤ fuel →
  get_element fuel s (root t) = Ret None →
  ∃ s1 buffer,
    createElement fuel s (root t) = Ret (created t buffer s1)
    ∧ outline buffer = BCreate (tag_of s (root t)) :: view_calls s t
    ∧ render_frame (preorder t) s s1
    ∧ flags_clear (preorder t) s1.
Proof.
  intros Ht Hok Hfuel Habsent. unfold createElement, createElement_with.
  rewrite Habsent.
  cbn [mbind outcome_bind].
  destruct (tree_at_root_lookup _ _ Ht) as [w Hw].
  rewrite (lookup_view_Some _ _ _ Hw). cbn [mbind outcome_bind].
  destruct (renderToBuffer_tree (preorder t) t fuel s (renderBuffer (tagName w)))
    as (s1 & added & -> & Hout & Hf1 & Hc1); try done.
  cbn [mbind outcome_bind].
  assert (tree_at s1 t) as Ht1.
  { eapply tree_at_same_kids; [by eapply render_frame_same_kids | done]. }
  rewrite (set_element_tree t) by done. cbn [mbind outcome_bind].
  set (s2 := drop_elements _ _).
  assert (same_kids s1 s2) as Hk2.
  { subst s2. eapply same_kids_trans; [|apply same_kids_drop_elements].
    by apply same_kids_update_view. }
  rewrite notifyDidCreateElement_tree; [| by eapply tree_at_same_kids | done].
  exists s1, (renderBuffer (tagName w) ++ added). split; [done|].
  split; [|done]. rewrite outline_app, Hout. unfold tag_of. by rewrite Hw.
Qed.

End Lifecycle.

(** ** The hooks of [didCreateElement] *)

Lemma foldM_app {A B : Type} (f : A → B → outcome A) (l1 l2 : list B) (a : A) :
  foldM f (l1 ++ l2) a = foldM f l1 a ≫= foldM f l2.
Proof.
  revert a. induction l1 as [|x l1 IH]; intros a; simpl; [done|].
  destruct (f a x) as [a'| |]; simpl; [apply IH | done..].
Qed.

Lemma foldM_didCreateElement (l : list vid) (s : State) :
  foldM didCreateElement l s = Ret (emit_all (map DidCreateElement l) s).
Proof.
  revert s. induction l as [|v l IH]; intros s; simpl.
  - by rewrite emit_all_nil.
  - rewrite IH. by rewrite emit_emit_all, emit_all_app.
Qed.

Section Hooks.
Context `{Runtime}.
Variable hook : State → vid → outcome State.
Hypothesis hook_kids : ∀ x u x', hook x u = Ret x' → same_kids x x'.

Lemma hooks_same_kids (l : list vid) (x x' : State) :
  foldM hook l x = Ret x' → same_kids x x'.
Proof using hook_kids.
  apply (foldM_keeps hook (same_kids x)); [|apply same_kids_refl].
  intros y u y' Hy Hrun. eapply same_kids_trans; [exact Hy | by eapply hook_kids].
Qed.

(** The loop over the children, from the child at [idx] on. *)
Lemma hooks_children (rec : State → vid → outcome State) (a : loc)
    (kids : list vtree) (s : State) :
  childArrays s !! a = Some (entries kids) →
  (∀ k x, k ∈ kids → same_kids s x → rec x (root k) = foldM hook (preorder k) x) →
  ∀ rest idx x,
    drop idx kids = rest → same_kids s x →
    forEach_from id (λ s x, view ← as_view x; rec s view) a idx (length rest) x
    = foldM hook (concat (map preorder rest)) x.
Proof using hook_kids.
  intros Ha Hrec. induction rest as [|k rest IH]; intros idx x Hdrop Hx; [done|].
  assert (kids !! idx = Some k) as Hk.
  { rewrite <- (take_drop idx kids) at 1. rewrite Hdrop.
    assert (idx ≤ length kids) as Hle.
    { destruct (decide (idx ≤ length kids)); [done|].
      rewrite drop_ge in Hdrop by lia. done. }
    rewrite lookup_app_r by (rewrite length_take; lia).
    rewrite length_take. by replace (idx - idx `min` length kids) with 0 by lia. }
  cbn [length forEach_from map concat]. rewrite foldM_app.
  rewrite (entry_at_entries (id x) a kids idx k);
    [|unfold id; by rewrite (proj1 Hx)|done].
  cbn [as_view mbind outcome_bind].
  rewrite Hrec; [|by eapply list_elem_of_lookup_2|done].
  destruct (foldM hook (preorder k) x) as [x'| |] eqn:Hrun; [|done..].
  cbn [mbind outcome_bind]. apply IH.
  - rewrite (drop_S kids k idx Hk) in Hdrop. by injection Hdrop.
  - eapply same_kids_trans; [exact Hx | by eapply hooks_same_kids].
Qed.

(** [_notifyDidCreateElement] calls the hook on the view, then on the views
    below each child, child by child, each call in the state the call
    before it left. *)
Lemma notifyDidCreateElement_hooks (t : vtree) :
  ∀ fuel s, tree_at s t → depth t ≤ fuel →
    _notifyDidCreateElement_with hook fuel s (root t) = foldM hook (preorder t) s.
Proof using hook_kids.
  induction t as [v kids IH] using vtree_induction.
  intros [|fuel] s Ht Hfuel; simpl in Hfuel; [lia|].
  pose proof Ht as Ht'. apply tree_at_kids in Ht' as [Hk Hkids].
  destruct (kids_of_lookup _ _ _ Hk) as (w & Hw & Ha).
  cbn [_notifyDidCreateElement_with root preorder foldM].
  rewrite (lookup_view_Some _ _ _ Hw). cbn [mbind outcome_bind].
  destruct (hook s v) as [s1| |] eqn:Hhook; [|done..]. cbn [mbind outcome_bind].
  pose proof (hook_kids _ _ _ Hhook) as Hs1.
  assert (kids_of s1 v = Some (entries kids)) as Hk1 by (by rewrite (same_kids_kids_of s s1)).
  destruct (kids_of_lookup _ _ _ Hk1) as (w1 & Hw1 & Ha1).
  rewrite (forEachChildView_unfold _ _ _ _ w1 (entries kids)) by done.
  unfold entries at 1. rewrite length_map.
  apply (hooks_children (_notifyDidCreateElement_with hook fuel) (childViews w1) kids s1);
    [done | | done | apply same_kids_refl].
  intros k x Hin Hx. rewrite Forall_forall in IH, Hkids.
  apply IH; [done | |].
  - eapply tree_at_same_kids; [|by apply Hkids].
    eapply same_kids_trans; [exact Hs1 | exact Hx].
  - pose proof (depth_kid k kids Hin). lia.
Qed.

End Hooks.

Section HookedCreation.
Context `{Runtime}.

(** [createElement] on a hierarchy whose root has no element, whatever the
    hooks do to the views: the hooks run once the hierarchy is rendered and
    the element is set. *)
Lemma createElement_hooks (t : vtree) (fuel : nat) (s : State) :
  tree_at s t → render_ok (preorder t) s → depth t ≤ fuel →
  get_element fuel s (root t) = Ret None →
  ∃ s1 buffer,
    outline buffer = BCreate (tag_of s (root t)) :: view_calls s t
    ∧ render_frame (preorder t) s s1
    ∧ ∀ hook, (∀ x u x', hook x u = Ret x' → same_kids x x') →
        createElement_with hook fuel s (root t)
        = foldM hook (preorder t)
            (drop_elements (below t)
               (update_view (root t)
                  (with_element (Cached (Some (buffer_element buffer)))) s1)).
Proof.
  intros Ht Hok Hfuel Habsent.
  destruct (tree_at_root_lookup _ _ Ht) as [w Hw].
  destruct (renderToBuffer_tree (preorder t) t fuel s (renderBuffer (tagName w)))
    as (s1 & added & Hrender & Hout & Hf1 & Hc1); try done.
  exists s1, (renderBuffer (tagName w) ++ added).
  split; [rewrite outline_app, Hout; unfold tag_of; by rewrite Hw|].
  split; [done|].
  intros hook Hhook. unfold createElement_with. rewrite Habsent.
  cbn [mbind outcome_bind].
  rewrite (lookup_view_Some _ _ _ Hw). cbn [mbind outcome_bind].
  rewrite Hrender. cbn [mbind outcome_bind].
  assert (tree_at s1 t) as Ht1.
  { eapply tree_at_same_kids; [by eapply render_frame_same_kids | done]. }
  rewrite (set_element_tree t) by done. cbn [mbind outcome_bind].
  apply notifyDidCreateElement_hooks; [done | | done].
  eapply tree_at_same_kids; [|exact Ht1].
  eapply same_kids_trans; [|apply same_kids_drop_elements].
  by apply same_kids_update_view.
Qed.

End HookedCreation.

(** ** Changes of the parent *)

Lemma orphan_fields (w w' : View) :
  orphan w' = orphan w →
  elementId w' = elementId w ∧ childViews w' = childViews w
  ∧ classNameBindings w' = classNameBindings w ∧ classNames w' = classNames w
  ∧ isDestroyed w' = isDestroyed w ∧ didRenderChildViews w' = didRenderChildViews w.
Proof.
  intros Heq.
  split; [exact (f_equal elementId Heq)|].
  split; [exact (f_equal childViews Heq)|].
  split; [exact (f_equal classNameBindings Heq)|].
  split; [exact (f_equal classNames Heq)|].
  split; [exact (f_equal isDestroyed Heq) | exact (f_equal didRenderChildViews Heq)].
Qed.

Lemma orphan_lookup (s s' : State) (u : vid) (w : View) :
  (∀ u, orphan <$> (heap s' !! u) = orphan <$> (heap s !! u)) →
  heap s !! u = Some w → ∃ w', heap s' !! u = Some w' ∧ orphan w' = orphan w.
Proof.
  intros Ho Hw. pose proof (fmap_option_eq _ _ _ (Ho u)) as Hu.
  rewrite Hw in Hu. destruct (heap s' !! u) as [w'|]; [eauto | done].
Qed.

Lemma orphan_lookup_back (s s' : State) (u : vid) (w' : View) :
  (∀ u, orphan <$> (heap s' !! u) = orphan <$> (heap s !! u)) →
  heap s' !! u = Some w' → ∃ w, heap s !! u = Some w ∧ orphan w' = orphan w.
Proof.
  intros Ho Hw'. pose proof (fmap_option_eq _ _ _ (Ho u)) as Hu.
  rewrite Hw' in Hu. destruct (heap s !! u) as [w|]; [eauto | done].
Qed.

Lemma same_kids_orphan (s s' : State) :
  childArrays s' = childArrays s →
  (∀ u, orphan <$> (heap s' !! u) = orphan <$> (heap s !! u)) →
  same_kids s s'.
Proof.
  intros Hc Ho. split; [done|]. intros v.
  pose proof (fmap_option_eq _ _ _ (Ho v)) as Hv.
  destruct (heap s' !! v) as [w'|], (heap s !! v) as [w|]; try done. simpl.
  by apply orphan_fields in Hv as (_ & -> & _).
Qed.

Lemma orphan_drop_elements (vs : list vid) (s : State) (u : vid) :
  orphan <$> (heap (drop_elements vs s) !! u) = orphan <$> (heap s !! u).
Proof.
  revert s. induction vs as [|v vs IH]; intros s; simpl; [done|].
  rewrite IH. unfold drop_element. simpl. destruct (decide (v = u)) as [->|Hne].
  - rewrite lookup_alter_eq. by destruct (heap s !! u) as [[]|].
  - by rewrite lookup_alter_ne.
Qed.

Lemma parentView_drop_elements (vs : list vid) (s : State) (u : vid) :
  parentView <$> (heap (drop_elements vs s) !! u) = parentView <$> (heap s !! u).
Proof.
  pose proof (fmap_option_eq _ _ _ (skeleton_drop_elements vs s u)) as Hu.
  destruct (heap (drop_elements vs s) !! u) as [w'|], (heap s !! u) as [w|]; try done.
  simpl. by apply skeleton_fields in Hu as (_ & -> & _).
Qed.

Lemma reparented_orphan (t : vtree) (p : option vid) (s : State) (u : vid) :
  orphan <$> (heap (reparented t p s) !! u) = orphan <$> (heap s !! u).
Proof.
  unfold reparented. rewrite orphan_drop_elements. simpl.
  destruct (decide (root t = u)) as [<-|Hne].
  - rewrite lookup_alter_eq. by destruct (heap s !! root t) as [[]|].
  - by rewrite lookup_alter_ne.
Qed.

Lemma reparented_other (t : vtree) (p : option vid) (s : State) :
  childArrays (reparented t p s) = childArrays s
  ∧ classArrays (reparented t p s) = classArrays s
  ∧ views (reparented t p s) = views s
  ∧ observers (reparented t p s) = observers s
  ∧ trace (reparented t p s) = trace s.
Proof. unfold reparented. by destruct (drop_elements_other (below t)
  (update_view (root t) (λ w, with_element NotCached (with_parentView p w)) s))
  as (-> & -> & -> & -> & ->). Qed.

Lemma reparented_root (t : vtree) (p : option vid) (s : State) :
  parentView <$> (heap (reparented t p s) !! root t) = (λ _, p) <$> (heap s !! root t).
Proof.
  unfold reparented. rewrite parentView_drop_elements. simpl.
  rewrite lookup_alter_eq. by destruct (heap s !! root t).
Qed.

Lemma reparented_parent (t : vtree) (p : option vid) (s : State) (u : vid) :
  u ≠ root t →
  parentView <$> (heap (reparented t p s) !! u) = parentView <$> (heap s !! u).
Proof.
  intros Hne. unfold reparented. rewrite parentView_drop_elements. simpl.
  by rewrite lookup_alter_ne.
Qed.

Lemma reparented_outside (t : vtree) (p : option vid) (s : State) (u : vid) :
  u ∉ preorder t → heap (reparented t p s) !! u = heap s !! u.
Proof.
  rewrite preorder_below. intros [Hne Hu]%not_elem_of_cons. unfold reparented.
  rewrite drop_elements_heap_other by done. simpl. by rewrite lookup_alter_ne.
Qed.

Lemma reparented_element (s : State) (t : vtree) (p : option vid) (u : vid) :
  tree_at s t → u ∈ preorder t →
  element <$> (heap (reparented t p s) !! u) = (λ _, NotCached) <$> (heap s !! u).
Proof.
  intros Ht. rewrite preorder_below. intros [->|Hu]%elem_of_cons; unfold reparented.
  - rewrite drop_elements_heap_other by (by eapply tree_at_acyclic). simpl.
    rewrite lookup_alter_eq. by destruct (heap s !! root t).
  - rewrite drop_elements_heap_in by done. simpl.
    rewrite lookup_alter_ne; [done|]. intros Heq. apply (tree_at_acyclic _ _ Ht).
    by rewrite Heq.
Qed.

Lemma reparented_all_snoc (p : option vid) (ks : list vtree) (k : vtree) (s : State) :
  reparented_all p (ks ++ [k]) s = reparented k p (reparented_all p ks s).
Proof. unfold reparented_all. by rewrite foldl_app. Qed.

Lemma reparented_all_orphan (p : option vid) (ks : list vtree) (s : State) (u : vid) :
  orphan <$> (heap (reparented_all p ks s) !! u) = orphan <$> (heap s !! u).
Proof.
  revert s. induction ks as [|k ks IH]; intros s; [done|].
  unfold reparented_all. cbn [foldl]. fold (reparented_all p ks (reparented k p s)).
  by rewrite IH, reparented_orphan.
Qed.

Lemma reparented_all_other (p : option vid) (ks : list vtree) (s : State) :
  childArrays (reparented_all p ks s) = childArrays s
  ∧ classArrays (reparented_all p ks s) = classArrays s
  ∧ views (reparented_all p ks s) = views s
  ∧ observers (reparented_all p ks s) = observers s
  ∧ trace (reparented_all p ks s) = trace s.
Proof.
  revert s. induction ks as [|k ks IH]; intros s; [done|].
  unfold reparented_all. cbn [foldl]. fold (reparented_all p ks (reparented k p s)).
  destruct (IH (reparented k p s)) as (-> & -> & -> & -> & ->).
  apply reparented_other.
Qed.

Lemma reparented_all_same_kids (p : option vid) (ks : list vtree) (s : State) :
  same_kids s (reparented_all p ks s).
Proof.
  apply same_kids_orphan; [by destruct (reparented_all_other p ks s) as (-> & _)|].
  apply reparented_all_orphan.
Qed.

Lemma reparented_all_parent_out (p : option vid) (ks : list vtree) (s : State) (u : vid) :
  (∀ k, k ∈ ks → root k ≠ u) →
  parentView <$> (heap (reparented_all p ks s) !! u) = parentView <$> (heap s !! u).
Proof.
  revert s. induction ks as [|k ks IH]; intros s Hu; [done|].
  unfold reparented_all. cbn [foldl]. fold (reparented_all p ks (reparented k p s)).
  rewrite IH by (intros k' Hk'; apply Hu; by right).
  apply reparented_parent. intros ->. by apply (Hu k); [left|].
Qed.

Lemma reparented_all_parent_in (p : option vid) (ks : list vtree) (s : State) (k : vtree) :
  k ∈ ks →
  parentView <$> (heap (reparented_all p ks s) !! root k) = (λ _, p) <$> (heap s !! root k).
Proof.
  revert s. induction ks as [|k' ks IH] using rev_ind; intros s Hk;
    [by apply elem_of_nil in Hk|].
  rewrite reparented_all_snoc.
  destruct (decide (root k = root k')) as [Heq|Hne].
  - rewrite Heq, reparented_root.
    pose proof (fmap_option_eq _ _ _ (reparented_all_orphan p ks s (root k'))) as Ho.
    by destruct (heap (reparented_all p ks s) !! root k'), (heap s !! root k').
  - rewrite reparented_parent by done. apply IH.
    apply elem_of_app in Hk as [Hk|Hk]; [done|].
    apply list_elem_of_singleton in Hk. by subst.
Qed.

Lemma reparented_all_outside (p : option vid) (ks : list vtree) (s : State) (u : vid) :
  u ∉ concat (map preorder ks) → heap (reparented_all p ks s) !! u = heap s !! u.
Proof.
  revert s. induction ks as [|k ks IH]; intros s Hu; [done|].
  unfold reparented_all. cbn [foldl]. fold (reparented_all p ks (reparented k p s)).
  cbn [map concat] in Hu. apply not_elem_of_app in Hu as [Hk Hks].
  rewrite IH by done. by apply reparented_outside.
Qed.

Lemma reparented_all_element (p : option vid) (ks : list vtree) (s : State) (u : vid) :
  Forall (tree_at s) ks → u ∈ concat (map preorder ks) →
  element <$> (heap (reparented_all p ks s) !! u) = (λ _, NotCached) <$> (heap s !! u).
Proof.
  revert s. induction ks as [|k ks IH] using rev_ind; intros s Hks Hu;
    [by apply elem_of_nil in Hu|].
  apply Forall_app in Hks as [Hks Hk]. rewrite Forall_singleton in Hk.
  rewrite reparented_all_snoc.
  assert (tree_at (reparented_all p ks s) k) as Hk'.
  { eapply tree_at_same_kids; [apply reparented_all_same_kids | done]. }
  pose proof (fmap_option_eq _ _ _ (reparented_all_orphan p ks s u)) as Ho.
  destruct (decide (u ∈ preorder k)) as [Hin|Hout].
  - rewrite (reparented_element _ k p u Hk' Hin).
    by destruct (heap (reparented_all p ks s) !! u), (heap s !! u).
  - rewrite reparented_outside by done. apply IH; [done|].
    rewrite map_app, concat_app in Hu. cbn [map concat] in Hu. rewrite app_nil_r in Hu.
    by apply elem_of_app in Hu as [Hu|Hu].
Qed.

Section Parents.
Context `{Runtime}.

Lemma set_parentView_tree (t : vtree) (fuel : nat) (s : State) (p : option vid) :
  tree_at s t → depth t ≤ fuel →
  set_parentView fuel s (root t) p = Ret (reparented t p s).
Proof.
  intros Ht Hfuel. unfold set_parentView.
  destruct (tree_at_root_lookup _ _ Ht) as [w Hw].
  rewrite (lookup_view_Some _ _ _ Hw). cbn [mbind outcome_bind].
  apply elementDidChange_tree; [|done].
  eapply tree_at_same_kids; [|done]. by apply same_kids_update_view.
Qed.

End Parents.

(** ** Adoption of the children *)

Lemma live_tree_reparented (s s' : State) (k : vtree) :
  (∀ u, u ∈ preorder k → orphan <$> (heap s' !! u) = orphan <$> (heap s !! u)) →
  (∀ u wu, u ∈ preorder k → heap s !! u = Some wu →
           childArrays s' !! childViews wu = childArrays s !! childViews wu) →
  (∀ u, u ∈ below k → parentView <$> (heap s' !! u) = parentView <$> (heap s !! u)) →
  live_tree s k → live_tree s' k.
Proof.
  induction k as [v kids IH] using vtree_induction. intros Ho Harr Hpv Ht.
  apply live_tree_inv in Ht as (w & Hw & Hd & Ha & Hkids & Hpar).
  pose proof (fmap_option_eq _ _ _ (Ho v (preorder_root (VNode v kids)))) as Heq.
  cbn [root] in Heq. rewrite Hw in Heq.
  destruct (heap s' !! v) as [w'|] eqn:Hw'; [|done].
  apply orphan_fields in Heq as (_ & Hcv & _ & _ & Hdes & _).
  apply (live_node s' v w' kids); try done.
  - by rewrite Hdes.
  - rewrite Hcv, (Harr v w); [done | simpl; left | done].
  - rewrite Forall_forall in IH, Hkids |- *. intros k Hin. apply IH; [done | | | | by apply Hkids].
    + intros u Hu. apply Ho. simpl. right. by eapply preorder_kid.
    + intros u wu Hu. apply Harr. simpl. right. by eapply preorder_kid.
    + intros u Hu. apply Hpv. unfold below in *. cbn [subtrees].
      eapply preorder_kid; [done|]. rewrite preorder_below. by right.
  - rewrite Forall_forall in Hpar |- *. intros k Hin.
    destruct (Hpar k Hin) as (wk & Hwk & Hp).
    assert (parentView <$> (heap s' !! root k) = parentView <$> (heap s !! root k)) as Hk.
    { apply Hpv. unfold below. cbn [subtrees]. eapply preorder_kid; [done | apply preorder_root]. }
    rewrite Hwk in Hk. destruct (heap s' !! root k) as [wk'|]; [|done].
    exists wk'. split; [done|]. cbn in Hk. injection Hk as ->. done.
Qed.

Lemma sliced_heap_other (s : State) (v u : vid) (w : View) (arr bs cn : list value) :
  u ≠ v → heap (sliced s v w arr bs cn) !! u = heap s !! u.
Proof. intros Hne. unfold sliced. cbn [heap]. by rewrite lookup_alter_ne. Qed.

Lemma sliced_orphan (s : State) (v u : vid) (w : View) (arr bs cn : list value) :
  (λ w, (elementId w, parentView w, element w, isDestroyed w))
    <$> (heap (sliced s v w arr bs cn) !! u)
  = (λ w, (elementId w, parentView w, element w, isDestroyed w)) <$> (heap s !! u).
Proof.
  unfold sliced. cbn [heap]. destruct (decide (v = u)) as [<-|Hne].
  - rewrite lookup_alter_eq. by destruct (heap s !! v).
  - by rewrite lookup_alter_ne.
Qed.

Section Adoption.
Context `{Runtime}.

(** [createChildViews] on a view whose [childViews] are instances makes the
    view the parent of each, one after the other. *)
Lemma createChildViews_run (v : vid) (kids : list vtree) (fuel : nat)
    (x : State) (w : View) :
  heap x !! v = Some w → childArrays x !! childViews w = Some (entries kids) →
  Forall (tree_at x) kids → (∀ k, k ∈ kids → depth k ≤ fuel) →
  createChildViews fuel x v = Ret (reparented_all (Some v) kids x).
Proof.
  intros Hw Ha Hkids Hfuel. unfold createChildViews.
  rewrite (lookup_view_Some _ _ _ Hw). cbn [mbind outcome_bind]. rewrite Ha.
  cbn [of_option mbind outcome_bind]. rewrite Forall_forall in Hkids.
  destruct (foldM_run (createChildViews_step fuel v (childViews w))
              (λ i y, y = reparented_all (Some v) (take i kids) x)
              (seq 0 (length (entries kids))) x)
    as (x' & -> & Hx'); [done| |].
  - intros i idx y [-> Hi]%lookup_seq ->. simpl in Hi |- *.
    unfold entries in Hi. rewrite length_map in Hi.
    destruct (lookup_lt_is_Some_2 kids i Hi) as [k Hk].
    assert (k ∈ kids) as Hin by (by eapply list_elem_of_lookup_2).
    set (y := reparented_all (Some v) (take i kids) x).
    assert (childArrays y !! childViews w = Some (entries kids)) as Hay.
    { subst y. by destruct (reparented_all_other (Some v) (take i kids) x) as (-> & _). }
    unfold createChildViews_step.
    rewrite (entry_at_entries y _ kids i k) by done.
    cbn [truthy]. unfold createChildView. cbn [as_view mbind outcome_bind].
    assert (tree_at y k) as Hyk.
    { eapply tree_at_same_kids; [apply reparented_all_same_kids | by apply Hkids]. }
    rewrite (set_parentView_tree k fuel y (Some v) Hyk) by (by apply Hfuel).
    cbn [mbind outcome_bind].
    rewrite (store_child_same _ _ _ _ (entries kids)).
    + eexists. split; [done|]. subst y.
      by rewrite (take_S_r kids i k), reparented_all_snoc.
    + by destruct (reparented_other k (Some v) y) as (-> & _).
    + unfold entries. by rewrite list_lookup_fmap, Hk.
  - rewrite length_seq in Hx'. unfold entries in Hx'. rewrite length_map in Hx'.
    by rewrite Hx', firstn_all.
Qed.

Lemma sliced_tree (s : State) (v : vid) (w : View) (kids : list vtree)
    (bs cn : list value) :
  tree_at s (VNode v kids) →
  Forall (tree_at (sliced s v w (entries kids) bs cn)) kids.
Proof.
  intros Ht. pose proof (tree_at_acyclic _ _ Ht) as Hacyclic.
  apply tree_at_kids in Ht as [_ Hkids].
  rewrite Forall_forall in Hkids |- *. intros k Hin.
  apply tree_at_sliced; [by apply Hkids|]. intros Hin'. apply Hacyclic.
  unfold below. cbn [subtrees]. by eapply preorder_kid.
Qed.

Lemma init_run (v : vid) (kids : list vtree) (fuel : nat) (s : State) (w : View)
    (bs cn : list value) :
  tree_at s (VNode v kids) → heap s !! v = Some w →
  classArrays s !! classNameBindings w = Some bs →
  classArrays s !! classNames w = Some cn →
  depth (VNode v kids) ≤ S fuel →
  init fuel s v
  = Ret (reparented_all (Some v) kids (sliced s v w (entries kids) bs cn)).
Proof.
  intros Ht Hw Hbs Hcn Hfuel.
  pose proof (sliced_tree s v w kids bs cn Ht) as Hkids4.
  apply tree_at_kids in Ht as [Hk Hkids].
  destruct (kids_of_lookup _ _ _ Hk) as (w0 & Hw0 & Ha).
  rewrite Hw in Hw0. injection Hw0 as <-.
  rewrite (init_unfold fuel s v w (entries kids) bs cn) by done.
  apply (createChildViews_run v kids fuel _
           (with_classNames (fresh (dom (<[fresh (dom (classArrays s)) := bs]> (classArrays s))))
              (with_classNameBindings (fresh (dom (classArrays s)))
                 (with_childViews (fresh (dom (childArrays s))) w)))).
  - unfold sliced. cbn [heap]. by rewrite lookup_alter_eq, Hw.
  - unfold sliced. cbn [childArrays childViews with_classNames with_classNameBindings
                        with_childViews]. by rewrite lookup_insert_eq.
  - done.
  - intros k Hin. pose proof (depth_kid k kids Hin). simpl in Hfuel. lia.
Qed.

End Adoption.

(** ** Removal from the parent *)

Lemma update_view_set_childArrays (v : vid) (f : View → View)
    (c : gmap loc (list value)) (s : State) :
  update_view v f (set_childArrays c s) = set_childArrays c (update_view v f s).
Proof. reflexivity. Qed.

Lemma drop_elements_set_childArrays (vs : list vid) (c : gmap loc (list value))
    (s : State) :
  drop_elements vs (set_childArrays c s) = set_childArrays c (drop_elements vs s).
Proof.
  revert s. induction vs as [|v vs IH]; intros s; [done|].
  cbn [drop_elements foldl]. unfold drop_element at 2 4.
  rewrite update_view_set_childArrays. apply IH.
Qed.

Lemma reparented_set_childArrays (t : vtree) (p : option vid)
    (c : gmap loc (list value)) (s : State) :
  reparented t p (set_childArrays c s) = set_childArrays c (reparented t p s).
Proof.
  unfold reparented. by rewrite update_view_set_childArrays, drop_elements_set_childArrays.
Qed.

Lemma removeObject_spec (v : vid) (arr : list value) (y : value) :
  y ∈ removeObject v arr ↔ y ∈ arr ∧ y ≠ VView v.
Proof.
  unfold removeObject. rewrite !list_elem_of_In, filter_In.
  split; intros [Hin Hy]; (split; [done|]).
  - intros ->. simpl in Hy. by rewrite Nat.eqb_refl in Hy.
  - destruct y; try done. simpl. apply negb_true_iff, Nat.eqb_neq. congruence.
Qed.

Section Removal.
Context `{Runtime}.

Lemma removeChild_run (t : vtree) (fuel : nat) (x : State) (p : vid) (wp : View)
    (arr : list value) :
  tree_at x t → depth t ≤ fuel →
  heap x !! p = Some wp → childArrays x !! childViews wp = Some arr →
  removeChild fuel x p (root t)
  = Ret (set_childArrays (<[childViews wp := removeObject (root t) arr]> (childArrays x))
           (reparented t None x)).
Proof.
  intros Ht Hfuel Hwp Harr. unfold removeChild.
  rewrite (set_parentView_tree t fuel x None) by done. cbn [mbind outcome_bind].
  destruct (orphan_lookup x (reparented t None x) p wp (reparented_orphan t None x) Hwp)
    as (wp' & Hwp' & Heq).
  apply orphan_fields in Heq as (_ & Hcv & _).
  rewrite (lookup_view_Some _ _ _ Hwp'). cbn [mbind outcome_bind].
  destruct (reparented_other t None x) as (Hca & _).
  by rewrite Hcv, Hca, Harr.
Qed.

End Removal.

(** ** The entries of [childViews] *)

Lemma drop_elements_emit_all (vs : list vid) (es : list Event) (s : State) :
  drop_elements vs (emit_all es s) = emit_all es (drop_elements vs s).
Proof.
  revert s. induction vs as [|v vs IH]; intros s; [done|].
  cbn [drop_elements foldl].
  change (drop_element v (emit_all es s)) with (emit_all es (drop_element v s)).
  apply IH.
Qed.

Lemma reparented_emit_all (t : vtree) (p : option vid) (es : list Event) (s : State) :
  reparented t p (emit_all es s) = emit_all es (reparented t p s).
Proof.
  unfold reparented.
  change (update_view (root t) (λ w, with_element NotCached (with_parentView p w))
            (emit_all es s))
    with (emit_all es (update_view (root t)
                         (λ w, with_element NotCached (with_parentView p w)) s)).
  apply drop_elements_emit_all.
Qed.

Lemma entry_split (plan : list child_entry) (i : nat) (e : child_entry) :
  plan !! i = Some e →
  (map entry_result (take i plan) ++ map entry_value (drop i plan)) !! i
  = Some (entry_value e)
  ∧ <[i := entry_result e]> (map entry_result (take i plan) ++ map entry_value (drop i plan))
    = map entry_result (take (S i) plan) ++ map entry_value (drop (S i) plan).
Proof.
  intros He. pose proof (lookup_lt_Some _ _ _ He) as Hi.
  assert (length (map entry_result (take i plan)) = i) as Hlen.
  { rewrite length_map, length_take. lia. }
  rewrite (drop_S plan e i He). cbn [map]. split.
  - rewrite lookup_app_r by lia. by rewrite Hlen, Nat.sub_diag.
  - rewrite (take_S_r plan i e He), map_app, <- app_assoc. cbn [map app].
    rewrite <- Hlen at 1. rewrite <- (Nat.add_0_r (length _)), insert_app_r. done.
Qed.

Lemma plan_step (plan : list child_entry) (i : nat) (e : child_entry) :
  plan !! i = Some e →
  omap entry_kid (take (S i) plan)
  = omap entry_kid (take i plan) ++ option_list (entry_kid e)
  ∧ take (S i) plan ≫= entry_errors = (take i plan ≫= entry_errors) ++ entry_errors e.
Proof.
  intros He. rewrite (take_S_r plan i e He), omap_app, bind_app. split.
  - f_equal; cbn; by destruct (entry_kid e).
  - f_equal; apply app_nil_r.
Qed.

Section Entries.
Context `{Runtime}.

(** Under a plain name [this[key]] reads what [get] reads. *)
Lemma this_key_plain (fuel : nat) (s : State) (v : vid) (w : View) (key : string) :
  plain_key key = true → this_key fuel s v w key = Ret (Value (get w key)).
Proof.
  unfold plain_key, this_key. intros [Hm Hc]%andb_true_iff.
  apply negb_true_iff in Hm as ->. apply negb_true_iff, bool_decide_eq_false in Hc.
  repeat match goal with
         | |- context [String.eqb key ?n] =>
             destruct (String.eqb_spec key n) as [->|_];
             [exfalso; apply Hc; apply (bool_decide_unpack _); by vm_compute|]
         end.
  done.
Qed.

Lemma createChildViews_entries (v : vid) (fuel : nat) (x : State) (w : View)
    (plan : list child_entry) :
  heap x !! v = Some w →
  childArrays x !! childViews w = Some (map entry_value plan) →
  Forall (entry_ok w) plan →
  Forall (tree_at x) (omap entry_kid plan) →
  (∀ k, k ∈ omap entry_kid plan → depth k ≤ fuel) →
  v ∉ concat (map preorder (omap entry_kid plan)) →
  (∀ u wu, u ∈ concat (map preorder (omap entry_kid plan)) → heap x !! u = Some wu →
           childViews wu ≠ childViews w) →
  createChildViews fuel x v = Ret (children_created v (childViews w) plan x).
Proof.
  intros Hw Ha Hok Hkids Hfuel Hv Hloc. unfold createChildViews.
  rewrite (lookup_view_Some _ _ _ Hw). cbn [mbind outcome_bind]. rewrite Ha.
  cbn [of_option mbind outcome_bind]. set (a := childViews w) in *.
  set (st := λ i, emit_all (take i plan ≫= entry_errors)
                    (set_childArrays
                       (<[a := map entry_result (take i plan) ++ map entry_value (drop i plan)]>
                          (childArrays x))
                       (reparented_all (Some v) (omap entry_kid (take i plan)) x))).
  assert (∀ i k, k ∈ omap entry_kid (take i plan) → k ∈ omap entry_kid plan) as Hsub.
  { intros i k (e & He & Hk)%list_elem_of_omap. apply list_elem_of_omap.
    exists e. split; [|done]. by eapply subseteq_take. }
  assert (∀ i u, u ∉ concat (map preorder (omap entry_kid plan)) →
            u ∉ concat (map preorder (omap entry_kid (take i plan)))) as Hout.
  { intros i u Hu (k & Hk & Hin)%elem_of_concat_preorder. apply Hu.
    eapply preorder_kid; [by eapply Hsub | done]. }
  assert (∀ i, heap (st i) !! v = Some w) as Hwi.
  { intros i. subst st. cbn [heap emit_all set_childArrays].
    by rewrite reparented_all_outside by (by apply Hout). }
  assert (∀ i k, k ∈ omap entry_kid plan → tree_at (st i) k) as Htree.
  { intros i k Hk. rewrite Forall_forall in Hkids.
    apply (tree_at_frame x); [|by apply Hkids]. intros u Hu. unfold kids_of.
    subst st. cbn [heap childArrays emit_all set_childArrays].
    pose proof (fmap_option_eq _ _ _
      (reparented_all_orphan (Some v) (omap entry_kid (take i plan)) x u)) as Hou.
    destruct (heap (reparented_all _ _ x) !! u) as [wu'|], (heap x !! u) as [wu|] eqn:Hwu;
      try done. cbn.
    apply orphan_fields in Hou as (_ & -> & _).
    rewrite lookup_insert_ne; [done|]. intros Heq.
    apply (Hloc u wu); [by eapply preorder_kid | done | done]. }
  assert (∀ i e k, plan !! i = Some e → entry_kid e = Some k →
            set_parentView fuel (st i) (root k) (Some v)
            = Ret (reparented k (Some v) (st i))
            ∧ store_child (reparented k (Some v) (st i)) a i (entry_result e) = st (S i)
            ∧ entry_errors e = []) as Hadopt.
  { intros i e k He Hk.
    assert (k ∈ omap entry_kid plan) as Hin.
    { apply list_elem_of_omap. exists e. split; [by eapply list_elem_of_lookup_2 | done]. }
    split; [apply set_parentView_tree; [by apply Htree | by apply Hfuel]|].
    destruct (entry_split plan i e He) as [_ Hins].
    split; [|by destruct e].
    destruct (plan_step plan i e He) as [Hks Hes].
    assert (entry_errors e = []) as Hnone by (by destruct e).
    subst st. cbn beta. rewrite reparented_emit_all, reparented_set_childArrays.
    unfold store_child. cbn [childArrays emit_all set_childArrays].
    rewrite alter_insert_eq, Hins, Hks, Hes, Hk, Hnone, app_nil_r.
    change (option_list (Some k)) with [k]. by rewrite reparented_all_snoc. }
  destruct (foldM_run (createChildViews_step fuel v a) (λ i y, y = st i)
              (seq 0 (length (map entry_value plan))) x) as (x' & -> & ->).
  - subst st. cbn beta. rewrite take_0, drop_0. cbn. rewrite insert_id by done.
    destruct x. unfold emit_all. simpl. by rewrite app_nil_r.
  - intros i idx y [-> Hi]%lookup_seq ->. simpl in Hi |- *. rewrite length_map in Hi.
    destruct (lookup_lt_is_Some_2 plan i Hi) as [e He].
    destruct (entry_split plan i e He) as [Hval Hins].
    assert (entry_ok w e) as Hoke.
    { rewrite Forall_forall in Hok. apply Hok. by eapply list_elem_of_lookup_2. }
    unfold createChildViews_step.
    assert (entry_at (st i) a i = entry_value e) as ->.
    { unfold entry_at. subst st. cbn [childArrays emit_all set_childArrays].
      rewrite lookup_insert_eq. cbn. by rewrite Hval. }
    destruct e as [y|key|k|key k]; cbn [entry_value entry_ok] in *.
    + rewrite Hoke. eexists. split; [done|].
      destruct (plan_step plan i _ He) as [Hks Hes].
      subst st. cbn beta. unfold store_child. cbn [childArrays emit_all set_childArrays].
      rewrite alter_insert_eq. cbn [entry_result] in Hins. rewrite Hins, Hks, Hes.
      cbn [entry_kid entry_errors]. change (option_list None) with (@nil vtree).
      by rewrite !app_nil_r.
    + destruct Hoke as (Hkey & Hplain & Hget).
      assert (truthy (VStr key) = true) as ->.
      { cbn. apply negb_true_iff, String.eqb_neq. done. }
      rewrite (lookup_view_Some _ _ _ (Hwi i)). cbn [mbind outcome_bind].
      rewrite this_key_plain by done. cbn [mbind outcome_bind]. rewrite Hget.
      eexists. split; [done|].
      destruct (plan_step plan i _ He) as [Hks Hes].
      subst st. cbn beta. cbn [entry_result] in Hins.
      rewrite <- Hins, list_insert_id, Hks, Hes by done.
      cbn [entry_kid entry_errors]. change (option_list None) with (@nil vtree).
      rewrite app_nil_r.
      unfold emit, emit_all. cbn. by rewrite <- app_assoc.
    + destruct (Hadopt i (Instance k) k He eq_refl) as (Hset & Hstore & _).
      cbn [truthy]. unfold createChildView. cbn [as_view mbind outcome_bind].
      rewrite Hset. cbn [mbind outcome_bind]. eexists. split; [done|]. exact Hstore.
    + destruct Hoke as (Hkey & Hplain & Hget).
      destruct (Hadopt i (Named key k) k He eq_refl) as (Hset & Hstore & _).
      assert (truthy (VStr key) = true) as ->.
      { cbn. apply negb_true_iff, String.eqb_neq. done. }
      rewrite (lookup_view_Some _ _ _ (Hwi i)). cbn [mbind outcome_bind].
      rewrite this_key_plain by done. cbn [mbind outcome_bind]. rewrite Hget.
      cbn [truthy]. unfold createChildView. cbn [as_view mbind outcome_bind].
      rewrite Hset. cbn [mbind outcome_bind]. eexists. split; [done|]. exact Hstore.
  - rewrite length_seq, length_map. subst st. cbn beta.
    rewrite firstn_all, drop_all. cbn [map]. by rewrite app_nil_r.
Qed.

End Entries.

(** ** Initialization with named child views *)

Lemma tree_at_has_kids (s : State) (t : vtree) (u : vid) :
  tree_at s t → u ∈ preorder t → is_Some (kids_of s u).
Proof.
  intros Ht. rewrite preorder_below. intros [->|Hu]%elem_of_cons.
  - destruct t as [v kids]. apply tree_at_kids in Ht as [Hk _]. cbn [root].
    by rewrite Hk.
  - destruct (below_subtree s t u Ht Hu) as ([v kids] & Ht' & <- & _).
    apply tree_at_kids in Ht' as [Hk _]. cbn [root]. by rewrite Hk.
Qed.

Section InitEntries.
Context `{Runtime}.

Lemma entry_ok_get (w w' : View) (e : child_entry) :
  (∀ key, get w' key = get w key) → entry_ok w e → entry_ok w' e.
Proof. intros Hget. destruct e; cbn [entry_ok]; by rewrite ?Hget. Qed.

(** [init] on a view whose [childViews] holds the entries [plan]. *)
Lemma init_entries (v : vid) (fuel : nat) (s : State) (w : View)
    (plan : list child_entry) (bs cn : list value) :
  heap s !! v = Some w →
  childArrays s !! childViews w = Some (map entry_value plan) →
  classArrays s !! classNameBindings w = Some bs →
  classArrays s !! classNames w = Some cn →
  Forall (entry_ok w) plan →
  Forall (tree_at s) (omap entry_kid plan) →
  (∀ k, k ∈ omap entry_kid plan → depth k ≤ fuel) →
  v ∉ concat (map preorder (omap entry_kid plan)) →
  init fuel s v
  = Ret (children_created v (fresh (dom (childArrays s))) plan
           (sliced s v w (map entry_value plan) bs cn)).
Proof.
  intros Hw Ha Hbs Hcn Hok Hkids Hfuel Hv.
  rewrite (init_unfold fuel s v w (map entry_value plan) bs cn) by done.
  set (a1 := fresh (dom (childArrays s))).
  set (a2 := fresh (dom (classArrays s))).
  set (a3 := fresh (dom (<[a2 := bs]> (classArrays s)))).
  set (w4 := with_classNames a3 (with_classNameBindings a2 (with_childViews a1 w))).
  set (x := sliced s v w (map entry_value plan) bs cn).
  assert (∀ k u, k ∈ omap entry_kid plan → u ∈ preorder k → u ≠ v) as Hne.
  { intros k u Hk Hu ->. apply Hv. by eapply preorder_kid. }
  rewrite Forall_forall in Hkids.
  apply (createChildViews_entries v fuel x w4 plan).
  - subst x. unfold sliced. cbn [heap]. by rewrite lookup_alter_eq, Hw.
  - subst x. unfold sliced. cbn [childArrays]. apply lookup_insert_eq.
  - eapply Forall_impl; [exact Hok|]. intros e. by apply entry_ok_get.
  - apply Forall_forall. intros k Hk. apply tree_at_sliced; [by apply Hkids|].
    intros Hin. by apply (Hne k v).
  - done.
  - done.
  - intros u wu (k & Hk & Hu)%elem_of_concat_preorder Hwu Heq.
    subst x. rewrite sliced_heap_other in Hwu by (by eapply Hne).
    destruct (tree_at_has_kids s k u (Hkids k Hk) Hu) as [arr Harr].
    unfold kids_of in Harr. rewrite Hwu in Harr. cbn in Harr.
    change (childViews w4) with a1 in Heq. rewrite Heq in Harr.
    subst a1. by rewrite lookup_fresh in Harr.
Qed.

End InitEntries.

(** ** Destruction without elements *)

Lemma elementless_update (s : State) (v : vid) (f : View → View) :
  (∀ w e, element w ≠ Cached (Some e) → element (f w) ≠ Cached (Some e)) →
  (∀ w e, heap s !! v = Some w → element (f w) ≠ Cached (Some e)) →
  (∀ u w e, u ≠ v → heap s !! u = Some w → element w ≠ Cached (Some e)) →
  elementless (update_view v f s).
Proof.
  intros _ Hv Hothers u w e. simpl. destruct (decide (v = u)) as [<-|Hne].
  - rewrite lookup_alter_eq. destruct (heap s !! v) as [w0|] eqn:Hw0; [|done].
    intros [= <-]. by apply Hv.
  - rewrite lookup_alter_ne by done. by apply Hothers.
Qed.

Lemma elementless_step (s : State) (v : vid) (f : View → View) :
  (∀ w e, element w ≠ Cached (Some e) → element (f w) ≠ Cached (Some e)) →
  elementless s → elementless (update_view v f s).
Proof.
  intros Hf Hs. apply elementless_update; [done | |].
  - intros w e Hw. apply Hf. by apply (Hs v).
  - intros u w e _. apply Hs.
Qed.

Section Quiet.
Context `{Runtime}.

(** Without cached elements no view has an element. *)
Lemma get_element_elementless (fuel : nat) :
  ∀ s v r, elementless s → get_element fuel s v = Ret r → r = None.
Proof.
  induction fuel as [|fuel IH]; intros s v r Hs; [done|].
  cbn [get_element]. destruct (lookup_view s v) as [w| |] eqn:Hw; try done.
  apply lookup_view_Ret in Hw. cbn [mbind outcome_bind].
  destruct (element w) as [|[e|]] eqn:He.
  - destruct (parentView w) as [p|]; [|by intros [= <-]].
    destruct (get_element fuel s p) as [[pe|]| |] eqn:Hp; try done.
    + by apply IH in Hp.
    + by intros [= <-].
  - by destruct (Hs v w e Hw).
  - by intros [= <-].
Qed.

Lemma destroyElement_elementless (fuel : nat) (s : State) (v : vid) (s' : State) :
  elementless s → destroyElement fuel s v = Ret s' → s' = s.
Proof.
  intros Hs. unfold destroyElement.
  destruct (get_element fuel s v) as [r| |] eqn:Hr; try done.
  apply get_element_elementless in Hr as ->; [|done]. by intros [= <-].
Qed.

Lemma elementDidChange_elementless (fuel : nat) :
  ∀ s v s', _sccv_elementDidChange fuel s v = Ret s' → elementless s →
    trace s' = trace s ∧ views s' = views s ∧ elementless s'.
Proof.
  induction fuel as [|fuel IH]; intros s v s'; [done|].
  cbn [_sccv_elementDidChange]. intros Hrun Hs.
  refine (forEachChildView_keeps id _
            (λ y, trace y = trace s ∧ views y = views s ∧ elementless y) v s s'
            _ _ Hrun); [|done].
  intros x y x' (Ht & Hv & Hx). destruct y; try done. cbn [as_view mbind outcome_bind].
  destruct (lookup_view x v0); try done. cbn [mbind outcome_bind]. intros Hrun'.
  apply IH in Hrun' as (Ht' & Hv' & Hx').
  - by rewrite Ht', Hv'.
  - by apply elementless_step.
Qed.

Lemma removeFromParent_elementless (fuel : nat) (s : State) (v : vid) (s' : State) :
  removeFromParent fuel s v = Ret s' → elementless s →
  trace s' = trace s ∧ elementless s'.
Proof.
  unfold removeFromParent, remove. destruct (lookup_view s v) as [w| |]; try done.
  cbn [mbind outcome_bind].
  destruct (destroyElement fuel s v) as [s1| |] eqn:Hd; try done.
  cbn [mbind outcome_bind]. intros Hrun Hs.
  apply destroyElement_elementless in Hd as ->; [|done].
  destruct (parentView w) as [p|]; [|by injection Hrun as <-].
  revert Hrun. unfold removeChild, set_parentView.
  destruct (lookup_view s v) as [w1| |]; try done. cbn [mbind outcome_bind].
  destruct (_sccv_elementDidChange fuel _ v) as [s2| |] eqn:Hc; try done.
  cbn [mbind outcome_bind]. apply elementDidChange_elementless in Hc as (Ht & _ & Hs2).
  2:{ by apply elementless_step. }
  destruct (lookup_view s2 p) as [wp| |]; try done. cbn [mbind outcome_bind].
  destruct (childArrays s2 !! childViews wp); try done.
  cbn [of_option mbind outcome_bind]. intros [= <-]. by split.
Qed.

(** [destroy] calls no hook and removes nothing from the DOM when no view
    has a cached element. *)
Lemma destroy_elementless (fuel : nat) :
  ∀ s v s', destroy fuel s v = Ret s' → elementless s →
    trace s' = trace s ∧ elementless s'.
Proof.
  induction fuel as [|fuel IH]; intros s v s'; [done|].
  cbn [destroy]. destruct (lookup_view s v) as [w| |]; try done.
  cbn [mbind outcome_bind]. destruct (isDestroyed w); [by intros [= <-]|].
  destruct (destroyElement fuel s v) as [s1| |] eqn:Hd; try done.
  cbn [mbind outcome_bind]. intros Hrun Hs.
  apply destroyElement_elementless in Hd as ->; [|done].
  destruct (mutateChildViews _ v s) as [s2| |] eqn:Hm; try done.
  cbn [mbind outcome_bind] in Hrun.
  assert (trace s2 = trace s ∧ elementless s2) as [Ht2 Hs2].
  { revert Hm. unfold mutateChildViews. destruct (lookup_view s v) as [w0| |]; try done.
    cbn [mbind outcome_bind]. destruct (childArrays s !! childViews w0); try done.
    cbn [of_option mbind outcome_bind].
    apply (mutate_from_keeps _ _ (λ y, trace y = trace s ∧ elementless y)); [|done].
    intros x y x' [Ht Hx]. destruct y; try done. cbn [as_view mbind outcome_bind].
    intros Hrun'. apply IH in Hrun' as [Ht' Hx']; [|done]. by rewrite Ht'. }
  set (s3 := set_views _ s2) in Hrun.
  assert (elementless s3) as Hs3 by done.
  destruct (lookup_view s3 v) as [w3| |]; try done. cbn [mbind outcome_bind] in Hrun.
  assert (∀ s4, trace s4 = trace s3 → elementless s4 →
            trace (update_view v (with_isDestroyed true) s4) = trace s
            ∧ elementless (update_view v (with_isDestroyed true) s4)) as Hend.
  { intros s4 Ht4 Hs4. split; [by rewrite <- Ht2|]. by apply elementless_step. }
  destruct (parentView w3).
  - destruct (removeFromParent fuel s3 v) as [s4| |] eqn:Hr; try done.
    cbn [mbind outcome_bind] in Hrun. injection Hrun as <-.
    apply removeFromParent_elementless in Hr as [Ht4 Hs4]; [|done]. by apply Hend.
  - cbn [mbind outcome_bind] in Hrun. injection Hrun as <-. by apply Hend.
Qed.

End Quiet.

(** * The claims *)

Section Claims.
Context `{Runtime}.

(** C10.  A view whose element is absent ([get(this, 'element')] is [null]
    or [undefined]): [destroyElement] returns the receiver and the state is
    the state it was called in, so no hook ran, nothing was removed from the
    DOM and the element is still absent. *)
Theorem destroyElement_without_element (fuel : nat) (s : State) (v : vid) :
  get_element fuel s v = Ret None →
  destroyElement fuel s v = Ret s
  ∧ get_element fuel s v = Ret None.
Proof.
  intros Habsent. split; [|done]. unfold destroyElement. by rewrite Habsent.
Qed.

(** Once [destroy] has returned, the view is marked as destroyed. *)
Lemma destroy_completed (fuel : nat) (s s' : State) (v : vid) :
  destroy fuel s v = Ret s' →
  ∃ w', heap s' !! v = Some w' ∧ isDestroyed w' = true.
Proof.
  intros Hrun.
  destruct fuel as [|fuel]; [done|]. cbn [destroy] in Hrun.
  destruct (lookup_view s v) as [w| |] eqn:Hw; try done.
  apply lookup_view_Ret in Hw. cbn [mbind outcome_bind] in Hrun.
  destruct (isDestroyed w) eqn:Hdw.
  { injection Hrun as <-. eauto. }
  destruct (destroyElement fuel s v) as [s1| |]; try done.
  cbn [mbind outcome_bind] in Hrun.
  destruct (mutateChildViews _ v s1) as [s2| |]; try done.
  cbn [mbind outcome_bind] in Hrun.
  destruct (lookup_view _ v) as [w3| |] eqn:Hw3; try done.
  apply lookup_view_Ret in Hw3. cbn [mbind outcome_bind] in Hrun.
  assert (∀ s4, (∀ u, is_Some (heap (set_views (delete (elementId w) (views s2)) s2) !! u)
                      → is_Some (heap s4 !! u)) →
                ∃ w', heap (update_view v (with_isDestroyed true) s4) !! v = Some w'
                      ∧ isDestroyed w' = true) as Hend.
  { intros s4 Hdom. destruct (Hdom v) as [w4 Hw4]; [by eexists|].
    exists (with_isDestroyed true w4). simpl. by rewrite lookup_alter_eq, Hw4. }
  destruct (parentView w3).
  - destruct (removeFromParent fuel _ v) as [s4| |] eqn:Hr; try done.
    cbn [mbind outcome_bind] in Hrun. injection Hrun as <-.
    apply Hend. revert Hr.
    apply (removeFromParent_keeps
             (λ x x', ∀ u, is_Some (heap x !! u) → is_Some (heap x' !! u))).
    + done.
    + intros s5 s6 s7 H1 H2 u Hu. by apply H2, H1.
    + done.
    + intros x u c u'. simpl. destruct (decide (u = u')) as [->|Hne].
      * rewrite lookup_alter_eq. by intros [? ->].
      * by rewrite lookup_alter_ne.
    + intros x u p u'. simpl. destruct (decide (u = u')) as [->|Hne].
      * rewrite lookup_alter_eq. by intros [? ->].
      * by rewrite lookup_alter_ne.
    + done.
  - cbn [mbind outcome_bind] in Hrun. injection Hrun as <-. by apply Hend.
Qed.

(** C9.  [destroy] on a view that is destroyed ([isDestroyed] is true)
    returns the receiver at once: the state is the state it was called in,
    so no element and no child was destroyed and the registry is as it
    was. *)
Theorem destroy_idempotent (fuel : nat) (s : State) (v : vid) (w : View) :
  heap s !! v = Some w → isDestroyed w = true →
  destroy (S fuel) s v = Ret s.
Proof.
  intros Hw Hd. cbn [destroy]. rewrite (lookup_view_Some _ _ _ Hw).
  cbn [mbind outcome_bind]. by rewrite Hd.
Qed.

(** C5.  [_classStringForProperty] on a binding [path] or [path:className]:
    when the value at [path] is [true], the class is [className] if the
    binding gives one, and the dasherized last segment of the path
    otherwise; a value that is not [true], [false], [undefined] or [null]
    is its own class; [false], [undefined] and [null] give [null]. *)
Theorem classStringForProperty_cases (s : State) (v : vid) (binding : string) :
  let segments := split_on colon binding in
  let path := default "" (segments !! 0) in
  let val := getPath s v path in
  let dasherized := VStr (dasherize (lastObject (split_on dot path))) in
  (val = VBool true →
   _classStringForProperty s v binding
   = match segments !! 1 with
     | Some className => if String.eqb className "" then dasherized else VStr className
     | None => dasherized
     end)
  ∧ (val ≠ VBool true → val ≠ VBool false → val ≠ VUndef → val ≠ VNull →
     _classStringForProperty s v binding = val)
  ∧ (val = VBool false ∨ val = VUndef ∨ val = VNull →
     _classStringForProperty s v binding = VNull).
Proof.
  cbv zeta. unfold _classStringForProperty.
  destruct (getPath s v (default "" (split_on colon binding !! 0))) as [| |[|]| | | |];
    (split; [|split]); try done; try (by intros [|[|]]); try (intros; exfalso; congruence).
  intros _. cbn [is_true]. destruct (split_on colon binding !! 1) as [c|]; [|done].
  cbn [truthy]. by destruct (String.eqb c "").
Qed.

(** C1, as the code has it.  [destroyElement] on a view that has an element
    returns: it has called the [willDestroyElement] hooks of the view and of
    the views below it, removed the element from the DOM and set the element
    of the view to null, so that the view has no element any more.  The
    observers registered before the call, those of [_applyClassNameBindings]
    among them, are all still registered after it: no observer is removed. *)
Theorem destroyElement_keeps_observers (t : vtree) (fuel : nat) (s : State) (e : Elem) :
  tree_at s t → depth t ≤ fuel →
  get_element fuel s (root t) = Ret (Some e) →
  ∃ s',
    destroyElement fuel s (root t) = Ret s'
    ∧ trace s' = trace s ++ map WillDestroyElement (preorder t) ++ [JqRemove e]
    ∧ element <$> heap s' !! root t = Some (Cached None)
    ∧ get_element fuel s' (root t) = Ret None
    ∧ observers s' = observers s.
Proof.
  intros Ht Hfuel He. rewrite (destroyElement_tree t fuel s e) by done.
  fold (element_destroyed t e s). exists (element_destroyed t e s).
  destruct (element_destroyed_other t e s) as (_ & _ & _ & Hobs & Htrace).
  destruct (tree_at_root_lookup _ _ Ht) as [w Hw].
  pose proof (element_destroyed_root t e s w Ht Hw) as Hroot.
  split; [done|]. split; [exact Htrace|]. split; [by rewrite Hroot|].
  split; [|exact Hobs].
  destruct fuel as [|fuel]; [destruct t; simpl in Hfuel; lia|].
  by apply (get_element_cached fuel _ _ _ _ Hroot).
Qed.

(** C2, as the code has it.  [destroyElement] calls [willDestroyElement]
    top-down: on the view, then on the views below each child, child by
    child, before the element is removed from the DOM.  This is the order
    in which [_notifyDidCreateElement] calls [didCreateElement]. *)
Theorem willDestroyElement_top_down (t : vtree) (fuel : nat) (s : State) (e : Elem) :
  tree_at s t → depth t ≤ fuel →
  get_element fuel s (root t) = Ret (Some e) →
  (∃ s', destroyElement fuel s (root t) = Ret s'
         ∧ trace s' = trace s ++ map WillDestroyElement (preorder t) ++ [JqRemove e])
  ∧ (∃ s', _notifyDidCreateElement fuel s (root t) = Ret s'
           ∧ trace s' = trace s ++ map DidCreateElement (preorder t)).
Proof.
  intros Ht Hfuel He. split.
  - rewrite (destroyElement_tree t fuel s e) by done. eexists. split; [done|].
    destruct (drop_elements_other (below t)
      (update_view (root t) (with_element (Cached None))
         (emit (JqRemove e) (emit_all (map WillDestroyElement (preorder t)) s))))
      as (_ & _ & _ & _ & ->).
    simpl. by rewrite <- app_assoc.
  - rewrite notifyDidCreateElement_tree by done. eexists. by split.
Qed.


(** C4, as the code has it.  [createElement] on a view without an element
    makes a buffer for the view's [tagName], renders the view into it, and
    below each view that has no template its children in turn (a view with a
    template pushes the output of the template instead); it stores the
    element of the buffer as the view's element; then it calls
    [didCreateElement] top-down: on the view, then on the views below each
    child, in [childViews] order.  The hooks are called in the state [s2],
    in which the view has the element of the filled buffer and no hook has
    been called: whatever the hooks do, as long as they leave the
    [childViews] alone, [createElement] is the hooks run in that order from
    [s2], each in the state the one before it left. *)
Theorem createElement_renders_then_notifies (t : vtree) (fuel : nat) (s : State) :
  tree_at s t → render_ok (preorder t) s → depth t ≤ fuel →
  get_element fuel s (root t) = Ret None →
  ∃ s' buffer,
    createElement fuel s (root t) = Ret s'
    ∧ element <$> heap s' !! root t = Some (Cached (Some (buffer_element buffer)))
    ∧ outline buffer = BCreate (tag_of s (root t)) :: view_calls s t
    ∧ trace s' = trace s ++ map DidCreateElement (preorder t)
    ∧ ∃ s2,
        get_element fuel s2 (root t) = Ret (Some (buffer_element buffer))
        ∧ trace s2 = trace s
        ∧ s' = emit_all (map DidCreateElement (preorder t)) s2
        ∧ ∀ hook, (∀ x u x', hook x u = Ret x' → same_kids x x') →
            createElement_with hook fuel s (root t) = foldM hook (preorder t) s2.
Proof.
  intros Ht Hok Hfuel Habsent.
  destruct (createElement_hooks t fuel s Ht Hok Hfuel Habsent)
    as (s1 & buffer & Hout & Hf1 & Hhooks).
  destruct (tree_at_root_lookup _ _ Ht) as [w Hw].
  destruct (render_frame_lookup_back _ _ _ _ _ Hf1 Hw) as (w1 & Hw1 & _).
  assert (tree_at s1 t) as Ht1.
  { eapply tree_at_same_kids; [by eapply render_frame_same_kids | done]. }
  set (s2 := drop_elements (below t)
               (update_view (root t)
                  (with_element (Cached (Some (buffer_element buffer)))) s1)) in *.
  assert (heap s2 !! root t
          = Some (with_element (Cached (Some (buffer_element buffer))) w1)) as Hroot.
  { subst s2. rewrite drop_elements_heap_other by (by eapply tree_at_acyclic).
    cbn [heap update_view set_heap]. by rewrite lookup_alter_eq, Hw1. }
  assert (trace s2 = trace s) as Htrace.
  { subst s2.
    destruct (drop_elements_other (below t)
                (update_view (root t)
                   (with_element (Cached (Some (buffer_element buffer)))) s1))
      as (_ & _ & _ & _ & ->).
    cbn [trace update_view set_heap]. by rewrite (rf_trace _ _ _ Hf1). }
  exists (emit_all (map DidCreateElement (preorder t)) s2), buffer.
  split.
  { unfold createElement. rewrite Hhooks; [apply foldM_didCreateElement|].
    intros x u x' [= <-]. apply same_kids_emit. }
  split; [cbn [heap emit_all]; by rewrite Hroot|].
  split; [exact Hout|].
  split; [cbn [trace emit_all]; by rewrite Htrace|].
  exists s2. split; [|done].
  destruct fuel as [|fuel]; [destruct t; simpl in Hfuel; lia|].
  by apply (get_element_cached fuel _ _ _ _ Hroot).
Qed.

(** C3, as the code has it.  [init] stores the view in [SC.View.views]
    under its [elementId], in place of whatever was stored there, and
    touches no other entry.  [destroy] on the view, in any later state in
    which the view and the views below it are alive, returns, and the
    registry then has no entry under the [elementId] of the view nor under
    that of any view below it, whichever view the entry was for; the entries
    under other ids are as they were.  So the entry of a view is there from
    [init] to [destroy] as long as no other view has the same
    [elementId]. *)
Theorem registry_follows_lifecycle (t : vtree) (fuel : nat) (s : State) (w : View)
    (bs cn : list value) :
  tree_at s t → heap s !! root t = Some w →
  classArrays s !! classNameBindings w = Some bs →
  classArrays s !! classNames w = Some cn →
  depth t ≤ S fuel →
  ∃ s1,
    init fuel s (root t) = Ret s1
    ∧ views s1 !! elementId w = Some (root t)
    ∧ (∀ key, key ≠ elementId w → views s1 !! key = views s !! key)
    ∧ ∀ x wx m fuel',
        live_tree x t → separate x t → parent_ready m x t →
        heap x !! root t = Some wx → elementId wx = elementId w →
        m + 2 * depth t ≤ fuel' →
        ∃ s2,
          destroy fuel' x (root t) = Ret s2
          ∧ views s2 !! elementId w = None
          ∧ (∀ u wu, u ∈ preorder t → heap x !! u = Some wu →
                     views s2 !! elementId wu = None)
          ∧ (∀ key, (∀ u wu, u ∈ preorder t → heap x !! u = Some wu → elementId wu ≠ key) →
                    views s2 !! key = views x !! key).
Proof.
  intros Ht Hw Hbs Hcn Hfuel. destruct t as [v kids]. cbn [root] in *.
  destruct (init_tree v kids fuel s w bs cn) as (s1 & w' & Hrun & _ & Hviews & _); try done.
  exists s1. split; [done|]. rewrite Hviews. split; [by rewrite lookup_insert_eq|].
  split; [intros key Hkey; by rewrite lookup_insert_ne|].
  intros x wx m fuel' Hlive Hsep Hready Hwx Hid Hfuel'.
  destruct (destroy_tree (VNode v kids) fuel' m x) as (s2 & Hrun2 & Hd); try done.
  exists s2. split; [done|]. split; [|split].
  - rewrite <- Hid. apply (d_unregistered _ _ _ Hd v wx); [|done]. simpl. left.
  - apply (d_unregistered _ _ _ Hd).
  - apply (d_kept _ _ _ Hd).
Qed.

(** C8.  [init] makes [childViews], [classNameBindings] and [classNames] of
    the instance new arrays: they are at places no array was at before, two
    different ones for the two arrays of classes.  The arrays of classes
    hold what the arrays the view had before hold, and [childViews] holds
    the child views: an instance for each entry that is one or names one,
    the entry itself where it is falsy or names nothing.  Every array there
    was before [init] holds what it held, the one with the names among them,
    and still does after the arrays of the instance are written to; the
    other views have the arrays they had. *)
Theorem init_copies_arrays (v : vid) (fuel : nat) (s : State) (w : View)
    (plan : list child_entry) (bs cn : list value) :
  heap s !! v = Some w →
  childArrays s !! childViews w = Some (map entry_value plan) →
  classArrays s !! classNameBindings w = Some bs →
  classArrays s !! classNames w = Some cn →
  Forall (entry_ok w) plan →
  Forall (tree_at s) (omap entry_kid plan) →
  (∀ k, k ∈ omap entry_kid plan → depth k ≤ fuel) →
  v ∉ concat (map preorder (omap entry_kid plan)) →
  ∃ s' w',
    init fuel s v = Ret s' ∧ heap s' !! v = Some w'
    ∧ (childArrays s !! childViews w' = None
       ∧ classArrays s !! classNameBindings w' = None
       ∧ classArrays s !! classNames w' = None
       ∧ classNameBindings w' ≠ classNames w')
    ∧ (childArrays s' !! childViews w' = Some (map entry_result plan)
       ∧ childArrays s' !! childViews w = Some (map entry_value plan)
       ∧ classArrays s' !! classNameBindings w' = Some bs
       ∧ classArrays s' !! classNames w' = Some cn)
    ∧ (∀ l arr, is_Some (childArrays s !! l) →
         childArrays s' !! l = childArrays s !! l
         ∧ <[childViews w' := arr]> (childArrays s') !! l = childArrays s !! l)
    ∧ (∀ l arr arr', is_Some (classArrays s !! l) →
         classArrays s' !! l = classArrays s !! l
         ∧ <[classNames w' := arr]> (<[classNameBindings w' := arr']> (classArrays s')) !! l
           = classArrays s !! l)
    ∧ (∀ u, u ≠ v → arrays_of <$> heap s' !! u = arrays_of <$> heap s !! u).
Proof.
  intros Hw Ha Hbs Hcn Hok Hkids Hfuel Hv.
  rewrite (init_entries v fuel s w plan bs cn) by done.
  set (a1 := fresh (dom (childArrays s))).
  set (a2 := fresh (dom (classArrays s))).
  set (a3 := fresh (dom (<[a2 := bs]> (classArrays s)))).
  set (w4 := with_classNames a3 (with_classNameBindings a2 (with_childViews a1 w))).
  set (x := sliced s v w (map entry_value plan) bs cn).
  assert (childArrays s !! a1 = None) as Hf1 by apply lookup_fresh.
  assert (classArrays s !! a2 = None) as Hf2 by apply lookup_fresh.
  assert (<[a2 := bs]> (classArrays s) !! a3 = None) as Hf3' by apply lookup_fresh.
  assert (a2 ≠ a3) as Hne.
  { intros Heq. rewrite <- Heq, lookup_insert_eq in Hf3'. done. }
  assert (classArrays s !! a3 = None) as Hf3 by (by rewrite lookup_insert_ne in Hf3').
  assert (heap (children_created v a1 plan x) !! v = Some w4) as Hw4.
  { unfold children_created. cbn [heap emit_all set_childArrays].
    rewrite reparented_all_outside by done.
    subst x. unfold sliced. cbn [heap]. by rewrite lookup_alter_eq, Hw. }
  assert (childArrays (children_created v a1 plan x)
          = <[a1 := map entry_result plan]> (<[a1 := map entry_value plan]> (childArrays s)))
    as Hca.
  { unfold children_created. cbn [childArrays emit_all set_childArrays]. by subst x. }
  assert (classArrays (children_created v a1 plan x)
          = <[a3 := cn]> (<[a2 := bs]> (classArrays s))) as Hcl.
  { unfold children_created. cbn [classArrays emit_all set_childArrays].
    by destruct (reparented_all_other (Some v) (omap entry_kid plan) x) as (_ & -> & _). }
  assert (∀ l, is_Some (childArrays s !! l) →
            childArrays (children_created v a1 plan x) !! l = childArrays s !! l) as Hold.
  { intros l [arr Hl]. assert (l ≠ a1) as Hl' by congruence.
    by rewrite Hca, !lookup_insert_ne. }
  exists (children_created v a1 plan x), w4.
  split; [done|]. split; [done|]. split; [done|]. split.
  { split; [by rewrite Hca, lookup_insert_eq|].
    split; [by rewrite Hold, Ha|].
    split; [by rewrite Hcl, lookup_insert_ne, lookup_insert_eq|].
    by rewrite Hcl, lookup_insert_eq. }
  split.
  { intros l arr Hl. split; [by apply Hold|].
    destruct Hl as [arr0 Hl]. assert (l ≠ a1) as Hl' by congruence.
    change (childViews w4) with a1. rewrite lookup_insert_ne by done.
    apply Hold. by rewrite Hl. }
  split.
  { intros l arr arr' [a Hl]. rewrite Hcl.
    change (classNames w4) with a3. change (classNameBindings w4) with a2.
    split; rewrite !lookup_insert_ne by congruence; done. }
  intros u Hu. unfold children_created. cbn [heap emit_all set_childArrays].
  pose proof (fmap_option_eq _ _ _
    (reparented_all_orphan (Some v) (omap entry_kid plan) x u)) as Hou.
  rewrite <- (sliced_heap_other s v u w (map entry_value plan) bs cn) by done.
  fold x. destruct (heap (reparented_all _ _ x) !! u) as [wu'|], (heap x !! u) as [wu|];
    try done. cbn.
  apply orphan_fields in Hou as (_ & Hc1 & Hc2 & Hc3 & _).
  unfold arrays_of. by rewrite Hc1, Hc2, Hc3.
Qed.

(** C6, as the code has it.  [_applyClassNameBindings] registers one
    observer for each entry of [classNameBindings], in turn, on the view;
    the key it gives [SC.addObserver] is the entry as written, with the
    [:className] part when the entry has one, and not the property path
    [_classStringForProperty] reads, which is the part before the colon.
    An observer that is called takes the class it added last off the
    element, if there is one, and adds the class of the value the property
    has now, if there is one. *)
Theorem applyClassNameBindings_observes_entries (s : State) (v : vid) (w : View)
    (bs : list string) (arr : list value) :
  heap s !! v = Some w →
  classArrays s !! classNameBindings w = Some (map VStr bs) →
  classArrays s !! classNames w = Some arr →
  ∃ s',
    _applyClassNameBindings s v = Ret s'
    ∧ observers s' = observers s ++ map (observer_for s v) bs
    ∧ map obs_key (drop (length (observers s)) (observers s')) = bs
    ∧ map obs_binding (drop (length (observers s)) (observers s')) = bs
    ∧ Forall (λ o, obs_target o = v) (drop (length (observers s)) (observers s'))
    ∧ ∀ fuel x i o elem,
        observers x !! i = Some o →
        dollar fuel x (obs_target o) = Ret elem →
        ∃ x',
          run_observer fuel i x = Ret x'
          ∧ trace x'
            = trace x
              ++ (if truthy (obs_oldClass o)
                  then [JqRemoveClass elem (obs_oldClass o)] else [])
              ++ (if truthy (_classStringForProperty x (obs_target o) (obs_binding o))
                  then [JqAddClass elem
                          (_classStringForProperty x (obs_target o) (obs_binding o))]
                  else []).
Proof.
  intros Hw Hbs Harr. rewrite (applyClassNameBindings_run s v w bs arr) by done.
  eexists. split; [done|]. unfold bound. cbn [observers set_observers set_classArrays].
  split; [done|]. rewrite drop_app_length. split; [|split; [|split]].
  - rewrite map_map. simpl. apply map_id.
  - rewrite map_map. simpl. apply map_id.
  - apply Forall_map. simpl. by apply Forall_true.
  - intros fuel x i o elem Ho Helem.
    destruct (run_observer_run fuel i x o elem Ho Helem) as (x' & Hrun & Htrace & _).
    by exists x'.
Qed.

End Claims.

(** * Further properties *)

Section Further.
Context `{Runtime}.

(** [destroy] on a live hierarchy returns when the fuel is twice the depth
    of the hierarchy, plus what looking up the element of the parent takes;
    every view of the hierarchy is then marked as destroyed, the views
    outside are as they were, and the root is out of the [childViews] of its
    parent. *)
Theorem destroy_destroys_hierarchy (t : vtree) (fuel m : nat) (s : State) :
  live_tree s t → separate s t → parent_ready m s t →
  m + 2 * depth t ≤ fuel →
  ∃ s',
    destroy fuel s (root t) = Ret s'
    ∧ (∀ u, u ∈ preorder t → isDestroyed <$> heap s' !! u = Some true)
    ∧ (∀ u, u ∉ preorder t → heap s' !! u = heap s !! u)
    ∧ (∀ w p wp arr,
         heap s !! root t = Some w → parentView w = Some p →
         heap s !! p = Some wp → childArrays s !! childViews wp = Some arr →
         childArrays s' !! childViews wp = Some (removeObject (root t) arr)).
Proof.
  intros Hlive Hsep Hready Hfuel.
  destruct (destroy_tree t fuel m s) as (s' & Hrun & Hd); try done.
  exists s'. split; [done|]. split; [|split].
  - intros u Hu. destruct (d_isDestroyed _ _ _ Hd u Hu) as (w' & -> & Hw'). simpl.
    by rewrite Hw'.
  - apply (d_outside _ _ _ Hd).
  - apply (d_parent _ _ _ Hd).
Qed.

(** [destroyElement] on a view that has an element leaves the view with a
    null element and every view below it with no cached element; the views
    outside the hierarchy, the [childViews] arrays and the registry are as
    they were. *)
Theorem destroyElement_clears_elements (t : vtree) (fuel : nat) (s : State) (e : Elem) :
  tree_at s t → depth t ≤ fuel →
  get_element fuel s (root t) = Ret (Some e) →
  ∃ s',
    destroyElement fuel s (root t) = Ret s'
    ∧ element <$> heap s' !! root t = Some (Cached None)
    ∧ (∀ u, u ∈ below t → element <$> heap s' !! u = (λ _, NotCached) <$> heap s !! u)
    ∧ (∀ u, u ∉ preorder t → heap s' !! u = heap s !! u)
    ∧ childArrays s' = childArrays s
    ∧ views s' = views s.
Proof.
  intros Ht Hfuel He. rewrite (destroyElement_tree t fuel s e) by done.
  eexists. split; [done|].
  set (s1 := update_view (root t) (with_element (Cached None))
               (emit (JqRemove e) (emit_all (map WillDestroyElement (preorder t)) s))).
  pose proof (tree_at_acyclic _ _ Ht) as Hroot.
  destruct (tree_at_root_lookup _ _ Ht) as [w Hw].
  destruct (drop_elements_other (below t) s1) as (Hc & _ & Hv & _).
  split; [|split; [|split; [|split]]].
  - rewrite drop_elements_heap_other by done. subst s1. simpl.
    by rewrite lookup_alter_eq, Hw.
  - intros u Hu. rewrite drop_elements_heap_in by done. subst s1. simpl.
    rewrite lookup_alter_ne by (intros Heq; apply Hroot; by rewrite Heq). done.
  - intros u Hu. rewrite preorder_below in Hu. apply not_elem_of_cons in Hu as [Hne Hu].
    rewrite drop_elements_heap_other by done. subst s1. simpl.
    by rewrite lookup_alter_ne.
  - by rewrite Hc.
  - by rewrite Hv.
Qed.

End Further.

Section LifecycleTheorems.
Context `{Runtime}.

(** [createElement] on a view without an element gives it one, and a second
    call changes nothing: the view is rendered once and [didCreateElement]
    is called once.  [appendTo] creates the element when there is none and
    appends the element the view has, never the empty jQuery object. *)
Theorem createElement_once (t : vtree) (fuel : nat) (s : State) :
  tree_at s t → render_ok (preorder t) s → depth t ≤ fuel →
  get_element fuel s (root t) = Ret None →
  ∃ s' e,
    createElement fuel s (root t) = Ret s'
    ∧ get_element fuel s' (root t) = Ret (Some e)
    ∧ createElement fuel s' (root t) = Ret s'
    ∧ appendTo fuel s (root t) = Ret (s', Some e)
    ∧ appendTo fuel s' (root t) = Ret (s', Some e).
Proof.
  intros Ht Hok Hfuel Habsent.
  destruct (createElement_run t fuel s Ht Hok Hfuel Habsent)
    as (s1 & b & Hrun & _ & Hf1 & _).
  destruct (tree_at_root_lookup _ _ Ht) as [w Hw].
  destruct (render_frame_lookup_back _ _ _ _ _ Hf1 Hw) as (w1 & Hw1 & _).
  assert (tree_at s1 t) as Ht1.
  { eapply tree_at_same_kids; [by eapply render_frame_same_kids | done]. }
  assert (get_element fuel (created t b s1) (root t) = Ret (Some (buffer_element b)))
    as Hget.
  { destruct fuel as [|f]; [destruct t; simpl in Hfuel; lia|].
    by apply (get_element_cached f _ _ _ _ (created_root t b s1 w1 Ht1 Hw1)). }
  exists (created t b s1), (buffer_element b).
  split; [done|]. split; [done|]. split; [|split].
  - unfold createElement, createElement_with. by rewrite Hget.
  - unfold appendTo, dollar. rewrite Habsent. cbn [mbind outcome_bind].
    rewrite Hrun. cbn [mbind outcome_bind]. by rewrite Hget.
  - unfold appendTo, dollar. rewrite Hget. cbn [mbind outcome_bind]. by rewrite Hget.
Qed.

(** The element can be created again after it was destroyed: the hooks are
    called in the order [didCreateElement], [willDestroyElement],
    [didCreateElement], each time top-down, and the second element is built
    by the same calls on the buffer as the first, up to the class names. *)
Theorem element_round_trip (t : vtree) (fuel : nat) (s : State) :
  tree_at s t → render_ok (preorder t) s → depth t ≤ fuel →
  get_element fuel s (root t) = Ret None →
  ∃ s1 s2 s3 b1 b3,
    createElement fuel s (root t) = Ret s1
    ∧ element <$> heap s1 !! root t = Some (Cached (Some (buffer_element b1)))
    ∧ destroyElement fuel s1 (root t) = Ret s2
    ∧ element <$> heap s2 !! root t = Some (Cached None)
    ∧ createElement fuel s2 (root t) = Ret s3
    ∧ element <$> heap s3 !! root t = Some (Cached (Some (buffer_element b3)))
    ∧ outline b3 = outline b1
    ∧ trace s3 = trace s
                 ++ map DidCreateElement (preorder t)
                 ++ map WillDestroyElement (preorder t)
                 ++ [JqRemove (buffer_element b1)]
                 ++ map DidCreateElement (preorder t).
Proof.
  intros Ht Hok Hfuel Habsent.
  destruct fuel as [|f]; [destruct t; simpl in Hfuel; lia|].
  destruct (createElement_run t (S f) s Ht Hok Hfuel Habsent)
    as (r1 & b1 & Hrun1 & Hout1 & Hf1 & Hc1).
  destruct (tree_at_root_lookup _ _ Ht) as [w Hw].
  destruct (render_frame_lookup_back _ _ _ _ _ Hf1 Hw) as (w1 & Hw1 & _).
  assert (tree_at r1 t) as Htr1.
  { eapply tree_at_same_kids; [by eapply render_frame_same_kids | done]. }
  pose proof (render_ok_frame _ _ _ Hok Hf1 Hc1) as Hokr1.
  set (s1 := created t b1 r1) in *.
  destruct (created_other t b1 r1) as (Hca1 & Hcl1 & _ & _ & Htr_1).
  assert (tree_at s1 t) as Hts1.
  { eapply tree_at_same_kids; [|exact Htr1].
    apply same_kids_skeleton; [done | apply created_skeleton]. }
  pose proof (created_root t b1 r1 w1 Htr1 Hw1) as Hroot1. fold s1 in Hroot1.
  pose proof (get_element_cached f _ _ _ _ Hroot1 eq_refl) as Hget1.
  pose proof (destroyElement_tree t (S f) s1 (buffer_element b1) Hts1 Hfuel Hget1) as Hrun2.
  fold (element_destroyed t (buffer_element b1) s1) in Hrun2.
  set (s2 := element_destroyed t (buffer_element b1) s1) in *.
  destruct (element_destroyed_other t (buffer_element b1) s1) as (Hca2 & Hcl2 & _ & _ & Htr_2).
  assert (∀ u, skeleton <$> (heap s2 !! u) = skeleton <$> (heap r1 !! u)) as Hsk2.
  { intros u. subst s2 s1. by rewrite element_destroyed_skeleton, created_skeleton. }
  assert (tree_at s2 t) as Hts2.
  { eapply tree_at_same_kids; [|exact Htr1].
    apply same_kids_skeleton; [|done]. subst s2. by rewrite Hca2. }
  assert (render_ok (preorder t) s2) as Hok2.
  { apply (render_ok_skeleton _ r1); [done | | done]. subst s2. by rewrite Hcl2. }
  pose proof (element_destroyed_root t (buffer_element b1) s1 _ Hts1 Hroot1) as Hroot2.
  fold s2 in Hroot2.
  pose proof (get_element_cached f _ _ _ _ Hroot2 eq_refl) as Hget2.
  destruct (createElement_run t (S f) s2 Hts2 Hok2 Hfuel Hget2)
    as (r3 & b3 & Hrun3 & Hout3 & Hf3 & _).
  destruct (render_frame_lookup_back _ _ _ _ _ Hf3 Hroot2) as (w3 & Hw3 & _).
  assert (tree_at r3 t) as Htr3.
  { eapply tree_at_same_kids; [by eapply render_frame_same_kids | done]. }
  exists s1, s2, (created t b3 r3), b1, b3.
  split; [done|]. split; [by rewrite Hroot1|].
  split; [done|]. split; [by rewrite Hroot2|].
  split; [done|]. split; [by rewrite (created_root t b3 r3 w3 Htr3 Hw3)|].
  split.
  - rewrite Hout3, Hout1.
    rewrite (tag_of_skeleton r1 s2), (view_calls_skeleton r1 s2) by done.
    by rewrite (tag_of_frame _ _ _ _ Hf1), (view_calls_frame _ _ _ _ Hf1).
  - destruct (created_other t b3 r3) as (_ & _ & _ & _ & ->).
    rewrite (rf_trace _ _ _ Hf3). subst s2. rewrite Htr_2. subst s1. rewrite Htr_1.
    rewrite (rf_trace _ _ _ Hf1). by rewrite <- !app_assoc.
Qed.

(** After [createElement] on a view, the element of a child view is the
    element jQuery finds under the child's [elementId] in the element of the
    view: the children have no cached element of their own. *)
Theorem child_element_found_in_parent (v : vid) (kids : list vtree) (fuel : nat)
    (s : State) :
  tree_at s (VNode v kids) → render_ok (preorder (VNode v kids)) s →
  depth (VNode v kids) ≤ fuel →
  get_element fuel s v = Ret None →
  ∃ s' e,
    createElement fuel s v = Ret s'
    ∧ get_element fuel s' v = Ret (Some e)
    ∧ ∀ k wk, k ∈ kids → heap s !! root k = Some wk → parentView wk = Some v →
        element <$> heap s' !! root k = Some NotCached
        ∧ get_element fuel s' (root k) = Ret (jQuery_id (elementId wk) e).
Proof.
  intros Ht Hok Hfuel Habsent.
  destruct (createElement_run (VNode v kids) fuel s Ht Hok Hfuel Habsent)
    as (s1 & b & Hrun & _ & Hf1 & _).
  cbn [root] in Hrun.
  destruct (tree_at_root_lookup _ _ Ht) as [w Hw]. cbn [root] in Hw.
  destruct (render_frame_lookup_back _ _ _ _ _ Hf1 Hw) as (w1 & Hw1 & _).
  assert (tree_at s1 (VNode v kids)) as Ht1.
  { eapply tree_at_same_kids; [by eapply render_frame_same_kids | done]. }
  pose proof (created_root _ b s1 w1 Ht1 Hw1) as Hroot. cbn [root] in Hroot.
  exists (created (VNode v kids) b s1), (buffer_element b).
  split; [done|].
  assert (∀ f, get_element (S f) (created (VNode v kids) b s1) v
               = Ret (Some (buffer_element b))) as Hget.
  { intros f. by apply (get_element_cached f _ _ _ _ Hroot). }
  split.
  { destruct fuel as [|f]; [simpl in Hfuel; lia|]. apply Hget. }
  intros k wk Hin Hwk Hpar.
  assert (root k ∈ below (VNode v kids)) as Hbelow.
  { unfold below. cbn [subtrees]. eapply preorder_kid; [done | apply preorder_root]. }
  destruct (render_frame_lookup_back _ _ _ _ _ Hf1 Hwk) as (wk1 & Hwk1 & Hun).
  pose proof (fmap_option_eq _ _ _ (created_skeleton (VNode v kids) b s1 (root k))) as Hsk.
  pose proof (drop_elements_heap_in (below (VNode v kids))
                (update_view v (with_element (Cached (Some (buffer_element b)))) s1)
                (root k) Hbelow) as Hel.
  change (heap (drop_elements (below (VNode v kids))
                  (update_view v (with_element (Cached (Some (buffer_element b)))) s1)))
    with (heap (created (VNode v kids) b s1)) in Hel.
  rewrite Hwk1 in Hsk.
  destruct (heap (created (VNode v kids) b s1) !! root k) as [wk'|] eqn:Hwk'; [|done].
  apply skeleton_all_fields in Hsk as (_ & _ & _ & _ & Hid & Hpv & _).
  assert (element wk' = NotCached) as Hnc.
  { cbn [heap update_view set_heap] in Hel.
    rewrite lookup_alter_ne in Hel.
    2:{ intros Heq. apply (tree_at_acyclic _ _ Ht1). cbn [root]. by rewrite Heq. }
    rewrite Hwk1 in Hel. cbn in Hel. by injection Hel. }
  split; [cbn; by rewrite Hnc|].
  assert (parentView wk1 = parentView wk ∧ elementId wk1 = elementId wk) as [Hpv1 Hid1].
  { split; [exact (f_equal parentView Hun) | exact (f_equal elementId Hun)]. }
  destruct fuel as [|[|f]]; [simpl in Hfuel; lia | |].
  { exfalso. simpl in Hfuel. pose proof (depth_kid k kids Hin). destruct k. simpl in *. lia. }
  cbn [get_element]. rewrite (lookup_view_Some _ _ _ Hwk'). cbn [mbind outcome_bind].
  rewrite Hnc, Hpv, Hpv1, Hpar.
  change (get_element (S f) (created (VNode v kids) b s1) v
          ≫= (λ parent, match parent with
                         | Some parentElem => Ret (findElementInParentElement wk' parentElem)
                         | None => Ret None
                         end)
          = Ret (jQuery_id (elementId wk) (buffer_element b))).
  rewrite Hget. cbn [mbind outcome_bind]. unfold findElementInParentElement.
  by rewrite Hid, Hid1.
Qed.

End LifecycleTheorems.

Section BindingTheorems.
Context `{Runtime}.

Lemma applyAttributesToBuffer_run (s : State) (v : vid) (w : View) (bs : list string)
    (arr : list value) (b : list BufCall) :
  heap s !! v = Some w →
  classArrays s !! classNameBindings w = Some (map VStr bs) →
  classArrays s !! classNames w = Some arr →
  applyAttributesToBuffer s v b
  = Ret (bound s v (classNames w) arr bs,
         b ++ [BAddClass (join " " (arr ++ classes_for s v bs)); BId (elementId w)]
           ++ (if truthy (ariaRole w)
               then [BAttr "role" (join_text (ariaRole w))] else [])
           ++ (if isVisible w then [] else [BStyle "display" "none"])).
Proof.
  intros Hw Hbs Harr. unfold applyAttributesToBuffer.
  rewrite (applyClassNameBindings_run s v w bs arr) by done.
  cbn [mbind outcome_bind].
  assert (heap (bound s v (classNames w) arr bs) !! v = Some w) as Hw1 by done.
  rewrite (lookup_view_Some _ _ _ Hw1). cbn [mbind outcome_bind].
  assert (classArrays (bound s v (classNames w) arr bs) !! classNames w
          = Some (arr ++ classes_for s v bs)) as ->.
  { unfold bound. cbn [classArrays set_observers set_classArrays].
    by rewrite lookup_insert_eq. }
  cbn [of_option mbind outcome_bind]. f_equal. f_equal.
  destruct (truthy (ariaRole w)), (isVisible w); cbn [app];
    rewrite <- ?app_assoc; cbn [app]; by rewrite ?app_nil_r.
Qed.

(** Every rendering of a view applies its class-name bindings anew: the
    class strings in force are pushed onto [classNames] again and one more
    observer per entry is registered, so the second rendering writes the
    bound classes twice.  The attributes written are the class names joined
    by spaces, the [elementId], the role when [ariaRole] is set, and
    [display: none] when the view is not visible. *)
Theorem class_bindings_accumulate (s : State) (v : vid) (w : View) (bs : list string)
    (arr : list value) (b b' : list BufCall) :
  heap s !! v = Some w →
  classArrays s !! classNameBindings w = Some (map VStr bs) →
  classArrays s !! classNames w = Some arr →
  classNames w ≠ classNameBindings w →
  let added := classes_for s v bs in
  let rest := (if truthy (ariaRole w)
               then [BAttr "role" (join_text (ariaRole w))] else [])
              ++ (if isVisible w then [] else [BStyle "display" "none"]) in
  ∃ s1 s2,
    applyAttributesToBuffer s v b
    = Ret (s1, b ++ [BAddClass (join " " (arr ++ added)); BId (elementId w)] ++ rest)
    ∧ applyAttributesToBuffer s1 v b'
      = Ret (s2, b' ++ [BAddClass (join " " (arr ++ added ++ added)); BId (elementId w)]
                    ++ rest)
    ∧ observers s2
      = observers s ++ map (observer_for s v) bs ++ map (observer_for s v) bs
    ∧ classArrays s2 !! classNames w = Some (arr ++ added ++ added).
Proof.
  intros Hw Hbs Harr Hne added rest.
  set (s1 := bound s v (classNames w) arr bs).
  assert (heap s1 = heap s) as Hh by done.
  assert (heap s1 !! v = Some w) as Hw1 by done.
  assert (classArrays s1 !! classNameBindings w = Some (map VStr bs)) as Hbs1.
  { subst s1. unfold bound. cbn [classArrays set_observers set_classArrays].
    by rewrite lookup_insert_ne. }
  assert (classArrays s1 !! classNames w = Some (arr ++ added)) as Harr1.
  { subst s1. unfold bound. cbn [classArrays set_observers set_classArrays].
    by rewrite lookup_insert_eq. }
  exists s1, (bound s1 v (classNames w) (arr ++ added) bs).
  split; [by apply applyAttributesToBuffer_run|].
  split.
  { rewrite (applyAttributesToBuffer_run s1 v w bs (arr ++ added) b') by done.
    by rewrite (classes_for_heap s s1), <- app_assoc by done. }
  split.
  - unfold bound at 1. cbn [observers set_observers set_classArrays].
    rewrite (map_ext _ _ (λ b0, observer_for_heap s s1 v b0 Hh)).
    subst s1. unfold bound. cbn [observers set_observers set_classArrays].
    by rewrite <- app_assoc.
  - unfold bound at 1. cbn [classArrays set_observers set_classArrays].
    by rewrite lookup_insert_eq, (classes_for_heap s s1), <- app_assoc by done.
Qed.

End BindingTheorems.

Section AdoptionTheorems.
Context `{Runtime}.

(** [init] makes the view the parent of each of its child views and drops
    the cached elements of the views below it.  No other view gets another
    parent, no view is marked as destroyed, and the views outside the
    hierarchy are as they were. *)
Theorem init_adopts_children (v : vid) (kids : list vtree) (fuel : nat) (s : State)
    (w : View) (bs cn : list value) :
  tree_at s (VNode v kids) → heap s !! v = Some w →
  classArrays s !! classNameBindings w = Some bs →
  classArrays s !! classNames w = Some cn →
  depth (VNode v kids) ≤ S fuel →
  ∃ s',
    init fuel s v = Ret s'
    ∧ (∀ k, k ∈ kids → parentView <$> heap s' !! root k = Some (Some v))
    ∧ (∀ u, u ∈ below (VNode v kids) → element <$> heap s' !! u = Some NotCached)
    ∧ (∀ u, (∀ k, k ∈ kids → root k ≠ u) →
            parentView <$> heap s' !! u = parentView <$> heap s !! u)
    ∧ (∀ u, isDestroyed <$> heap s' !! u = isDestroyed <$> heap s !! u)
    ∧ (∀ u, u ∉ preorder (VNode v kids) → heap s' !! u = heap s !! u).
Proof.
  intros Ht Hw Hbs Hcn Hfuel.
  rewrite (init_run v kids fuel s w bs cn) by done.
  set (x := sliced s v w (entries kids) bs cn).
  pose proof (sliced_tree s v w kids bs cn Ht) as Hkids. fold x in Hkids.
  pose proof (tree_at_acyclic _ _ Ht) as Hacyclic.
  assert (∀ u, u ∈ below (VNode v kids) → u ≠ v) as Hbelow.
  { intros u Hu ->. by apply Hacyclic. }
  assert (∀ u, u ∈ below (VNode v kids) → is_Some (heap s !! u)) as Hsome.
  { intros u Hu. destruct (below_subtree _ _ _ Ht Hu) as (t' & Ht' & <- & _).
    destruct (tree_at_root_lookup _ _ Ht') as [wu Hwu]. by eexists. }
  eexists. split; [done|]. split; [|split; [|split; [|split]]].
  - intros k Hin. rewrite reparented_all_parent_in by done.
    assert (root k ∈ below (VNode v kids)) as Hk.
    { unfold below. cbn [subtrees]. eapply preorder_kid; [done | apply preorder_root]. }
    subst x. rewrite sliced_heap_other by (by apply Hbelow).
    by destruct (Hsome _ Hk) as [wk ->].
  - intros u Hu. rewrite reparented_all_element by done.
    subst x. rewrite sliced_heap_other by (by apply Hbelow).
    by destruct (Hsome _ Hu) as [wk ->].
  - intros u Hu. rewrite reparented_all_parent_out by done.
    pose proof (sliced_orphan s v u w (entries kids) bs cn) as Hs. fold x in Hs.
    destruct (heap x !! u), (heap s !! u); try done. cbn in Hs |- *. congruence.
  - intros u.
    pose proof (fmap_option_eq _ _ _ (reparented_all_orphan (Some v) kids x u)) as Ho.
    pose proof (sliced_orphan s v u w (entries kids) bs cn) as Hs. fold x in Hs.
    destruct (heap (reparented_all (Some v) kids x) !! u) as [w'|], (heap x !! u) as [wx|];
      try done; destruct (heap s !! u) as [ws|]; try done.
    cbn in Hs |- *. apply orphan_fields in Ho as (_ & _ & _ & _ & -> & _). congruence.
  - intros u Hu. cbn [preorder] in Hu. apply not_elem_of_cons in Hu as [Hne Hu].
    rewrite reparented_all_outside by done. subst x. by apply sliced_heap_other.
Qed.

End AdoptionTheorems.

Section InitDestroy.
Context `{Runtime}.

(** A view that is initialized and then destroyed, with child views that
    are live hierarchies: both calls return, every view of the hierarchy is
    marked as destroyed and has no entry in [SC.View.views], and the entries
    under the ids of other views are what they were before [init]. *)
Theorem init_then_destroy (v : vid) (kids : list vtree) (fuel fuel' m : nat)
    (s : State) (w : View) (bs cn : list value) :
  heap s !! v = Some w → isDestroyed w = false →
  childArrays s !! childViews w = Some (entries kids) →
  Forall (live_tree s) kids →
  separate s (VNode v kids) → parent_ready m s (VNode v kids) →
  classArrays s !! classNameBindings w = Some bs →
  classArrays s !! classNames w = Some cn →
  depth (VNode v kids) ≤ S fuel →
  m + 2 * depth (VNode v kids) ≤ fuel' →
  ∃ s1 s2,
    init fuel s v = Ret s1
    ∧ views s1 !! elementId w = Some v
    ∧ destroy fuel' s1 v = Ret s2
    ∧ (∀ u wu, u ∈ preorder (VNode v kids) → heap s !! u = Some wu →
         views s2 !! elementId wu = None
         ∧ isDestroyed <$> heap s2 !! u = Some true)
    ∧ (∀ key,
         (∀ u wu, u ∈ preorder (VNode v kids) → heap s !! u = Some wu →
                  elementId wu ≠ key) →
         views s2 !! key = views s !! key).
Proof.
  intros Hw Hlive Harr Hkids Hsep Hready Hbs Hcn Hfuel Hfuel'.
  set (t := VNode v kids) in *.
  assert (tree_at s t) as Ht.
  { constructor; [unfold kids_of; by rewrite Hw|].
    rewrite Forall_forall in Hkids |- *. intros k Hin. by apply live_tree_tree_at, Hkids. }
  rewrite (init_run v kids fuel s w bs cn) by done.
  set (a1 := fresh (dom (childArrays s))).
  set (x := sliced s v w (entries kids) bs cn).
  set (s1 := reparented_all (Some v) kids x).
  set (w4 := with_classNames (fresh (dom (<[fresh (dom (classArrays s)) := bs]> (classArrays s))))
               (with_classNameBindings (fresh (dom (classArrays s)))
                  (with_childViews a1 w))).
  destruct Hsep as [Hnd Hinj]. pose proof Hnd as Hnd'.
  subst t. cbn [preorder] in Hnd'. apply NoDup_cons in Hnd' as [Hv Hndk].
  set (t := VNode v kids) in *.
  assert (∀ u, u ∈ preorder t → u ≠ v → u ∈ concat (map preorder kids)) as Hin_kids.
  { intros u Hu Hne. cbn [preorder] in Hu. by apply elem_of_cons in Hu as [->|Hu]. }
  assert (heap s1 !! v = Some w4) as Hw1.
  { subst s1. rewrite reparented_all_outside by done. subst x. unfold sliced.
    cbn [heap]. by rewrite lookup_alter_eq, Hw. }
  assert (∀ u, u ≠ v → orphan <$> (heap s1 !! u) = orphan <$> (heap s !! u)) as Ho.
  { intros u Hne. subst s1. rewrite reparented_all_orphan. subst x.
    by rewrite sliced_heap_other. }
  assert (childArrays s1 = <[a1 := entries kids]> (childArrays s)) as Hca.
  { subst s1. by destruct (reparented_all_other (Some v) kids x) as (-> & _). }
  assert (views s1 = <[elementId w := v]> (views s)) as Hviews.
  { subst s1. by destruct (reparented_all_other (Some v) kids x) as (_ & _ & -> & _). }
  assert (∀ l, is_Some (childArrays s !! l) → l ≠ a1) as Hfresh.
  { intros l [arr Hl] ->. subst a1. by rewrite lookup_fresh in Hl. }
  assert (∀ u wu, u ∈ concat (map preorder kids) → heap s !! u = Some wu →
            is_Some (childArrays s !! childViews wu)) as Hsome.
  { intros u wu Hu Hwu.
    destruct (below_subtree s t u Ht) as (t' & Ht' & <- & _); [done|].
    destruct t' as [u' ks]. apply tree_at_kids in Ht' as [Hk _].
    destruct (kids_of_lookup _ _ _ Hk) as (w0 & Hw0 & Ha0). cbn [root] in Hwu.
    rewrite Hwu in Hw0. injection Hw0 as <-. by eexists. }
  assert (∀ u, u ∈ preorder t → u ≠ v → loc_of s1 u = loc_of s u) as Hloc.
  { intros u Hu Hne. unfold loc_of.
    pose proof (fmap_option_eq _ _ _ (Ho u Hne)) as Hou.
    destruct (heap s1 !! u), (heap s !! u); try done. simpl.
    by apply orphan_fields in Hou as (_ & -> & _). }
  assert (loc_of s1 v = Some a1) as Hlocv by (unfold loc_of; by rewrite Hw1).
  assert (∀ u, u ∈ preorder t → u ≠ v → loc_of s u ≠ Some a1) as Hloc1.
  { intros u Hu Hne Heq. unfold loc_of in Heq.
    destruct (heap s !! u) as [wu|] eqn:Hwu; [|done]. cbn in Heq. injection Heq as Heq.
    apply (Hfresh (childViews wu)); [|done]. apply (Hsome u wu); [|done].
    by apply Hin_kids. }
  (* the hierarchy is live after [init] *)
  assert (live_tree s1 t) as Hlive1.
  { apply (live_node s1 v w4 kids); try done.
    - by rewrite Hca, lookup_insert_eq.
    - rewrite Forall_forall in Hkids |- *. intros k Hin.
      assert (∀ u, u ∈ preorder k → u ∈ concat (map preorder kids)) as Hsub.
      { intros u Hu. by eapply preorder_kid. }
      assert (∀ u, u ∈ preorder k → u ≠ v) as Hnev.
      { intros u Hu ->. by apply Hv, Hsub. }
      apply (live_tree_reparented s s1 k); [| | | by apply Hkids].
      + intros u Hu. by apply Ho, Hnev.
      + intros u wu Hu Hwu. rewrite Hca, lookup_insert_ne; [done|].
        intros Heq. apply (Hfresh (childViews wu)); [|done].
        by apply (Hsome u wu); [apply Hsub|].
      + intros u Hu. subst s1. rewrite reparented_all_parent_out.
        * subst x. rewrite sliced_heap_other; [done|].
          apply Hnev. rewrite preorder_below. by right.
        * intros k' Hin' Heq.
          apply list_elem_of_lookup_1 in Hin as [i Hi].
          apply list_elem_of_lookup_1 in Hin' as [i' Hi'].
          destruct (decide (i = i')) as [<-|Hne].
          { rewrite Hi in Hi'. injection Hi' as <-.
            assert (tree_at s k) as Htk.
            { apply live_tree_tree_at, Hkids. by eapply list_elem_of_lookup_2. }
            apply (tree_at_acyclic _ _ Htk). by rewrite Heq. }
          { apply (NoDup_concat_kids kids i' i k' k (root k') Hndk Hi' Hi);
              [done | apply preorder_root |].
            rewrite Heq, preorder_below. by right. }
    - rewrite Forall_forall. intros k Hin.
      assert (root k ∈ concat (map preorder kids)) as Hk.
      { eapply preorder_kid; [done | apply preorder_root]. }
      assert (root k ≠ v) as Hne by (intros Heq; apply Hv; by rewrite <- Heq).
      pose proof (reparented_all_parent_in (Some v) kids x k Hin) as Hp. fold s1 in Hp.
      subst x. rewrite sliced_heap_other in Hp by done.
      rewrite Forall_forall in Hkids.
      destruct (tree_at_root_lookup _ _ (live_tree_tree_at _ _ (Hkids k Hin))) as [wk Hwk].
      rewrite Hwk in Hp. destruct (heap s1 !! root k) as [wk'|]; [|done].
      exists wk'. split; [done|]. cbn in Hp. by injection Hp. }
  assert (separate s1 t) as Hsep1.
  { split; [done|]. intros u u' Hu Hu' Heq.
    destruct (decide (u = v)) as [->|Hne], (decide (u' = v)) as [->|Hne']; [done| | |].
    - rewrite Hlocv, Hloc in Heq by done. exfalso. by apply (Hloc1 u' Hu' Hne').
    - rewrite Hlocv, Hloc in Heq by done. exfalso. by apply (Hloc1 u Hu Hne).
    - rewrite !Hloc in Heq by done. by apply Hinj. }
  assert (parent_ready m s1 t) as Hready1.
  { intros w1 p Hw1' Hp. cbn [root t] in Hw1'. rewrite Hw1 in Hw1'. injection Hw1' as <-.
    destruct (Hready w p Hw Hp) as (Hout & (wp & arr & Hwp & Harrp & Hlocp) & Hel).
    assert (∀ u, u ∉ preorder t → heap s1 !! u = heap s !! u) as Hsame.
    { intros u Hu. cbn [preorder t] in Hu. apply not_elem_of_cons in Hu as [Hne Hu].
      subst s1. rewrite reparented_all_outside by done. subst x.
      by apply sliced_heap_other. }
    split; [done|]. split.
    - exists wp, arr. split; [by rewrite Hsame|]. split.
      + rewrite Hca, lookup_insert_ne; [done|]. intros Heq.
        by apply (Hfresh (childViews wp)); [eexists|].
      + intros u Hu. destruct (decide (u = v)) as [->|Hne].
        * rewrite Hlocv. intros [= Heq]. by apply (Hfresh (childViews wp)); [eexists|].
        * rewrite Hloc by done. by apply Hlocp.
    - intros x' Hx'. apply Hel. intros u Hu. by rewrite Hx', Hsame. }
  destruct (destroy_tree t fuel' m s1 Hlive1 Hsep1 Hready1 Hfuel') as (s2 & Hrun & Hd).
  exists s1, s2. split; [done|]. split; [by rewrite Hviews, lookup_insert_eq|].
  split; [done|]. split.
  - intros u wu Hu Hwu.
    assert (∃ w1, heap s1 !! u = Some w1 ∧ elementId w1 = elementId wu) as (w1 & Hu1 & Hid).
    { destruct (decide (u = v)) as [->|Hne].
      - exists w4. split; [done|]. rewrite Hw in Hwu. by injection Hwu as <-.
      - pose proof (fmap_option_eq _ _ _ (Ho u Hne)) as Hou. rewrite Hwu in Hou.
        destruct (heap s1 !! u) as [w1|]; [|done]. exists w1. split; [done|].
        by apply orphan_fields in Hou as (-> & _). }
    split.
    + rewrite <- Hid. by apply (d_unregistered _ _ _ Hd u w1).
    + destruct (d_isDestroyed _ _ _ Hd u Hu) as (w2 & -> & Hw2). cbn. by rewrite Hw2.
  - intros key Hkey.
    rewrite (d_kept _ _ _ Hd).
    + rewrite Hviews, lookup_insert_ne; [done|]. apply (Hkey v w); [|done]. simpl. left.
    + intros u w1 Hu Hu1.
      destruct (decide (u = v)) as [->|Hne].
      * rewrite Hw1 in Hu1. injection Hu1 as <-. apply (Hkey v w); [done|done].
      * pose proof (fmap_option_eq _ _ _ (Ho u Hne)) as Hou. rewrite Hu1 in Hou.
        destruct (heap s !! u) as [wu|] eqn:Hwu; [|done].
        apply orphan_fields in Hou as (-> & _). by apply (Hkey u wu).
Qed.

End InitDestroy.

Section RemovalTheorems.
Context `{Runtime}.

(** [removeFromParent] on a view with a parent destroys the element of the
    view, clears its [parentView] and takes it out of the [childViews] of
    the parent, where the other entries stay.  The view is not destroyed: it
    keeps its entry in [SC.View.views] and is not marked as destroyed. *)
Theorem removeFromParent_detaches (t : vtree) (fuel : nat) (s : State) (w wp : View)
    (p : vid) (arr : list value) (r : option Elem) :
  tree_at s t → depth t ≤ fuel →
  heap s !! root t = Some w → parentView w = Some p →
  heap s !! p = Some wp → childArrays s !! childViews wp = Some arr →
  get_element fuel s (root t) = Ret r →
  ∃ s',
    removeFromParent fuel s (root t) = Ret s'
    ∧ parentView <$> heap s' !! root t = Some None
    ∧ get_element fuel s' (root t) = Ret None
    ∧ childArrays s' = <[childViews wp := removeObject (root t) arr]> (childArrays s)
    ∧ (∀ y, y ∈ removeObject (root t) arr ↔ y ∈ arr ∧ y ≠ VView (root t))
    ∧ views s' = views s
    ∧ (∀ u, isDestroyed <$> heap s' !! u = isDestroyed <$> heap s !! u)
    ∧ (∀ u, u ≠ root t → parentView <$> heap s' !! u = parentView <$> heap s !! u).
Proof.
  intros Ht Hfuel Hw Hp Hwp Harr Hr.
  unfold removeFromParent, remove. rewrite (lookup_view_Some _ _ _ Hw).
  cbn [mbind outcome_bind].
  destruct (destroyElement_returns t fuel s r Ht Hfuel Hr) as (s1 & -> & Hs1).
  cbn [mbind outcome_bind]. rewrite Hp.
  assert (tree_at s1 t) as Ht1.
  { eapply tree_at_same_kids; [|done].
    apply same_kids_skeleton; [apply (ef_childArrays _ _ _ Hs1) | apply (ef_skeleton _ _ _ Hs1)]. }
  destruct (element_frame_lookup _ _ _ _ _ Hs1 Hwp) as (wp1 & Hwp1 & Hsk).
  apply skeleton_fields in Hsk as (_ & _ & Hcv & _).
  rewrite (removeChild_run t fuel s1 p wp1 arr Ht1 Hfuel Hwp1)
    by (by rewrite Hcv, (ef_childArrays _ _ _ Hs1)).
  eexists. split; [done|].
  destruct (element_frame_lookup _ _ _ _ _ Hs1 Hw) as (w1 & Hw1 & _).
  pose proof (reparented_root t None s1) as Hroot. rewrite Hw1 in Hroot.
  pose proof (reparented_element s1 t None (root t) Ht1 (preorder_root t)) as Hel.
  rewrite Hw1 in Hel.
  cbn [heap childArrays views set_childArrays].
  destruct (reparented_other t None s1) as (Hca & _ & Hv & _).
  split; [exact Hroot|]. split.
  { destruct fuel as [|f]; [destruct t; simpl in Hfuel; lia|].
    cbn [get_element]. unfold lookup_view. cbn [heap set_childArrays].
    destruct (heap (reparented t None s1) !! root t) as [w'|]; [|done].
    cbn in Hroot, Hel |- *. injection Hroot as ->. by injection Hel as ->. }
  split; [by rewrite Hcv, (ef_childArrays _ _ _ Hs1)|].
  split; [intros y; apply removeObject_spec|].
  split; [by rewrite Hv, (ef_views _ _ _ Hs1)|]. split.
  - intros u.
    pose proof (fmap_option_eq _ _ _ (reparented_orphan t None s1 u)) as Ho.
    pose proof (fmap_option_eq _ _ _ (ef_skeleton _ _ _ Hs1 u)) as Hsk.
    destruct (heap (reparented t None s1) !! u), (heap s1 !! u); try done;
      destruct (heap s !! u); try done. cbn.
    apply orphan_fields in Ho as (_ & _ & _ & _ & -> & _).
    by apply skeleton_fields in Hsk as (_ & _ & _ & ->).
  - intros u Hu. rewrite reparented_parent by done.
    pose proof (fmap_option_eq _ _ _ (ef_skeleton _ _ _ Hs1 u)) as Hsk.
    destruct (heap s1 !! u), (heap s !! u); try done. cbn.
    by apply skeleton_fields in Hsk as (_ & -> & _).
Qed.

(** [removeAllChildren] on a view whose child views are distinct views with
    arrays of their own: it returns, [childViews] is then empty and no child
    view has a parent.  The child views are not destroyed and keep their
    entries in [SC.View.views]; no other view gets another parent. *)
Theorem removeAllChildren_detaches_all (v : vid) (kids : list vtree) (fuel : nat)
    (s : State) (w : View) :
  tree_at s (VNode v kids) → separate s (VNode v kids) →
  heap s !! v = Some w → depth (VNode v kids) ≤ S fuel →
  ∃ s',
    removeAllChildren fuel s v = Ret s'
    ∧ childArrays s' = <[childViews w := []]> (childArrays s)
    ∧ (∀ k, k ∈ kids → parentView <$> heap s' !! root k = Some None)
    ∧ (∀ u, (∀ k, k ∈ kids → root k ≠ u) →
            parentView <$> heap s' !! u = parentView <$> heap s !! u)
    ∧ (∀ u, isDestroyed <$> heap s' !! u = isDestroyed <$> heap s !! u)
    ∧ views s' = views s.
Proof.
  intros Ht [Hnd Hinj] Hw Hfuel.
  pose proof (tree_at_kids _ _ _ Ht) as [Hk Hkids].
  destruct (kids_of_lookup _ _ _ Hk) as (w0 & Hw0 & Ha).
  rewrite Hw in Hw0. injection Hw0 as <-.
  cbn [preorder] in Hnd. apply NoDup_cons in Hnd as [Hv Hndk].
  set (a := childViews w) in *.
  unfold removeAllChildren, mutateChildViews. rewrite (lookup_view_Some _ _ _ Hw).
  cbn [mbind outcome_bind]. fold a. rewrite Ha. cbn [of_option mbind outcome_bind].
  set (st := λ j, set_childArrays (<[a := entries (take j kids)]> (childArrays s))
                    (reparented_all None (reverse (drop j kids)) s)).
  assert (∀ l, heap (st l) = heap (reparented_all None (reverse (drop l kids)) s)) as Hheap by done.
  assert (∀ j u, orphan <$> (heap (st j) !! u) = orphan <$> (heap s !! u)) as Ho.
  { intros j u. rewrite Hheap. apply reparented_all_orphan. }
  assert (∀ u wu, u ∈ concat (map preorder kids) → heap s !! u = Some wu →
            childViews wu ≠ a) as Hloc.
  { intros u wu Hu Hwu Heq. apply Hv.
    rewrite <- (Hinj u v); [done | by right | by left |].
    unfold loc_of. by rewrite Hwu, Hw; cbn; rewrite Heq. }
  destruct (mutate_from_run
              (λ s x, view ← as_view x; removeChild fuel s v view)
              a (λ j x, x = st j) (length (entries kids)) s) as (s' & -> & ->).
  - unfold entries. rewrite length_map. subst st. cbn beta.
    rewrite firstn_all, drop_all. cbn [reverse reparented_all foldl].
    rewrite insert_id by done. by destruct s.
  - intros i x Hi ->. unfold entries in Hi. rewrite length_map in Hi.
    destruct (lookup_lt_is_Some_2 kids i Hi) as [k Hik].
    assert (k ∈ kids) as Hin by (by eapply list_elem_of_lookup_2).
    assert (childArrays (st (S i)) !! a = Some (entries (take (S i) kids))) as Hai.
    { subst st. cbn [childArrays set_childArrays]. by rewrite lookup_insert_eq. }
    assert (entry_at (st (S i)) a i = VView (root k)) as ->.
    { unfold entry_at. rewrite Hai. simpl. unfold entries.
      rewrite list_lookup_fmap, lookup_take_lt, Hik by lia. done. }
    cbn [as_view mbind outcome_bind].
    assert (tree_at (st (S i)) k) as Htk.
    { rewrite Forall_forall in Hkids. apply (tree_at_frame s); [|by apply Hkids].
      intros u Hu. unfold kids_of.
      pose proof (fmap_option_eq _ _ _ (Ho (S i) u)) as Hou.
      destruct (heap (st (S i)) !! u) as [wu'|], (heap s !! u) as [wu|] eqn:Hwu; try done.
      cbn. apply orphan_fields in Hou as (_ & Hcv & _). rewrite Hcv.
      subst st. cbn [childArrays set_childArrays]. rewrite lookup_insert_ne; [done|].
      intros Heq. apply (Hloc u wu); [by eapply preorder_kid | done | done]. }
    destruct (orphan_lookup s (st (S i)) v w (Ho (S i)) Hw) as (wv & Hwv & Heq).
    apply orphan_fields in Heq as (_ & Hcv & _). fold a in Hcv.
    rewrite (removeChild_run k fuel (st (S i)) v wv (entries (take (S i) kids)) Htk);
      [| pose proof (depth_kid k kids Hin); simpl in Hfuel; lia | done | by rewrite Hcv].
    eexists. split; [done|]. rewrite Hcv.
    rewrite (removeObject_last kids i k Hik).
    2:{ intros i' k' Hik' Hlt Heq.
        apply (NoDup_concat_kids kids i' i k' k (root k') Hndk Hik' Hik);
          [lia | apply preorder_root | rewrite Heq; apply preorder_root]. }
    subst st. cbn beta. cbn [childArrays set_childArrays].
    rewrite reparented_set_childArrays, insert_insert_eq.
    rewrite (drop_S kids k i Hik), reverse_cons, reparented_all_snoc. done.
  - subst st. cbn beta. rewrite take_0, drop_0. cbn [entries map].
    eexists. split; [done|]. cbn [childArrays heap views set_childArrays].
    destruct (reparented_all_other None (reverse kids) s) as (_ & _ & Hviews & _).
    split; [done|]. split; [|split; [|split]].
    + intros k Hin. rewrite reparented_all_parent_in by (by apply elem_of_reverse).
      rewrite Forall_forall in Hkids.
      by destruct (tree_at_root_lookup _ _ (Hkids k Hin)) as [wk ->].
    + intros u Hu. apply reparented_all_parent_out. intros k Hin.
      apply Hu. by apply elem_of_reverse.
    + intros u.
      pose proof (fmap_option_eq _ _ _ (reparented_all_orphan None (reverse kids) s u)) as Hou.
      destruct (heap (reparented_all None (reverse kids) s) !! u), (heap s !! u); try done.
      cbn. by apply orphan_fields in Hou as (_ & _ & _ & _ & -> & _).
    + done.
Qed.

End RemovalTheorems.

Section DestructionTheorems.
Context `{Runtime}.

(** [destroyAllChildren] on a live hierarchy returns; every view below the
    view is then marked as destroyed and has no entry in [SC.View.views],
    and [childViews] is empty, each child having taken itself out.  The view
    itself is as it was, and so are the views outside the hierarchy. *)
Theorem destroyAllChildren_destroys_children (u : vid) (kids : list vtree)
    (fuel m : nat) (s : State) (w : View) :
  live_tree s (VNode u kids) → separate s (VNode u kids) →
  parent_ready m s (VNode u kids) →
  heap s !! u = Some w →
  m + 2 * depth (VNode u kids) ≤ S fuel →
  ∃ s',
    destroyAllChildren fuel s u = Ret s'
    ∧ childArrays s' !! childViews w = Some []
    ∧ heap s' !! u = Some w
    ∧ (∀ y wy, y ∈ below (VNode u kids) → heap s !! y = Some wy →
         views s' !! elementId wy = None
         ∧ isDestroyed <$> heap s' !! y = Some true)
    ∧ (∀ y, y ∉ preorder (VNode u kids) → heap s' !! y = heap s !! y).
Proof.
  intros Ht Hsep Hready Hw Hfuel.
  apply live_tree_inv in Ht as (w0 & Hw0 & Hlive & Harr & Hkids & Hpar).
  rewrite Hw in Hw0. injection Hw0 as <-.
  pose proof (element_frame_refl (VNode u kids) s) as Hs1.
  unfold destroyAllChildren, mutateChildViews. rewrite (lookup_view_Some _ _ _ Hw).
  cbn [mbind outcome_bind]. rewrite Harr. cbn [of_option mbind outcome_bind].
  destruct (mutate_from_run (λ s x, view ← as_view x; destroy fuel s view)
              (childViews w) (visited kids s s w) (length (entries kids)) s)
    as (s2 & -> & H2).
  { unfold entries. rewrite length_map. by apply (visited_start u). }
  { intros i x Hi Hx. unfold entries in Hi. rewrite length_map in Hi.
    destruct (lookup_lt_is_Some_2 kids i Hi) as [k Hk].
    assert (k ∈ kids) as Hin by (by eapply list_elem_of_lookup_2).
    assert (entry_at x (childViews w) i = VView (root k)) as ->.
    { unfold entry_at. rewrite (vis_array kids s s w _ _ Hx). simpl. unfold entries.
      rewrite list_lookup_fmap, lookup_take_lt, Hk by lia. done. }
    cbn [as_view mbind outcome_bind].
    destruct (destroy_tree k fuel (S m) x) as (x' & Hrun & Hd).
    - exact (kid_live u kids s s w Hw Hkids Hsep Hs1 i x k Hx Hk).
    - exact (kid_separate u kids s s w Hsep Hs1 i x k Hx Hk).
    - exact (kid_parent_ready u kids s s w m Hw Hpar Hsep Hready Hs1 i x k Hx Hk).
    - pose proof (depth_kid k kids Hin). simpl in Hfuel. lia.
    - exists x'. split; [done|].
      apply (visited_step u kids s s w Hw Hpar Hsep Hs1 i x x' k Hx Hk Hd).
      intros key. by eapply destroy_views_shrink. }
  exists s2. split; [done|].
  split; [exact (vis_array kids s s w _ _ H2)|].
  split; [by rewrite (visited_root u kids s s w Hsep 0 s2 H2)|].
  split.
  - intros y wy Hy Hwy. unfold below in Hy. cbn [subtrees] in Hy.
    apply elem_of_concat_preorder in Hy as (k & Hin & Hy).
    apply list_elem_of_lookup_1 in Hin as [i Hi]. split.
    + apply (vis_unregistered kids s s w _ _ H2 i k y wy); [done | lia | done | done].
    + destruct (vis_destroyed kids s s w _ _ H2 i k y) as (wy' & -> & Hd); [done | lia | done |].
      cbn. by rewrite Hd.
  - intros y Hy. by apply (visited_outside u kids s s w Hs1 0 s2 y H2).
Qed.

(** [destroy] on a live hierarchy leaves every observer registered, those
    of the destroyed views among them, and every array of class names as it
    was. *)
Theorem destroy_keeps_observers (t : vtree) (fuel m : nat) (s : State) :
  live_tree s t → separate s t → parent_ready m s t →
  m + 2 * depth t ≤ fuel →
  ∃ s',
    destroy fuel s (root t) = Ret s'
    ∧ observers s' = observers s
    ∧ classArrays s' = classArrays s.
Proof.
  intros Hlive Hsep Hready Hfuel.
  destruct (destroy_tree t fuel m s Hlive Hsep Hready Hfuel) as (s' & Hrun & _).
  exists s'. split; [done|].
  apply (destroy_keeps (λ x x', observers x' = observers x ∧ classArrays x' = classArrays x))
    in Hrun; try done.
  intros s1 s2 s3 [H1 H1'] [H2 H2']. split; congruence.
Qed.

End DestructionTheorems.

Section EntryTheorems.
Context `{Runtime}.

(** [createChildViews], entry by entry, on an array of falsy values, views
    and names of plain properties.  A falsy entry stays as it is.  A name
    under which the view holds nothing stays in the array and is reported to
    the logger.  A view, and a name under which the view holds a view, become
    that view, whose parent is now the view that is being set up.  The array
    keeps its length and the errors are logged in the order of the entries;
    the views outside the new children and the registry are as they were. *)
Theorem createChildViews_by_entry (v : vid) (fuel : nat) (x : State) (w : View)
    (plan : list child_entry) :
  heap x !! v = Some w →
  childArrays x !! childViews w = Some (map entry_value plan) →
  Forall (entry_ok w) plan →
  Forall (tree_at x) (omap entry_kid plan) →
  (∀ k, k ∈ omap entry_kid plan → depth k ≤ fuel) →
  v ∉ concat (map preorder (omap entry_kid plan)) →
  (∀ u wu, u ∈ concat (map preorder (omap entry_kid plan)) → heap x !! u = Some wu →
           childViews wu ≠ childViews w) →
  ∃ s',
    createChildViews fuel x v = Ret s'
    ∧ childArrays s' !! childViews w = Some (map entry_result plan)
    ∧ trace s' = trace x ++ (plan ≫= entry_errors)
    ∧ (∀ k, k ∈ omap entry_kid plan → parentView <$> heap s' !! root k = Some (Some v))
    ∧ (∀ u, u ∉ concat (map preorder (omap entry_kid plan)) → heap s' !! u = heap x !! u)
    ∧ views s' = views x.
Proof.
  intros Hw Ha Hok Hkids Hfuel Hv Hloc.
  rewrite (createChildViews_entries v fuel x w plan) by done.
  eexists. split; [done|]. unfold children_created.
  cbn [childArrays trace heap views emit_all set_childArrays].
  destruct (reparented_all_other (Some v) (omap entry_kid plan) x)
    as (_ & _ & Hviews & _ & Htrace).
  split; [by rewrite lookup_insert_eq|]. split; [by rewrite Htrace|].
  split; [|split; [|done]].
  - intros k Hk. rewrite reparented_all_parent_in by done.
    rewrite Forall_forall in Hkids.
    by destruct (tree_at_root_lookup _ _ (Hkids k Hk)) as [wk ->].
  - intros u Hu. by apply reparented_all_outside.
Qed.

End EntryTheorems.

Section NotifyOnce.
Context `{Runtime}.

(** [destroy] on a live hierarchy whose root holds the only cached element:
    [willDestroyElement] is called once on each view, top-down, and the
    element is removed from the DOM once.  The calls of [destroyElement]
    that the child views and [removeFromParent] make find no element. *)
Theorem destroy_notifies_once (t : vtree) (fuel m : nat) (s : State) (e : Elem) :
  live_tree s t → separate s t → parent_ready m s t →
  m + 2 * depth t ≤ fuel →
  element <$> heap s !! root t = Some (Cached (Some e)) →
  map_Forall (λ u wu, u ≠ root t → has_element wu = false) (heap s) →
  ∃ s',
    destroy fuel s (root t) = Ret s'
    ∧ trace s' = trace s ++ map WillDestroyElement (preorder t) ++ [JqRemove e].
Proof.
  intros Hlive Hsep Hready Hfuel Hroot Hall.
  destruct (heap s !! root t) as [w|] eqn:Hw; [|done].
  injection Hroot as He.
  assert (∀ u wu e', u ≠ root t → heap s !! u = Some wu →
            element wu ≠ Cached (Some e')) as Hothers.
  { intros u wu e' Hne Hwu Hel. specialize (Hall u wu Hwu Hne).
    unfold has_element in Hall. by rewrite Hel in Hall. }
  destruct (destroy_tree t fuel m s Hlive Hsep Hready Hfuel) as (s' & Hrun & _).
  exists s'. split; [done|].
  pose proof (live_tree_tree_at _ _ Hlive) as Ht.
  assert (isDestroyed w = false) as Hd.
  { destruct t as [v kids]. apply live_tree_inv in Hlive as (w0 & Hw0 & Hd0 & _).
    cbn [root] in Hw. rewrite Hw in Hw0. by injection Hw0 as <-. }
  destruct fuel as [|[|f]]; [destruct t; simpl in Hfuel; lia..|].
  cbn [destroy] in Hrun. rewrite (lookup_view_Some _ _ _ Hw) in Hrun.
  cbn [mbind outcome_bind] in Hrun. rewrite Hd in Hrun.
  rewrite (destroyElement_tree t (S f) s e) in Hrun;
    [| done | destruct t; simpl in *; lia | by apply (get_element_cached f s _ w)].
  fold (element_destroyed t e s) in Hrun. cbn [mbind outcome_bind] in Hrun.
  set (s1 := element_destroyed t e s) in *.
  assert (elementless s1) as Hs1.
  { intros u wu e' Hwu Hel.
    destruct (decide (u = root t)) as [->|Hne].
    - subst s1. rewrite (element_destroyed_root t e s w Ht Hw) in Hwu.
      injection Hwu as <-. done.
    - destruct (decide (u ∈ below t)) as [Hin|Hout].
      + pose proof (drop_elements_heap_in (below t)
                      (update_view (root t) (with_element (Cached None))
                         (emit (JqRemove e)
                            (emit_all (map WillDestroyElement (preorder t)) s)))
                      u Hin) as Hdrop.
        fold (element_destroyed t e s) in Hdrop. fold s1 in Hdrop.
        rewrite Hwu in Hdrop. destruct (heap _ !! u) in Hdrop; simplify_eq/=.
        congruence.
      + assert (heap s1 !! u = heap s !! u) as Hsame.
        { subst s1. unfold element_destroyed.
          rewrite drop_elements_heap_other by done. cbn [heap update_view set_heap emit emit_all].
          by rewrite lookup_alter_ne. }
        rewrite Hsame in Hwu. by apply (Hothers u wu e'). }
  destruct (element_destroyed_other t e s) as (_ & _ & _ & _ & Htrace1).
  fold s1 in Htrace1.
  (* the rest of [destroy] runs without elements *)
  destruct (mutateChildViews _ (root t) s1) as [s2| |] eqn:Hm; try done.
  cbn [mbind outcome_bind] in Hrun.
  assert (trace s2 = trace s1 ∧ elementless s2) as [Ht2 Hs2].
  { revert Hm. unfold mutateChildViews.
    destruct (lookup_view s1 (root t)) as [w0| |]; try done.
    cbn [mbind outcome_bind]. destruct (childArrays s1 !! childViews w0); try done.
    cbn [of_option mbind outcome_bind].
    apply (mutate_from_keeps _ _ (λ y, trace y = trace s1 ∧ elementless y)); [|done].
    intros x y x' [Htx Hx]. destruct y; try done. cbn [as_view mbind outcome_bind].
    intros Hrun'. apply (destroy_elementless (S f)) in Hrun' as [Ht' Hx']; [|done].
    by rewrite Ht'. }
  set (s3 := set_views _ s2) in Hrun.
  assert (elementless s3) as Hs3 by done.
  destruct (lookup_view s3 (root t)) as [w3| |]; try done.
  cbn [mbind outcome_bind] in Hrun.
  destruct (parentView w3).
  - destruct (removeFromParent (S f) s3 (root t)) as [s4| |] eqn:Hr; try done.
    cbn [mbind outcome_bind] in Hrun. injection Hrun as <-.
    apply removeFromParent_elementless in Hr as [Ht4 _]; [|done].
    cbn [trace update_view set_heap]. rewrite Ht4. subst s3. cbn [trace set_views].
    by rewrite Ht2, Htrace1.
  - cbn [mbind outcome_bind] in Hrun. injection Hrun as <-.
    cbn [trace update_view set_heap]. subst s3. cbn [trace set_views].
    by rewrite Ht2, Htrace1.
Qed.

End NotifyOnce.

(** * Examples *)

Section Examples.
#[local] Existing Instance example_runtime.

(** Case analysis on membership in a list that is written out. *)
Ltac enumerate H :=
  repeat (apply elem_of_cons in H as [->|H]); [..|by apply elem_of_nil in H].

(** The hypotheses of the theorems, at the examples. *)
Ltac tree_tac :=
  repeat match goal with
         | |- _ = _ => by vm_compute
         | |- tree_at _ _ => constructor
         | |- Forall _ _ => constructor
         end.

Lemma example_tree_at : tree_at example_state example_tree.
Proof. tree_tac. Qed.

Lemma rendered_tree_at : tree_at rendered_state example_tree.
Proof. tree_tac. Qed.

Ltac render_ok_tac :=
  let v := fresh "v" in let w := fresh "w" in
  let Hv := fresh "Hv" in let Hw := fresh "Hw" in
  intros v w Hv Hw; enumerate Hv; vm_compute in Hw; injection Hw as <-;
  (split; [reflexivity|]; split; [by eexists|]; split;
   [ let l := fresh "l" in let Hl := fresh "Hl" in
     intros l Hl; vm_compute in Hl; injection Hl as <-;
     first [ by exists [] | by exists ["isUrgent:urgent"; "priority"] ]
   | let u := fresh "u" in let wu := fresh "wu" in
     let Hu := fresh "Hu" in let Hwu := fresh "Hwu" in
     intros u wu Hu Hwu; enumerate Hu; vm_compute in Hwu; injection Hwu as <-;
     by vm_compute ]).

Lemma example_render_ok : render_ok (preorder example_tree) example_state.
Proof. render_ok_tac. Qed.


Ltac live_tree_tac :=
  repeat match goal with
         | |- _ = _ => by vm_compute
         | |- live_tree _ _ => eapply live_node
         | |- Forall _ _ => constructor
         | |- ∃ _, _ => eexists; split
         end.

Ltac separate_tac :=
  let u := fresh "u" in let u' := fresh "u" in
  let Hu := fresh "Hu" in let Hu' := fresh "Hu" in let Heq := fresh "Heq" in
  split;
  [ apply (bool_decide_unpack _); by vm_compute
  | intros u u' Hu Hu' Heq; enumerate Hu; enumerate Hu'; vm_compute in Heq; congruence ].

Lemma initialised_live_tree : live_tree initialised_state example_tree.
Proof. live_tree_tac. Qed.

Lemma initialised_separate : separate initialised_state example_tree.
Proof. separate_tac. Qed.

Lemma initialised_parent_ready : parent_ready 0 initialised_state example_tree.
Proof. intros w p Hw Hp. vm_compute in Hw. injection Hw as <-. discriminate. Qed.

(** ** The theorems at the examples *)

(** C10 at the example: no view has an element before [createElement]. *)
Lemma destroyElement_without_element_witness :
  destroyElement 5 example_state 0 = Ret example_state
  ∧ get_element 5 example_state 0 = Ret None.
Proof. apply (destroyElement_without_element 5 example_state 0). by vm_compute. Defined.

(** C9 at the example: [destroy] on [sc0] a second time. *)
Lemma destroy_idempotent_witness :
  isDestroyed <$> heap destroyed_state !! 0 = Some true
  ∧ destroy 1 destroyed_state 0 = Ret destroyed_state.
Proof.
  split; [by vm_compute|].
  eapply (destroy_idempotent 0 destroyed_state 0); by vm_compute.
Defined.

(** C5 at the bindings of the example: a class given after the colon, a
    dasherized name, a string value, and a property that is not set. *)
Lemma classStringForProperty_cases_witness :
  _classStringForProperty example_state 0 "isUrgent:urgent" = VStr "urgent"
  ∧ _classStringForProperty example_state 0 "isUrgent" = VStr "is-urgent"
  ∧ _classStringForProperty example_state 0 "priority" = VStr "high"
  ∧ _classStringForProperty example_state 0 "missing" = VNull.
Proof.
  split; [|split; [|split]].
  - pose proof (classStringForProperty_cases example_state 0 "isUrgent:urgent") as Hc.
    cbv zeta in Hc. destruct Hc as (Htrue & _ & _).
    rewrite Htrue by (by vm_compute). by vm_compute.
  - pose proof (classStringForProperty_cases example_state 0 "isUrgent") as Hc.
    cbv zeta in Hc. destruct Hc as (Htrue & _ & _).
    rewrite Htrue by (by vm_compute). by vm_compute.
  - pose proof (classStringForProperty_cases example_state 0 "priority") as Hc.
    cbv zeta in Hc. destruct Hc as (_ & Hvalue & _).
    rewrite Hvalue by (by vm_compute). by vm_compute.
  - pose proof (classStringForProperty_cases example_state 0 "missing") as Hc.
    cbv zeta in Hc. destruct Hc as (_ & _ & Hnone).
    apply Hnone. right. left. by vm_compute.
Defined.

(** C1, as the code has it, at the example. *)
Lemma destroyElement_keeps_observers_witness :
  ∃ s',
    destroyElement 5 rendered_state 0 = Ret s'
    ∧ trace s' = trace rendered_state
                 ++ map WillDestroyElement (preorder example_tree)
                 ++ [JqRemove rendered_element]
    ∧ element <$> heap s' !! root example_tree = Some (Cached None)
    ∧ get_element 5 s' (root example_tree) = Ret None
    ∧ observers s' = observers rendered_state.
Proof.
  apply (destroyElement_keeps_observers example_tree 5 rendered_state rendered_element).
  - exact rendered_tree_at.
  - vm_compute. lia.
  - by vm_compute.
Defined.

(** C1 as stated fails: [createElement] on [sc0] registers two observers,
    and both are registered after [destroyElement]. *)
Example observers_outlive_element :
  ∃ s1 s2,
    createElement 5 example_state 0 = Ret s1
    ∧ destroyElement 5 s1 0 = Ret s2
    ∧ observers example_state = []
    ∧ element <$> heap s2 !! 0 = Some (Cached None)
    ∧ observers s2
      = [mkObserver 0 "isUrgent:urgent" "isUrgent:urgent" (VStr "urgent");
         mkObserver 0 "priority" "priority" (VStr "high")].
Proof.
  exists rendered_state, (state_after rendered_state (destroyElement 5 rendered_state 0)).
  by vm_compute.
Qed.

(** C2, as the code has it, at the example. *)
Lemma willDestroyElement_top_down_witness :
  (∃ s', destroyElement 5 rendered_state 0 = Ret s'
         ∧ trace s' = trace rendered_state
                      ++ map WillDestroyElement (preorder example_tree)
                      ++ [JqRemove rendered_element])
  ∧ (∃ s', _notifyDidCreateElement 5 rendered_state 0 = Ret s'
           ∧ trace s' = trace rendered_state
                        ++ map DidCreateElement (preorder example_tree)).
Proof.
  apply (willDestroyElement_top_down example_tree 5 rendered_state rendered_element).
  - exact rendered_tree_at.
  - vm_compute. lia.
  - by vm_compute.
Defined.

(** C2 as stated fails: [willDestroyElement] is called on [sc0] before
    its child [sc1], and on [sc1] before its child [sc3], by
    [destroyElement] and by [destroy] alike. *)
Example parent_notified_before_children :
  ∃ s1 s2,
    destroyElement 5 rendered_state 0 = Ret s1
    ∧ destroy 9 rendered_state 0 = Ret s2
    ∧ kids_of rendered_state 0 = Some [VView 1; VView 2]
    ∧ kids_of rendered_state 1 = Some [VView 3]
    ∧ drop 4 (trace s1)
      = [WillDestroyElement 0; WillDestroyElement 1; WillDestroyElement 3;
         WillDestroyElement 2; JqRemove rendered_element]
    ∧ trace s2 = trace s1.
Proof.
  exists (state_after rendered_state (destroyElement 5 rendered_state 0)),
         (state_after rendered_state (destroy 9 rendered_state 0)).
  by vm_compute.
Qed.

(** C4, as the code has it, at the example. *)
Lemma createElement_renders_then_notifies_witness :
  ∃ s' buffer,
    createElement 5 example_state 0 = Ret s'
    ∧ element <$> heap s' !! 0 = Some (Cached (Some (buffer_element buffer)))
    ∧ outline buffer = BCreate (tag_of example_state 0) :: view_calls example_state example_tree
    ∧ trace s' = trace example_state ++ map DidCreateElement (preorder example_tree)
    ∧ ∃ s2,
        get_element 5 s2 0 = Ret (Some (buffer_element buffer))
        ∧ trace s2 = trace example_state
        ∧ s' = emit_all (map DidCreateElement (preorder example_tree)) s2
        ∧ ∀ hook, (∀ x u x', hook x u = Ret x' → same_kids x x') →
            createElement_with hook 5 example_state 0
            = foldM hook (preorder example_tree) s2.
Proof.
  apply (createElement_renders_then_notifies example_tree 5 example_state).
  - exact example_tree_at.
  - exact example_render_ok.
  - vm_compute. lia.
  - by vm_compute.
Defined.

(** A hook that needs the element of [sc0] finds it when [createElement]
    calls it, and would not find it before. *)
Example hooks_find_the_element :
  createElement_with element_hook 5 example_state 0 = Ret rendered_state
  ∧ foldM element_hook (preorder example_tree) example_state = Throw.
Proof. by vm_compute. Qed.

(** C4 as stated fails: [sc1] has a template and the child [sc3];
    [createElement] on [sc1] writes the output of the template and nothing
    for [sc3], and calls [didCreateElement] on both. *)
Example template_view_leaves_children_out :
  ∃ s',
    createElement 5 example_state 1 = Ret s'
    ∧ kids_of s' 1 = Some [VView 3]
    ∧ element <$> heap s' !! 1
      = Some (Cached (Some (Element [BCreate "ul"; BAddClass "sc-view"; BId "sc1";
                                     BPush "hello"])))
    ∧ trace s' = [DidCreateElement 1; DidCreateElement 3].
Proof.
  exists (state_after example_state (createElement 5 example_state 1)).
  by vm_compute.
Qed.


(** C8 at the example with named child views: the array the view had keeps
    the names, the new one holds the views. *)
Lemma init_copies_arrays_witness :
  ∃ s' w',
    init 3 named_state 0 = Ret s' ∧ heap s' !! 0 = Some w'
    ∧ childArrays named_state !! childViews w' = None
    ∧ classArrays named_state !! classNames w' = None
    ∧ childArrays s' !! childViews w' = Some [VView 1; VNull; VStr "nothing"; VView 2]
    ∧ childArrays s' !! 0 = Some [VStr "header"; VNull; VStr "nothing"; VView 2]
    ∧ classArrays s' !! classNames w' = Some [VStr "sc-view"]
    ∧ (∀ l arr arr', is_Some (classArrays named_state !! l) →
         classArrays s' !! l = classArrays named_state !! l
         ∧ <[classNames w' := arr]> (<[classNameBindings w' := arr']> (classArrays s')) !! l
           = classArrays named_state !! l).
Proof.
  destruct (init_copies_arrays 0 3 named_state
              (example_view "sc0" "div" None None 0 (<["header" := VView 1]> ∅))
              named_plan [VStr "isUrgent:urgent"; VStr "priority"] [VStr "sc-view"])
    as (s' & w' & Hrun & Hw' & (Hf1 & _ & Hf3 & _) & (Hnew & Hold & _ & Hcopy) & _
        & Hframe & _).
  - by vm_compute.
  - by vm_compute.
  - by vm_compute.
  - by vm_compute.
  - repeat constructor; by vm_compute.
  - tree_tac.
  - intros k Hk. enumerate Hk; vm_compute; lia.
  - apply (bool_decide_unpack _). by vm_compute.
  - exists s', w'. split; [exact Hrun|]. split; [exact Hw'|].
    split; [exact Hf1|]. split; [exact Hf3|]. split; [exact Hnew|].
    split; [exact Hold|]. split; [exact Hcopy | exact Hframe].
Defined.

(** The name of a method is no name of a child view: [createChildView]
    refuses what is found under it. *)
Example method_name_is_refused :
  createChildViews 3
    (set_childArrays (<[0 := [VStr "render"]]> (childArrays example_state)) example_state) 0
  = Throw.
Proof. by vm_compute. Qed.

(** C6, as the code has it, at the example. *)
Lemma applyClassNameBindings_observes_entries_witness :
  ∃ s', _applyClassNameBindings example_state 0 = Ret s'
        ∧ map obs_key (observers s') = ["isUrgent:urgent"; "priority"].
Proof.
  destruct (applyClassNameBindings_observes_entries example_state 0
              (example_view "sc0" "div" None None 0
                 (<["isUrgent" := VBool true]> (<["priority" := VStr "high"]> ∅)))
              ["isUrgent:urgent"; "priority"] [VStr "sc-view"])
    as (s' & Hrun & _ & Hkeys & _).
  - by vm_compute.
  - by vm_compute.
  - by vm_compute.
  - exists s'. split; [exact Hrun | exact Hkeys].
Defined.

(** C6: the observer of the binding [isUrgent:urgent] is registered under
    that string, so setting [isUrgent] to [false] calls no observer: the
    class string becomes [null] and the element keeps the class [urgent].
    The binding [priority], which has no colon, is kept in sync. *)
Example class_name_override_not_kept_in_sync :
  ∃ s1 s2 s3,
    createElement 5 example_state 0 = Ret s1
    ∧ map obs_key (observers s1) = ["isUrgent:urgent"; "priority"]
    ∧ _classStringForProperty s1 0 "isUrgent:urgent" = VStr "urgent"
    ∧ set 5 s1 0 "isUrgent" (VBool false) = Ret s2
    ∧ _classStringForProperty s2 0 "isUrgent:urgent" = VNull
    ∧ trace s2 = trace s1
    ∧ set 5 s1 0 "priority" (VStr "low") = Ret s3
    ∧ trace s3 = trace s1 ++ [JqRemoveClass (Some rendered_element) (VStr "high");
                              JqAddClass (Some rendered_element) (VStr "low")].
Proof.
  exists rendered_state,
         (state_after rendered_state (set 5 rendered_state 0 "isUrgent" (VBool false))),
         (state_after rendered_state (set 5 rendered_state 0 "priority" (VStr "low"))).
  by vm_compute.
Qed.

(** C3, as the code has it, at the example: [init], then [destroy]. *)
Lemma registry_follows_lifecycle_witness :
  ∃ s1 s2,
    init 3 example_state 0 = Ret s1
    ∧ views s1 !! "sc0" = Some 0
    ∧ destroy 9 s1 0 = Ret s2
    ∧ views s2 !! "sc0" = None
    ∧ views s2 !! "sc3" = None.
Proof.
  destruct (registry_follows_lifecycle example_tree 3 example_state
              (example_view "sc0" "div" None None 0
                 (<["isUrgent" := VBool true]> (<["priority" := VStr "high"]> ∅)))
              [VStr "isUrgent:urgent"; VStr "priority"] [VStr "sc-view"])
    as (s1 & Hinit & Hentry & _ & Hdestroy).
  - exact example_tree_at.
  - by vm_compute.
  - by vm_compute.
  - by vm_compute.
  - vm_compute. lia.
  - assert (Ret s1 = Ret initialised_state) as Hs1 by (rewrite <- Hinit; by vm_compute).
    injection Hs1 as ->.
    assert (∃ wx, heap initialised_state !! 0 = Some wx ∧ elementId wx = "sc0")
      as (wx & Hwx & Hid) by (eexists; split; by vm_compute).
    destruct (Hdestroy initialised_state wx 0 9) as (s2 & Hrun & Hgone & Hbelow & _).
    + exact initialised_live_tree.
    + exact initialised_separate.
    + exact initialised_parent_ready.
    + exact Hwx.
    + exact Hid.
    + vm_compute. lia.
    + exists initialised_state, s2. split; [exact Hinit|]. split; [exact Hentry|].
      split; [exact Hrun|]. split; [exact Hgone|].
      apply (Hbelow 3 (example_view "sc3" "li" None (Some 1) 3 ∅));
        [apply (bool_decide_unpack _); by vm_compute | by vm_compute].
Defined.

Lemma example_subtree_ready :
  parent_ready 1 example_state (VNode 1 [VNode 3 []]).
Proof.
  intros w p Hw Hp. vm_compute in Hw. injection Hw as <-. injection Hp as <-.
  split; [|split].
  - apply (bool_decide_unpack _). by vm_compute.
  - eexists _, _. split; [by vm_compute|]. split; [by vm_compute|].
    intros u Hu. enumerate Hu; by vm_compute.
  - intros x Hx. exists None. cbn [get_element]. unfold lookup_view.
    rewrite (Hx 0) by (apply (bool_decide_unpack _); by vm_compute).
    by vm_compute.
Qed.

Lemma example_subtree_live : live_tree example_state (VNode 1 [VNode 3 []]).
Proof. live_tree_tac. Qed.

Lemma example_subtree_separate : separate example_state (VNode 1 [VNode 3 []]).
Proof. separate_tac. Qed.

(** [destroy] on [sc1], a view with a parent. *)
Lemma destroy_destroys_hierarchy_witness :
  ∃ s', destroy 5 example_state 1 = Ret s'
        ∧ isDestroyed <$> heap s' !! 3 = Some true
        ∧ childArrays s' !! 0 = Some [VView 2].
Proof.
  destruct (destroy_destroys_hierarchy (VNode 1 [VNode 3 []]) 5 1 example_state)
    as (s' & Hrun & Hgone & _ & Hparent).
  - exact example_subtree_live.
  - exact example_subtree_separate.
  - exact example_subtree_ready.
  - vm_compute. lia.
  - exists s'. split; [exact Hrun|]. split.
    + apply Hgone. apply (bool_decide_unpack _). by vm_compute.
    + apply (Hparent (example_view "sc1" "ul" (Some "hello") (Some 0) 1 ∅) 0
               (example_view "sc0" "div" None None 0
                  (<["isUrgent" := VBool true]> (<["priority" := VStr "high"]> ∅)))
               [VView 1; VView 2]); by vm_compute.
Defined.

(** [destroyElement] on [sc0] after [createElement]. *)
Lemma destroyElement_clears_elements_witness :
  ∃ s', destroyElement 5 rendered_state 0 = Ret s'
        ∧ element <$> heap s' !! 0 = Some (Cached None)
        ∧ element <$> heap s' !! 3 = Some NotCached.
Proof.
  destruct (destroyElement_clears_elements example_tree 5 rendered_state rendered_element)
    as (s' & Hrun & Hroot & Hbelow & _).
  - exact rendered_tree_at.
  - vm_compute. lia.
  - by vm_compute.
  - exists s'. split; [exact Hrun|]. split; [exact Hroot|].
    etrans; [apply (Hbelow 3); apply (bool_decide_unpack _); by vm_compute|].
    by vm_compute.
Defined.

(** C3 as stated fails: two views with the same [elementId].  After [init]
    on both the entry is for the second, and [destroy] on the second
    removes it; the first view is alive all along. *)
Example shared_elementId_loses_entry :
  ∃ s1 s2 s3,
    init 1 clash_state 0 = Ret s1 ∧ init 1 s1 1 = Ret s2 ∧ destroy 2 s2 1 = Ret s3
    ∧ views s1 !! "dup" = Some 0
    ∧ views s2 !! "dup" = Some 1
    ∧ isDestroyed <$> heap s3 !! 0 = Some false
    ∧ views s3 !! "dup" = None.
Proof.
  exists (state_after clash_state (init 1 clash_state 0)),
         (state_after clash_state
            (init 1 (state_after clash_state (init 1 clash_state 0)) 1)),
         (state_after clash_state
            (destroy 2 (state_after clash_state
                          (init 1 (state_after clash_state (init 1 clash_state 0)) 1)) 1)).
  by vm_compute.
Qed.

Lemma Ret_inj {A : Type} (a b : A) : Ret a = Ret b → a = b.
Proof. by intros [= ->]. Qed.

(** [separate], checked view by view. *)
Lemma separate_by_cases (s : State) (t : vtree) :
  NoDup (preorder t) →
  Forall (λ u, Forall (λ u', loc_of s u = loc_of s u' → u = u') (preorder t)) (preorder t) →
  separate s t.
Proof.
  intros Hnd Hall. split; [done|]. intros u u' Hu Hu'.
  rewrite Forall_forall in Hall. specialize (Hall u Hu).
  rewrite Forall_forall in Hall. by apply Hall.
Qed.

Lemma example_live_tree : live_tree example_state example_tree.
Proof. live_tree_tac. Qed.

Lemma example_separate : separate example_state example_tree.
Proof. apply separate_by_cases; apply (bool_decide_unpack _); by vm_compute. Qed.

Lemma example_parent_ready : parent_ready 0 example_state example_tree.
Proof. intros w p Hw Hp. vm_compute in Hw. injection Hw as <-. discriminate. Qed.

Lemma rendered_live_tree : live_tree rendered_state example_tree.
Proof. live_tree_tac. Qed.

Lemma rendered_separate : separate rendered_state example_tree.
Proof. apply separate_by_cases; apply (bool_decide_unpack _); by vm_compute. Qed.

Lemma rendered_parent_ready : parent_ready 0 rendered_state example_tree.
Proof. intros w p Hw Hp. vm_compute in Hw. injection Hw as <-. discriminate. Qed.

(** ** The further properties at the examples *)

(** [createElement] and [appendTo] on [sc0], twice. *)
Lemma createElement_once_witness :
  createElement 5 example_state 0 = Ret rendered_state
  ∧ createElement 5 rendered_state 0 = Ret rendered_state
  ∧ appendTo 5 example_state 0 = Ret (rendered_state, Some rendered_element)
  ∧ appendTo 5 rendered_state 0 = Ret (rendered_state, Some rendered_element).
Proof.
  destruct (createElement_once example_tree 5 example_state)
    as (s' & e & Hrun & Hget & Hagain & Happend & Happend').
  - exact example_tree_at.
  - exact example_render_ok.
  - vm_compute. lia.
  - by vm_compute.
  - assert (s' = rendered_state) as Hs'
      by (apply Ret_inj; rewrite <- Hrun; by vm_compute).
    subst s'.
    assert (Some e = Some rendered_element) as He
      by (apply Ret_inj; rewrite <- Hget; by vm_compute).
    apply (inj Some) in He. subst e.
    exact (conj Hrun (conj Hagain (conj Happend Happend'))).
Defined.

(** The element of [sc0] created, destroyed and created again. *)
Lemma element_round_trip_witness :
  ∃ s1 s2 s3,
    createElement 5 example_state 0 = Ret s1
    ∧ destroyElement 5 s1 0 = Ret s2
    ∧ createElement 5 s2 0 = Ret s3
    ∧ trace s3 = map DidCreateElement [0; 1; 3; 2]
                 ++ map WillDestroyElement [0; 1; 3; 2]
                 ++ [JqRemove rendered_element]
                 ++ map DidCreateElement [0; 1; 3; 2].
Proof.
  destruct (element_round_trip example_tree 5 example_state)
    as (s1 & s2 & s3 & b1 & b3 & Hrun1 & Hel1 & Hrun2 & _ & Hrun3 & _ & _ & Htrace).
  - exact example_tree_at.
  - exact example_render_ok.
  - vm_compute. lia.
  - by vm_compute.
  - exists s1, s2, s3. split; [exact Hrun1|]. split; [exact Hrun2|].
    split; [exact Hrun3|]. rewrite Htrace.
    assert (s1 = rendered_state) as Hs1
      by (apply Ret_inj; rewrite <- Hrun1; by vm_compute).
    subst s1.
    assert (Some (Cached (Some (buffer_element b1)))
            = Some (Cached (Some rendered_element))) as Hb
      by (rewrite <- Hel1; by vm_compute).
    apply (f_equal (λ c, match c with
                         | Some (Cached (Some e)) => e
                         | _ => Element []
                         end)) in Hb.
    cbn beta iota in Hb. rewrite Hb. by vm_compute.
Defined.

(** The elements of the children [sc1] and [sc2] of [sc0] after
    [createElement] on [sc0]. *)
Lemma child_element_found_in_parent_witness :
  ∃ s',
    createElement 5 example_state 0 = Ret s'
    ∧ get_element 5 s' 1 = Ret (Some (Element [BId "sc1"]))
    ∧ get_element 5 s' 2 = Ret (Some (Element [BId "sc2"])).
Proof.
  destruct (child_element_found_in_parent 0 (subtrees example_tree) 5 example_state)
    as (s' & e & Hrun & Hget & Hkids).
  - exact example_tree_at.
  - exact example_render_ok.
  - vm_compute. lia.
  - by vm_compute.
  - exists s'. split; [exact Hrun|].
    assert (s' = rendered_state) as Hs'
      by (apply Ret_inj; rewrite <- Hrun; by vm_compute).
    subst s'.
    assert (Some e = Some rendered_element) as He
      by (apply Ret_inj; rewrite <- Hget; by vm_compute).
    apply (inj Some) in He. subst e. split.
    + destruct (Hkids (VNode 1 [VNode 3 []])
                  (example_view "sc1" "ul" (Some "hello") (Some 0) 1 ∅)) as [_ Hk];
        [repeat constructor | by vm_compute | by vm_compute |].
      etrans; [exact Hk | by vm_compute].
    + destruct (Hkids (VNode 2 []) (example_view "sc2" "span" None (Some 0) 2 ∅))
        as [_ Hk];
        [repeat constructor | by vm_compute | by vm_compute |].
      etrans; [exact Hk | by vm_compute].
Defined.

(** The attributes of [sc0], written twice. *)
Lemma class_bindings_accumulate_witness :
  ∃ s1 s2,
    applyAttributesToBuffer example_state 0 []
    = Ret (s1, [BAddClass "sc-view urgent high"; BId "sc0"])
    ∧ applyAttributesToBuffer s1 0 []
      = Ret (s2, [BAddClass "sc-view urgent high urgent high"; BId "sc0"])
    ∧ length (observers s2) = 4.
Proof.
  pose proof (class_bindings_accumulate example_state 0
                (example_view "sc0" "div" None None 0
                   (<["isUrgent" := VBool true]> (<["priority" := VStr "high"]> ∅)))
                ["isUrgent:urgent"; "priority"] [VStr "sc-view"] [] []) as Hacc.
  cbv zeta in Hacc.
  destruct Hacc as (s1 & s2 & Hrun1 & Hrun2 & Hobs & _).
  - by vm_compute.
  - by vm_compute.
  - by vm_compute.
  - by vm_compute.
  - exists s1, s2. split; [rewrite Hrun1; by vm_compute|].
    split; [rewrite Hrun2; by vm_compute|]. rewrite Hobs. by vm_compute.
Defined.

(** [init] on [sc0]. *)
Lemma init_adopts_children_witness :
  ∃ s',
    init 3 example_state 0 = Ret s'
    ∧ parentView <$> heap s' !! 1 = Some (Some 0)
    ∧ parentView <$> heap s' !! 2 = Some (Some 0)
    ∧ parentView <$> heap s' !! 3 = Some (Some 1).
Proof.
  destruct (init_adopts_children 0 (subtrees example_tree) 3 example_state
              (example_view "sc0" "div" None None 0
                 (<["isUrgent" := VBool true]> (<["priority" := VStr "high"]> ∅)))
              [VStr "isUrgent:urgent"; VStr "priority"] [VStr "sc-view"])
    as (s' & Hrun & Hkids & _ & Hothers & _).
  - exact example_tree_at.
  - by vm_compute.
  - by vm_compute.
  - by vm_compute.
  - vm_compute. lia.
  - exists s'. split; [exact Hrun|]. split; [|split].
    + apply (Hkids (VNode 1 [VNode 3 []])). repeat constructor.
    + apply (Hkids (VNode 2 [])). repeat constructor.
    + rewrite Hothers; [by vm_compute|]. intros k Hk. enumerate Hk; by vm_compute.
Defined.

(** [init] and then [destroy] on [sc0]. *)
Lemma init_then_destroy_witness :
  ∃ s1 s2,
    init 3 example_state 0 = Ret s1
    ∧ views s1 !! "sc0" = Some 0
    ∧ destroy 9 s1 0 = Ret s2
    ∧ views s2 !! "sc0" = None
    ∧ views s2 !! "sc3" = None
    ∧ views s2 !! "other" = views example_state !! "other".
Proof.
  destruct (init_then_destroy 0 (subtrees example_tree) 3 9 0 example_state
              (example_view "sc0" "div" None None 0
                 (<["isUrgent" := VBool true]> (<["priority" := VStr "high"]> ∅)))
              [VStr "isUrgent:urgent"; VStr "priority"] [VStr "sc-view"])
    as (s1 & s2 & Hrun1 & Hentry & Hrun2 & Hgone & Hkept).
  - by vm_compute.
  - reflexivity.
  - by vm_compute.
  - live_tree_tac.
  - exact example_separate.
  - exact example_parent_ready.
  - by vm_compute.
  - by vm_compute.
  - vm_compute. lia.
  - vm_compute. lia.
  - exists s1, s2. split; [exact Hrun1|]. split; [exact Hentry|]. split; [exact Hrun2|].
    split; [|split].
    + apply (Hgone 0 (example_view "sc0" "div" None None 0
                        (<["isUrgent" := VBool true]> (<["priority" := VStr "high"]> ∅))));
        [apply (bool_decide_unpack _); by vm_compute | by vm_compute].
    + apply (Hgone 3 (example_view "sc3" "li" None (Some 1) 3 ∅));
        [apply (bool_decide_unpack _); by vm_compute | by vm_compute].
    + apply Hkept. intros u wu Hu Hwu.
      enumerate Hu; vm_compute in Hwu; injection Hwu as <-; by vm_compute.
Defined.

(** [removeFromParent] on [sc1], a child of [sc0]. *)
Lemma removeFromParent_detaches_witness :
  ∃ s',
    removeFromParent 5 example_state 1 = Ret s'
    ∧ parentView <$> heap s' !! 1 = Some None
    ∧ childArrays s' !! 0 = Some [VView 2]
    ∧ views s' !! "sc1" = Some 1.
Proof.
  destruct (removeFromParent_detaches (VNode 1 [VNode 3 []]) 5 example_state
              (example_view "sc1" "ul" (Some "hello") (Some 0) 1 ∅)
              (example_view "sc0" "div" None None 0
                 (<["isUrgent" := VBool true]> (<["priority" := VStr "high"]> ∅)))
              0 [VView 1; VView 2] None)
    as (s' & Hrun & Hparent & _ & Harr & _ & Hviews & _).
  - tree_tac.
  - vm_compute. lia.
  - by vm_compute.
  - reflexivity.
  - by vm_compute.
  - by vm_compute.
  - by vm_compute.
  - exists s'. split; [exact Hrun|]. split; [exact Hparent|].
    split; [rewrite Harr; by vm_compute | rewrite Hviews; by vm_compute].
Defined.

(** [removeAllChildren] on [sc0]. *)
Lemma removeAllChildren_detaches_all_witness :
  ∃ s',
    removeAllChildren 4 example_state 0 = Ret s'
    ∧ childArrays s' !! 0 = Some []
    ∧ parentView <$> heap s' !! 1 = Some None
    ∧ parentView <$> heap s' !! 2 = Some None
    ∧ views s' = views example_state.
Proof.
  destruct (removeAllChildren_detaches_all 0 (subtrees example_tree) 4 example_state
              (example_view "sc0" "div" None None 0
                 (<["isUrgent" := VBool true]> (<["priority" := VStr "high"]> ∅))))
    as (s' & Hrun & Harr & Hkids & _ & _ & Hviews).
  - exact example_tree_at.
  - exact example_separate.
  - by vm_compute.
  - vm_compute. lia.
  - exists s'. split; [exact Hrun|]. split; [rewrite Harr; by vm_compute|].
    split; [|split; [|exact Hviews]].
    + apply (Hkids (VNode 1 [VNode 3 []])). repeat constructor.
    + apply (Hkids (VNode 2 [])). repeat constructor.
Defined.

(** [destroyAllChildren] on [sc0]. *)
Lemma destroyAllChildren_destroys_children_witness :
  ∃ s',
    destroyAllChildren 5 example_state 0 = Ret s'
    ∧ childArrays s' !! 0 = Some []
    ∧ isDestroyed <$> heap s' !! 0 = Some false
    ∧ isDestroyed <$> heap s' !! 3 = Some true
    ∧ views s' !! "sc3" = None.
Proof.
  destruct (destroyAllChildren_destroys_children 0 (subtrees example_tree) 5 0
              example_state
              (example_view "sc0" "div" None None 0
                 (<["isUrgent" := VBool true]> (<["priority" := VStr "high"]> ∅))))
    as (s' & Hrun & Harr & Hroot & Hbelow & _).
  - exact example_live_tree.
  - exact example_separate.
  - exact example_parent_ready.
  - by vm_compute.
  - vm_compute. lia.
  - exists s'. split; [exact Hrun|]. split; [exact Harr|].
    split; [etrans; [exact (f_equal (fmap isDestroyed) Hroot) | by vm_compute]|].
    destruct (Hbelow 3 (example_view "sc3" "li" None (Some 1) 3 ∅)) as [Hgone Hdead];
      [apply (bool_decide_unpack _); by vm_compute | by vm_compute |].
    split; [exact Hdead | exact Hgone].
Defined.

(** [destroy] on [sc0] after [createElement]: the two observers stay. *)
Lemma destroy_keeps_observers_witness :
  ∃ s',
    destroy 9 rendered_state 0 = Ret s'
    ∧ map obs_target (observers s') = [0; 0]
    ∧ isDestroyed <$> heap s' !! 0 = Some true.
Proof.
  destruct (destroy_keeps_observers example_tree 9 0 rendered_state)
    as (s' & Hrun & Hobs & _).
  - exact rendered_live_tree.
  - exact rendered_separate.
  - exact rendered_parent_ready.
  - vm_compute. lia.
  - exists s'. split; [exact Hrun|]. split; [rewrite Hobs; by vm_compute|].
    assert (s' = state_after rendered_state (destroy 9 rendered_state 0)) as Hs'
      by (apply Ret_inj; rewrite <- Hrun; by vm_compute).
    subst s'. by vm_compute.
Defined.

(** [createChildViews] on a view with the four kinds of entries. *)
Lemma createChildViews_by_entry_witness :
  ∃ s',
    createChildViews 3 named_state 0 = Ret s'
    ∧ childArrays s' !! 0 = Some [VView 1; VNull; VStr "nothing"; VView 2]
    ∧ trace s' = [LoggerError "nothing"]
    ∧ parentView <$> heap s' !! 1 = Some (Some 0).
Proof.
  destruct (createChildViews_by_entry 0 3 named_state
              (example_view "sc0" "div" None None 0 (<["header" := VView 1]> ∅))
              named_plan)
    as (s' & Hrun & Harr & Htrace & Hkids & _).
  - by vm_compute.
  - by vm_compute.
  - repeat constructor; by vm_compute.
  - tree_tac.
  - intros k Hk. enumerate Hk; vm_compute; lia.
  - apply (bool_decide_unpack _). by vm_compute.
  - intros u wu Hu Hwu. enumerate Hu; vm_compute in Hwu; injection Hwu as <-; by vm_compute.
  - exists s'. split; [exact Hrun|]. split; [exact Harr|]. split; [exact Htrace|].
    apply (Hkids (VNode 1 [VNode 3 []])). repeat constructor.
Defined.

(** [destroy] on [sc0] after [createElement]: four hooks and one removal. *)
Lemma destroy_notifies_once_witness :
  ∃ s',
    destroy 9 rendered_state 0 = Ret s'
    ∧ trace s' = trace rendered_state
                 ++ [WillDestroyElement 0; WillDestroyElement 1; WillDestroyElement 3;
                     WillDestroyElement 2; JqRemove rendered_element].
Proof.
  apply (destroy_notifies_once example_tree 9 0 rendered_state rendered_element).
  - exact rendered_live_tree.
  - exact rendered_separate.
  - exact rendered_parent_ready.
  - vm_compute. lia.
  - by vm_compute.
  - apply (bool_decide_unpack _). by vm_compute.
Defined.

End Examples.
